(** * Gradient checking in deepnn: the parameter roller, the central-difference
      estimator and the discrepancy scorer

    The development embeds the two gradient checkers of the repository,

    - [utils/gradient_check.py]  (dictionary based: [params_to_vector],
      [vector_to_params], [calculate_diff], [GradientCheck.run]), and
    - [src/utils/gradient_checker.py]  (layer based: [roll_params],
      [unroll_params], [calculate_diff], [GradientChecker.compute_error]),

    and states their properties.  Scalars are IEEE 754 binary64 numbers, the
    dtype of every array the two files build ([np.zeros], [np.empty]); they
    are the [spec_float]s of the standard library at precision 53, with
    round-to-nearest-even written out by [SpecFloat].  The one operation whose
    rounding numpy does not fix is the sum inside [np.linalg.norm]: the
    scorers and the two drivers come a second time with that sum as a
    parameter ([calculate_diff_by], [run_by], [compute_error_by]), and what
    depends on the order of that sum is said of these. *)

From Stdlib Require Import String DecimalString SpecFloat.
From Stdlib Require Import ZArith Lia Bool Arith PeanoNat List.
From Stdlib Require DecimalNat DecimalFacts.
Import ListNotations.

Set Implicit Arguments.

(* ------------------------------------------------------------------ *)
(** ** binary64 scalars *)

Module F64.

Definition prec : Z := 53.
Definition emax : Z := 1024.

Definition float64 : Type := spec_float.

Definition add : float64 -> float64 -> float64 := SFadd prec emax.
Definition sub : float64 -> float64 -> float64 := SFsub prec emax.
Definition mul : float64 -> float64 -> float64 := SFmul prec emax.
Definition div : float64 -> float64 -> float64 := SFdiv prec emax.
Definition sqrt : float64 -> float64 := SFsqrt prec emax.

(** Python's [x > y], [x == y] on floats: false as soon as one side is NaN. *)
Definition gtb (x y : float64) : bool := SFltb y x.
Definition ltb (x y : float64) : bool := SFltb x y.
Definition eqb (x y : float64) : bool := SFeqb x y.

Definition zero : float64 := S754_zero false.
Definition nan : float64 := S754_nan.
(** [2.0], the value of the integer literal [2] once numpy promotes it. *)
Definition two : float64 := S754_finite false 4503599627370496 (-51).
(** [2e-7], the literal of [GradientCheck.run], i.e. 0x1.ad7f29abcaf48p-23. *)
Definition tol : float64 := S754_finite false 7555786372591432 (-75).

Definition leb (x y : float64) : bool := SFleb x y.

Definition is_zero (x : float64) : bool :=
  match x with S754_zero _ => true | _ => false end.

Definition is_finite (x : float64) : bool :=
  match x with S754_zero _ | S754_finite _ _ _ => true | _ => false end.

End F64.

Import F64.

(* ------------------------------------------------------------------ *)
(** ** Python results and dictionaries *)

Inductive exn : Type :=
| KeyError
| ValueError
| IndexError
| AssertionError.

Inductive result (A : Type) : Type :=
| Ok (a : A)
| Raise (e : exn).

Arguments Ok {A} a.
Arguments Raise {A} e.

(** A [dict]: insertion ordered, as Python's.  [dict_set] on a key that is
    present replaces the value in place, otherwise it appends. *)
Definition dict (V : Type) : Type := list (string * V).

Fixpoint dict_get {V : Type} (d : dict V) (k : string) : option V :=
  match d with
  | [] => None
  | (k', v) :: d' => if String.eqb k k' then Some v else dict_get d' k
  end.

Fixpoint dict_set {V : Type} (d : dict V) (k : string) (v : V) : dict V :=
  match d with
  | [] => [(k, v)]
  | (k', v') :: d' =>
      if String.eqb k k' then (k', v) :: d' else (k', v') :: dict_set d' k v
  end.

Definition dict_keys {V : Type} (d : dict V) : list string := map fst d.

(* ------------------------------------------------------------------ *)
(** ** The fragment of numpy the checkers use *)

Module Numpy.

(** An [ndarray]: its [shape] and its elements in C (row-major) order. *)
Record ndarray : Type := mk_ndarray { shape : list nat; data : list float64 }.

(** A 1-D array, or an (n, 1) column: both are a sequence of n scalars. *)
Definition vec : Type := list float64.

Definition size (s : list nat) : nat := fold_right Nat.mul 1 s.

(** numpy's own invariant on an array. *)
Definition wf (a : ndarray) : Prop := length (data a) = size (shape a).

Definition ndim (a : ndarray) : nat := length (shape a).

Definition is_2d (a : ndarray) : Prop := ndim a = 2.

(** [a.flatten()] and [np.reshape(a, (-1, 1))]: defined for every array. *)
Definition flatten (a : ndarray) : vec := data a.

(** [v.reshape(s)]: ValueError unless the sizes agree. *)
Definition reshape (v : vec) (s : list nat) : result ndarray :=
  if length v =? size s then Ok (mk_ndarray s v) else Raise ValueError.

(** [v[i:j]] for non-negative [i], [j]: clipped to the array, never an error. *)
Definition slice (v : vec) (i j : nat) : vec := firstn (j - i) (skipn i v).

Definition concatenate (u v : vec) : vec := u ++ v.

Definition zeros (n : nat) : vec := repeat zero n.

(** [v[i] = x] for [i < len(v)]. *)
Fixpoint setitem (v : vec) (i : nat) (x : float64) : vec :=
  match v, i with
  | [], _ => []
  | _ :: v', O => x :: v'
  | y :: v', S i' => y :: setitem v' i' x
  end.

Definition getitem (v : vec) (i : nat) : float64 := nth i v zero.

(** [u - v] on two 1-D arrays or two columns, with numpy's broadcasting:
    equal lengths, or one side of length 1. *)
Definition subtract (u v : vec) : result vec :=
  if length u =? length v then Ok (map (fun p => sub (fst p) (snd p)) (combine u v))
  else match u, v with
       | [x], _ => Ok (map (fun y => sub x y) v)
       | _, [y] => Ok (map (fun x => sub x y) u)
       | _, _ => Raise ValueError
       end.

(** [x.dot(x)] with the products added from the left, starting at [0.0].
    numpy hands the sum to its BLAS and does not fix the order of the
    additions; from two terms on, this is one of the orders.  What is stated
    about the value of a norm of more than one coordinate is stated for
    [norm_by], below, with the sum left open. *)
Definition dot (u v : vec) : float64 :=
  fold_left (fun acc p => add acc (mul (fst p) (snd p))) (combine u v) zero.

(** [np.linalg.norm(x)] with the default [ord]: [sqrt(x.ravel().dot(x.ravel()))]. *)
Definition norm (v : vec) : float64 := sqrt (dot v v).

(** [np.linalg.norm] of a scalar: the scalar becomes a one-element array. *)
Definition norm_scalar (x : float64) : float64 := norm [x].

(** [np.linalg.norm], the function that computes [x.dot(x)] left open. *)
Definition norm_by (dot : vec -> vec -> float64) (v : vec) : float64 := sqrt (dot v v).

Definition norm_scalar_by (dot : vec -> vec -> float64) (x : float64) : float64 :=
  norm_by dot [x].

End Numpy.

Import Numpy.

(* ------------------------------------------------------------------ *)
(** ** A state and exception monad for the two drivers

    A computation runs on a state [S] (what the driver can mutate and the
    log of collaborator calls) and either returns or raises; the state
    reached is kept in both cases, as a Python exception leaves the
    mutations made before it in place. *)

Definition M (S A : Type) : Type := S -> S * result A.

Definition ret {S A : Type} (a : A) : M S A := fun s => (s, Ok a).

Definition raise {S A : Type} (e : exn) : M S A := fun s => (s, Raise e).

Definition bind {S A B : Type} (c : M S A) (k : A -> M S B) : M S B :=
  fun s =>
    match c s with
    | (s', Ok a) => k a s'
    | (s', Raise e) => (s', Raise e)
    end.

Definition lift {S A : Type} (r : result A) : M S A := fun s => (s, r).

(** [assert(b)] *)
Definition assert {S : Type} (b : bool) : M S unit :=
  if b then ret tt else raise AssertionError.

Declare Scope py_scope.
Delimit Scope py_scope with py.
Notation "x <- c ;; k" := (bind c (fun x => k))
  (at level 61, c at next level, right associativity) : py_scope.
Notation "c ;; k" := (bind c (fun _ => k))
  (at level 61, right associativity) : py_scope.
Open Scope py_scope.

(** The collaborator calls a driver makes, in order. *)
Inductive call : Type :=
| InitializeParams
| Forward (predict : bool)
| Backward
| Cost.

(** [str(l)] for a non-negative integer. *)
Definition str (l : nat) : string := NilZero.string_of_uint (Nat.to_uint l).

(* ------------------------------------------------------------------ *)
(** ** [utils/gradient_check.py]: the dictionary-based checker *)

Module GradientCheck.

(** The position index: key to half-open interval of the flat vector. *)
Definition positions_t : Type := dict (nat * nat).

Definition cache_t : Type := (dict ndarray * positions_t)%type.

(** The [for key in keys] loop of [params_to_vector]; [params[key]]
    raises KeyError on an absent key. *)
Fixpoint params_to_vector_loop (params : dict ndarray) (keys : list string)
         (theta : vec) (positions : positions_t) : result (vec * positions_t) :=
  match keys with
  | [] => Ok (theta, positions)
  | key :: keys' =>
      match dict_get params key with
      | None => Raise KeyError
      | Some matrix =>
          let vector := flatten matrix in
          let from_i := length theta in
          let theta := concatenate theta vector in
          let to_i := length theta in
          params_to_vector_loop params keys' theta
                                (dict_set positions key (from_i, to_i))
      end
  end.

Definition params_to_vector (params : dict ndarray) (keys : list string)
  : result (vec * cache_t) :=
  match params_to_vector_loop params keys [] [] with
  | Ok (theta, positions) => Ok (theta, (params, positions))
  | Raise e => Raise e
  end.

(** The [for key, (from_i, to_i) in positions.items()] loop of
    [vector_to_params], on the copy [params] of [_params]. *)
Fixpoint vector_to_params_loop (theta : vec) (_params : dict ndarray)
         (positions : positions_t) (params : dict ndarray) : result (dict ndarray) :=
  match positions with
  | [] => Ok params
  | (key, (from_i, to_i)) :: positions' =>
      match dict_get _params key with
      | None => Raise KeyError
      | Some template =>
          match reshape (slice theta from_i to_i) (shape template) with
          | Raise e => Raise e
          | Ok a => vector_to_params_loop theta _params positions' (dict_set params key a)
          end
      end
  end.

Definition vector_to_params (theta : vec) (cache : cache_t) : result (dict ndarray) :=
  let '(_params, positions) := cache in
  vector_to_params_loop theta _params positions _params.

(** [calculate_diff(A, B)]: every norm is taken twice, the second time of
    the scalar the first one returned. *)
Definition calculate_diff (A B : vec) : result float64 :=
  match subtract A B with
  | Raise e => Raise e
  | Ok A_minus_B =>
      let numerator := norm_scalar (norm A_minus_B) in
      let denominator := add (norm_scalar (norm A)) (norm_scalar (norm B)) in
      Ok (div numerator denominator)
  end.

(** [calculate_diff(A, B)], numpy's [x.dot(x)] left open. *)
Definition calculate_diff_by (dot : vec -> vec -> float64) (A B : vec) : result float64 :=
  match subtract A B with
  | Raise e => Raise e
  | Ok A_minus_B =>
      let numerator := norm_scalar_by dot (norm_by dot A_minus_B) in
      let denominator :=
        add (norm_scalar_by dot (norm_by dot A)) (norm_scalar_by dot (norm_by dot B)) in
      Ok (div numerator denominator)
  end.

Inductive regularizer_class : Type :=
| Dropout
| L2.

(** What [run] prints. *)
Inductive message : Type :=
| Failed
| Passed.

Section Run.

Variables Input Target Output Caches : Type.

(** The model [run] is given: its attributes and its methods, which take
    the parameters as an argument and return their results. *)
Record model : Type := {
  regularizer : option regularizer_class;
  layer_dims : list nat;
  initialize_params : Input -> dict ndarray;
  propagate_forward : Input -> dict ndarray -> Output * Caches;
  propagate_backward : Output -> Target -> Caches -> dict ndarray;
  compute_cost : Output -> Target -> dict ndarray -> float64
}.

Definition isinstance_Dropout (r : option regularizer_class) : bool :=
  match r with Some Dropout => true | _ => false end.

(** [[key + str(l) for l in range(n) for key in (k1, k2)]] *)
Definition layer_keys (k1 k2 : string) (n : nat) : list string :=
  flat_map (fun l => [(k1 ++ str l)%string; (k2 ++ str l)%string]) (seq 0 n).

Definition logged {A : Type} (c : call) (a : A) : M (list call) A :=
  fun log => (log ++ [c], Ok a).

Variable self_model : model.
Variable epsilon : float64.

(** The cost of the model at the flat parameter vector [theta]. *)
Definition cost_at (X : Input) (Y : Target) (theta : vec) (param_cache : cache_t)
  : M (list call) float64 :=
  theta_params <- lift (vector_to_params theta param_cache) ;;
  AL_ <- logged (Forward false) (propagate_forward self_model X theta_params) ;;
  logged Cost (compute_cost self_model (fst AL_) Y theta_params).

(** The [for i in range(num_params)] loop of [run]. *)
Fixpoint run_loop (X : Input) (Y : Target) (param_theta : vec) (param_cache : cache_t)
         (range : list nat) (J_plus J_minus gradapprox : vec)
  : M (list call) vec :=
  match range with
  | [] => ret gradapprox
  | i :: range' =>
      let theta_plus := param_theta in
      let theta_plus := setitem theta_plus i (add (getitem theta_plus i) epsilon) in
      cost_plus <- cost_at X Y theta_plus param_cache ;;
      let J_plus := setitem J_plus i cost_plus in
      let theta_minus := param_theta in
      let theta_minus := setitem theta_minus i (sub (getitem theta_minus i) epsilon) in
      cost_minus <- cost_at X Y theta_minus param_cache ;;
      let J_minus := setitem J_minus i cost_minus in
      let gradapprox :=
        setitem gradapprox i
                (div (sub (getitem J_plus i) (getitem J_minus i)) (mul two epsilon)) in
      run_loop X Y param_theta param_cache range' J_plus J_minus gradapprox
  end.

(** The numeric gradient [run] compares with the analytic one. *)
Definition run_gradapprox (X : Input) (Y : Target) (param_theta : vec)
           (param_cache : cache_t) : M (list call) vec :=
  let num_params := length param_theta in
  run_loop X Y param_theta param_cache (seq 0 num_params)
           (zeros num_params) (zeros num_params) (zeros num_params).

Definition classify (diff : float64) : message :=
  if gtb diff tol then Failed else Passed.

(** [run(X, Y)]: the message printed and the score returned. *)
Definition run (X : Input) (Y : Target) : M (list call) (message * float64) :=
  assert (negb (isinstance_Dropout (regularizer self_model))) ;;
  params <- logged InitializeParams (initialize_params self_model X) ;;
  AL_caches <- logged (Forward false) (propagate_forward self_model X params) ;;
  let '(AL, caches) := AL_caches in
  grads <- logged Backward (propagate_backward self_model AL Y caches) ;;
  let param_keys := layer_keys "W" "b" (length (layer_dims self_model)) in
  theta_cache <- lift (params_to_vector params param_keys) ;;
  let '(param_theta, param_cache) := theta_cache in
  let grad_keys := layer_keys "dW" "db" (length (layer_dims self_model)) in
  grad_theta_ <- lift (params_to_vector grads grad_keys) ;;
  let grad_theta := fst grad_theta_ in
  gradapprox <- run_gradapprox X Y param_theta param_cache ;;
  diff <- lift (calculate_diff grad_theta gradapprox) ;;
  ret (classify diff, diff).

(** [run(X, Y)], numpy's [x.dot(x)] left open. *)
Definition run_by (dot : vec -> vec -> float64) (X : Input) (Y : Target)
  : M (list call) (message * float64) :=
  assert (negb (isinstance_Dropout (regularizer self_model))) ;;
  params <- logged InitializeParams (initialize_params self_model X) ;;
  AL_caches <- logged (Forward false) (propagate_forward self_model X params) ;;
  let '(AL, caches) := AL_caches in
  grads <- logged Backward (propagate_backward self_model AL Y caches) ;;
  let param_keys := layer_keys "W" "b" (length (layer_dims self_model)) in
  theta_cache <- lift (params_to_vector params param_keys) ;;
  let '(param_theta, param_cache) := theta_cache in
  let grad_keys := layer_keys "dW" "db" (length (layer_dims self_model)) in
  grad_theta_ <- lift (params_to_vector grads grad_keys) ;;
  let grad_theta := fst grad_theta_ in
  gradapprox <- run_gradapprox X Y param_theta param_cache ;;
  diff <- lift (calculate_diff_by dot grad_theta gradapprox) ;;
  ret (classify diff, diff).

End Run.

End GradientCheck.

(* ------------------------------------------------------------------ *)
(** ** [src/utils/gradient_checker.py]: the layer-based checker *)

Module GradientChecker.

(** The classes [isinstance] tells apart. *)
Inductive layer_class : Type :=
| Dropout
| BatchNorm
| OtherLayer.

(** The two attribute names [getattr] is called with. *)
Inductive param_type : Type :=
| Params
| Grads.

(** A layer: its class and its two collections, each a dict or [None]. *)
Record layer : Type := {
  class : layer_class;
  params : option (dict ndarray);
  grads : option (dict ndarray)
}.

Definition getattr (l : layer) (ty : param_type) : option (dict ndarray) :=
  match ty with
  | Params => params l
  | Grads => grads l
  end.

(** The layer once the dict its attribute [ty] refers to has become [d]. *)
Definition with_collection (l : layer) (ty : param_type) (d : dict ndarray) : layer :=
  match ty with
  | Params => {| class := class l; params := Some d; grads := grads l |}
  | Grads => {| class := class l; params := params l; grads := Some d |}
  end.

(** [for k in params: theta = np.concatenate((theta, params[k].flatten()))];
    the iteration visits the entries in insertion order, and [params[k]] is
    the value of the entry visited. *)
Fixpoint roll_dict (params : dict ndarray) (theta : vec) : vec :=
  match params with
  | [] => theta
  | (k, vector) :: rest => roll_dict rest (concatenate theta (flatten vector))
  end.

Fixpoint roll_layers (layers : list layer) (ty : param_type) (theta : vec) : vec :=
  match layers with
  | [] => theta
  | l :: rest =>
      match getattr l ty with
      | None => roll_layers rest ty theta
      | Some params => roll_layers rest ty (roll_dict params theta)
      end
  end.

Definition roll_params (layers : list layer) (ty : param_type) : vec :=
  roll_layers layers ty [].

(** The inner loop of [unroll_params] on one dict, from offset [i]: the
    dict as mutated, and the next offset or the exception raised.
    [vector.shape[0]] and [vector.shape[1]] raise IndexError on an array of
    fewer than two dimensions. *)
Fixpoint unroll_dict (theta : vec) (i : nat) (params : dict ndarray)
  : dict ndarray * result nat :=
  match params with
  | [] => ([], Ok i)
  | (k, vector) :: rest =>
      match nth_error (shape vector) 0, nth_error (shape vector) 1 with
      | Some rows, Some cols =>
          let j := i + rows * cols in
          match reshape (slice theta i j) (shape vector) with
          | Raise e => (params, Raise e)
          | Ok a =>
              let '(rest', r) := unroll_dict theta j rest in
              ((k, a) :: rest', r)
          end
      | _, _ => (params, Raise IndexError)
      end
  end.

Fixpoint unroll_layers (theta : vec) (i : nat) (layers : list layer) (ty : param_type)
  : list layer * result nat :=
  match layers with
  | [] => ([], Ok i)
  | l :: rest =>
      match getattr l ty with
      | None =>
          let '(rest', r) := unroll_layers theta i rest ty in
          (l :: rest', r)
      | Some params =>
          match unroll_dict theta i params with
          | (params', Raise e) => (with_collection l ty params' :: rest, Raise e)
          | (params', Ok j) =>
              let '(rest', r) := unroll_layers theta j rest ty in
              (with_collection l ty params' :: rest', r)
          end
      end
  end.

Definition unroll_params (theta : vec) (layers : list layer) (ty : param_type)
  : list layer * result unit :=
  match unroll_layers theta 0 layers ty with
  | (layers', Ok _) => (layers', Ok tt)
  | (layers', Raise e) => (layers', Raise e)
  end.

(** [calculate_diff(grad_theta, grad_approx)]; the subtraction broadcasts or
    raises, the division of two [np.float64] never raises. *)
Definition calculate_diff (grad_theta grad_approx : vec) : result float64 :=
  match subtract grad_theta grad_approx with
  | Raise e => Raise e
  | Ok d =>
      let numerator := norm d in
      let denominator := add (norm grad_theta) (norm grad_approx) in
      let diff := div numerator denominator in
      Ok diff
  end.

(** [calculate_diff(grad_theta, grad_approx)], numpy's [x.dot(x)] left open. *)
Definition calculate_diff_by (dot : vec -> vec -> float64) (grad_theta grad_approx : vec)
  : result float64 :=
  match subtract grad_theta grad_approx with
  | Raise e => Raise e
  | Ok d =>
      let numerator := norm_by dot d in
      let denominator := add (norm_by dot grad_theta) (norm_by dot grad_approx) in
      let diff := div numerator denominator in
      Ok diff
  end.

Definition isinstance (l : layer) (c : layer_class) : bool :=
  match class l, c with
  | Dropout, Dropout | BatchNorm, BatchNorm | OtherLayer, OtherLayer => true
  | _, _ => false
  end.

Section ComputeError.

Variables Hidden Regularizer Input Target Output : Type.

(** The model: the layer list, the regularizer, and everything else its
    methods keep between calls. *)
Record model : Type := {
  layers : list layer;
  regularizer : option Regularizer;
  hidden : Hidden
}.

(** The methods [compute_error] imports from the model; forward and
    backward propagation mutate the model. *)
Variable propagate_forward : Input -> bool -> model -> model * Output.
Variable propagate_backward : Output -> Target -> model -> model.
Variable compute_cost : Output -> Target -> model -> float64.

(** What a run acts on: the model and the log of collaborator calls. *)
Record world : Type := { mdl : model; calls : list call }.

Definition with_layers (w : world) (ls : list layer) : world :=
  {| mdl := {| layers := ls;
               regularizer := regularizer (mdl w);
               hidden := hidden (mdl w) |};
     calls := calls w |}.

Definition get_layers : M world (list layer) :=
  fun w => (w, Ok (layers (mdl w))).

Definition do_roll (ty : param_type) : M world vec :=
  fun w => (w, Ok (roll_params (layers (mdl w)) ty)).

Definition do_unroll (theta : vec) (ty : param_type) : M world unit :=
  fun w =>
    let '(ls', r) := unroll_params theta (layers (mdl w)) ty in
    (with_layers w ls', r).

Definition do_forward (X : Input) (predict : bool) : M world Output :=
  fun w =>
    let '(m', output) := propagate_forward X predict (mdl w) in
    ({| mdl := m'; calls := calls w ++ [Forward predict] |}, Ok output).

Definition do_backward (output : Output) (Y : Target) : M world unit :=
  fun w =>
    ({| mdl := propagate_backward output Y (mdl w);
        calls := calls w ++ [Backward] |}, Ok tt).

Definition do_cost (output : Output) (Y : Target) : M world float64 :=
  fun w =>
    ({| mdl := mdl w; calls := calls w ++ [Cost] |},
     Ok (compute_cost output Y (mdl w))).

(** [for layer in layers: assert(not isinstance(layer, Dropout)); ...] *)
Fixpoint assert_layers (ls : list layer) : M world unit :=
  match ls with
  | [] => ret tt
  | l :: rest =>
      assert (negb (isinstance l Dropout)) ;;
      assert (negb (isinstance l BatchNorm)) ;;
      assert_layers rest
  end.

Variable eps : float64.

(** The [for i in range(num_params)] loop of [compute_error]. *)
Fixpoint error_loop (X : Input) (Y : Target) (param_theta : vec)
         (range : list nat) (grad_approx : vec) : M world vec :=
  match range with
  | [] => ret grad_approx
  | i :: range' =>
      let theta_plus := param_theta in
      let theta_plus := setitem theta_plus i (add (getitem theta_plus i) eps) in
      do_unroll theta_plus Params ;;
      output_plus <- do_forward X true ;;
      cost_plus <- do_cost output_plus Y ;;
      let theta_minus := param_theta in
      let theta_minus := setitem theta_minus i (sub (getitem theta_minus i) eps) in
      do_unroll theta_minus Params ;;
      output_minus <- do_forward X true ;;
      cost_minus <- do_cost output_minus Y ;;
      let grad_approx :=
        setitem grad_approx i (div (sub cost_plus cost_minus) (mul two eps)) in
      error_loop X Y param_theta range' grad_approx
  end.

Definition is_None {A : Type} (o : option A) : bool :=
  match o with None => true | Some _ => false end.

Definition get_regularizer : M world (option Regularizer) :=
  fun w => (w, Ok (regularizer (mdl w))).

(** [compute_error(X, Y)].  The local [layers] aliases [self.model.layers]:
    the collaborators are taken to mutate the layer objects of that list in
    place, so the list is read from the current model.  [propagate_forward(X)]
    leaves [predict] to its default, taken to be [False]. *)
Definition compute_error (X : Input) (Y : Target) : M world float64 :=
  ls <- get_layers ;;
  reg <- get_regularizer ;;
  assert (is_None reg) ;;
  assert_layers ls ;;
  params <- do_roll Params ;;
  grads <- do_roll Grads ;;
  output <- do_forward X false ;;
  do_backward output Y ;;
  param_theta <- do_roll Params ;;
  grad_theta <- do_roll Grads ;;
  let num_params := length param_theta in
  let grad_approx := zeros num_params in
  grad_approx <- error_loop X Y param_theta (seq 0 num_params) grad_approx ;;
  do_unroll params Params ;;
  do_unroll grads Grads ;;
  relative_error <- lift (calculate_diff grad_theta grad_approx) ;;
  ret relative_error.

(** [compute_error(X, Y)], numpy's [x.dot(x)] left open. *)
Definition compute_error_by (dot : vec -> vec -> float64) (X : Input) (Y : Target)
  : M world float64 :=
  ls <- get_layers ;;
  reg <- get_regularizer ;;
  assert (is_None reg) ;;
  assert_layers ls ;;
  params <- do_roll Params ;;
  grads <- do_roll Grads ;;
  output <- do_forward X false ;;
  do_backward output Y ;;
  param_theta <- do_roll Params ;;
  grad_theta <- do_roll Grads ;;
  let num_params := length param_theta in
  let grad_approx := zeros num_params in
  grad_approx <- error_loop X Y param_theta (seq 0 num_params) grad_approx ;;
  do_unroll params Params ;;
  do_unroll grads Grads ;;
  relative_error <- lift (calculate_diff_by dot grad_theta grad_approx) ;;
  ret relative_error.

End ComputeError.

End GradientChecker.

(* ================================================================== *)
(** * Vocabulary of the statements *)

(** Every entry is [0.0] or [-0.0]. *)
Definition all_zero (v : vec) : Prop := Forall (fun x => is_zero x = true) v.

(** What the position index promises about the vector built so far. *)
Definition index_sound (params : dict ndarray) (theta : vec)
           (positions : GradientCheck.positions_t) : Prop :=
  forall key from_i to_i,
    In (key, (from_i, to_i)) positions ->
    to_i <= length theta /\
    exists m, dict_get params key = Some m /\ wf m /\ slice theta from_i to_i = data m.

(** The last non-empty interval recorded ends where the vector ends. *)
Definition index_covers (theta : vec) (positions : GradientCheck.positions_t) : Prop :=
  theta = [] \/
  exists key from_i, In (key, (from_i, length theta)) positions /\ from_i < length theta.

(** The keys and shapes of a dict, in order. *)
Definition dict_skeleton (d : dict ndarray) : list (string * list nat) :=
  map (fun e => (fst e, shape (snd e))) d.

(** Per layer: [None], or the keys and shapes of the collection [ty]. *)
Definition skeleton (ty : GradientChecker.param_type)
           (ls : list GradientChecker.layer)
  : list (option (list (string * list nat))) :=
  map (fun l => option_map dict_skeleton (GradientChecker.getattr l ty)) ls.

(** Every array is 2-D and well formed. *)
Definition dict_2d (d : dict ndarray) : Prop :=
  Forall (fun e => is_2d (snd e) /\ wf (snd e)) d.

Definition layers_2d (ty : GradientChecker.param_type)
           (ls : list GradientChecker.layer) : Prop :=
  Forall (fun l => match GradientChecker.getattr l ty with
                   | None => True
                   | Some d => dict_2d d
                   end) ls.

(** The same, on the shapes alone. *)
Definition dict_shapes_2d (d : dict ndarray) : Prop :=
  Forall (fun e => is_2d (snd e)) d.

Definition shapes_2d (ty : GradientChecker.param_type)
           (ls : list GradientChecker.layer) : Prop :=
  Forall (fun l => match GradientChecker.getattr l ty with
                   | None => True
                   | Some d => dict_shapes_2d d
                   end) ls.

(** The layer [l] with the collection [ty] of [l0] in place of its own. *)
Definition transplant (ty : GradientChecker.param_type)
           (l l0 : GradientChecker.layer) : GradientChecker.layer :=
  match GradientChecker.getattr l0 ty with
  | None => l
  | Some d0 => GradientChecker.with_collection l ty d0
  end.

Fixpoint transplant_all (ty : GradientChecker.param_type)
         (ls ls0 : list GradientChecker.layer) : list GradientChecker.layer :=
  match ls, ls0 with
  | l :: ls', l0 :: ls0' => transplant ty l l0 :: transplant_all ty ls' ls0'
  | _, _ => []
  end.

(** [a.shape[0]] and [a.shape[1]]. *)
Definition rows (a : ndarray) : nat := nth 0 (shape a) 0.
Definition cols (a : ndarray) : nat := nth 1 (shape a) 0.

(** rows x cols, summed over the arrays of a dict. *)
Definition dict_count (d : dict ndarray) : nat :=
  list_sum (map (fun e => rows (snd e) * cols (snd e)) d).

(** The collections [ty] of the layers that have one. *)
Definition collections (ty : GradientChecker.param_type)
           (ls : list GradientChecker.layer) : list (dict ndarray) :=
  flat_map (fun l => match GradientChecker.getattr l ty with
                     | None => []
                     | Some d => [d]
                     end) ls.

(** rows x cols, summed over every array of every collection [ty]. *)
Definition total_count (ty : GradientChecker.param_type)
           (ls : list GradientChecker.layer) : nat :=
  list_sum (map dict_count (collections ty ls)).

(** [k in params] *)
Definition present (params : dict ndarray) (k : string) : bool :=
  match dict_get params k with Some _ => true | None => false end.

(** The elements of the listed arrays, in the order of the keys. *)
Definition listed_data (params : dict ndarray) (keys : list string) : vec :=
  flat_map (fun k => match dict_get params k with
                     | Some m => data m
                     | None => []
                     end) keys.

(** A float that is a number (not NaN) and is not zero: finite non-zero or
    infinite. *)
Definition nonzero_number (d : float64) : Prop := d <> nan /\ is_zero d = false.

(** No entry is an infinity or NaN. *)
Definition all_finite (v : vec) : Prop := Forall (fun x => is_finite x = true) v.

(** Two floats that differ at most in sign. *)
Definition same_abs (u v : float64) : Prop := SFabs u = SFabs v.

(** What [x.dot(x)] returns in whatever order it adds the squares, with or
    without fused multiply-add: on a single element the rounded square; a
    value that depends on the magnitudes of the entries only; [0.0] on
    zeros. *)
Record sums_squares (dot : vec -> vec -> float64) : Prop := {
  dot_single : forall x, dot [x] [x] = mul x x;
  dot_magnitudes : forall u v, Forall2 same_abs u v -> dot u u = dot v v;
  dot_zeros : forall v, all_zero v -> dot v v = zero
}.

(** The dict [unroll_params] leaves behind, as a function of the keys and
    shapes it finds. *)
Fixpoint build_dict (v : vec) (i : nat) (sk : list (string * list nat)) : dict ndarray :=
  match sk with
  | [] => []
  | (k, s) :: sk' =>
      (k, mk_ndarray s (slice v i (i + size s))) :: build_dict v (i + size s) sk'
  end.

(** The layers [unroll_params] leaves behind when it returns. *)
Fixpoint install_layers (v : vec) (i : nat) (ls : list GradientChecker.layer)
         (ty : GradientChecker.param_type) : list GradientChecker.layer :=
  match ls with
  | [] => []
  | l :: rest =>
      match GradientChecker.getattr l ty with
      | None => l :: install_layers v i rest ty
      | Some d =>
          GradientChecker.with_collection l ty (build_dict v i (dict_skeleton d))
            :: install_layers v (i + dict_count d) rest ty
      end
  end.

(** The other attribute name. *)
Definition other (ty : GradientChecker.param_type) : GradientChecker.param_type :=
  match ty with
  | GradientChecker.Params => GradientChecker.Grads
  | GradientChecker.Grads => GradientChecker.Params
  end.

(** [theta] with coordinate [i] alone moved by [eps], up or down. *)
Definition plus (eps : float64) (theta : vec) (i : nat) : vec :=
  setitem theta i (add (getitem theta i) eps).

Definition minus (eps : float64) (theta : vec) (i : nat) : vec :=
  setitem theta i (sub (getitem theta i) eps).

(** The central difference of two costs. *)
Definition central_difference (eps cost_plus cost_minus : float64) : float64 :=
  div (sub cost_plus cost_minus) (mul two eps).

(** [theta'] is [theta] with coordinate [i] replaced by [x] and nothing else
    changed. *)
Definition perturbs_only (theta theta' : vec) (i : nat) (x : float64) : Prop :=
  length theta' = length theta /\
  getitem theta' i = x /\
  forall j, j <> i -> getitem theta' j = getitem theta j.

(** The layers [compute_error] refuses. *)
Definition stochastic (l : GradientChecker.layer) : bool :=
  GradientChecker.isinstance l GradientChecker.Dropout
  || GradientChecker.isinstance l GradientChecker.BatchNorm.

Section EstimatorVocabulary.

Variables Hidden Regularizer Input Target Output : Type.

Variable propagate_forward :
  Input -> bool -> GradientChecker.model Hidden Regularizer
  -> GradientChecker.model Hidden Regularizer * Output.
Variable propagate_backward :
  Output -> Target -> GradientChecker.model Hidden Regularizer
  -> GradientChecker.model Hidden Regularizer.
Variable compute_cost :
  Output -> Target -> GradientChecker.model Hidden Regularizer -> float64.

Variable X : Input.
Variable Y : Target.

(** The model once [unroll_params(theta, layers, 'params')] has run on it. *)
Definition installed (theta : vec) (m : GradientChecker.model Hidden Regularizer)
  : GradientChecker.model Hidden Regularizer :=
  {| GradientChecker.layers :=
       fst (GradientChecker.unroll_params theta (GradientChecker.layers m)
                                          GradientChecker.Params);
     GradientChecker.regularizer := GradientChecker.regularizer m;
     GradientChecker.hidden := GradientChecker.hidden m |}.

(** The cost of a forward pass in prediction mode on the model [m]. *)
Definition predicted_cost (m : GradientChecker.model Hidden Regularizer) : float64 :=
  let '(m', output) := propagate_forward X true m in compute_cost output Y m'.

(** One evaluation of the loop body: install, forward pass, cost. *)
Definition evaluate (theta : vec) : M (GradientChecker.world Hidden Regularizer) float64 :=
  GradientChecker.do_unroll theta GradientChecker.Params ;;
  output <- GradientChecker.do_forward propagate_forward X true ;;
  GradientChecker.do_cost compute_cost output Y.

(** The model after the forward and backward pass that computes the analytic
    gradients. *)
Definition analytic_pass (m : GradientChecker.model Hidden Regularizer)
  : GradientChecker.model Hidden Regularizer :=
  propagate_backward (snd (propagate_forward X false m)) Y
                     (fst (propagate_forward X false m)).

End EstimatorVocabulary.

Section DictEstimatorVocabulary.

Variables Input Target Output Caches : Type.

Variable m : GradientCheck.model Input Target Output Caches.
Variable X : Input.
Variable Y : Target.

(** The model's cost at the flat parameter vector [theta]: unflatten, forward
    pass, cost. *)
Definition cost_of (cache : GradientCheck.cache_t) (theta : vec) : result float64 :=
  match GradientCheck.vector_to_params theta cache with
  | Raise e => Raise e
  | Ok theta_params =>
      Ok (GradientCheck.compute_cost
            m (fst (GradientCheck.propagate_forward m X theta_params)) Y theta_params)
  end.

End DictEstimatorVocabulary.

Section DictLoopVocabulary.

Variables Input Target Output Caches : Type.

Variable m : GradientCheck.model Input Target Output Caches.
Variable X : Input.
Variable Y : Target.

(** The cost of the model on the parameters [p]: forward pass, then cost. *)
Definition dict_cost (p : dict ndarray) : float64 :=
  GradientCheck.compute_cost m (fst (GradientCheck.propagate_forward m X p)) Y p.

End DictLoopVocabulary.

(** [p] is the dict [vector_to_params] makes of the vector [v]: it has the
    keys and shapes of [params], keeps the arrays that are not listed, and
    flattens, with the same keys, to [v]. *)
Definition unflattens_to (params : dict ndarray) (keys : list string)
           (cache : GradientCheck.cache_t) (v : vec) (p : dict ndarray) : Prop :=
  GradientCheck.vector_to_params v cache = Ok p /\
  dict_skeleton p = dict_skeleton params /\
  (forall k, ~ In k keys -> dict_get p k = dict_get params k) /\
  exists cache', GradientCheck.params_to_vector p keys = Ok (v, cache').

(** numpy's broadcasting rule for two 1-D arrays (or two columns) of lengths
    [n] and [m]. *)
Definition broadcastable (n m : nat) : bool :=
  (n =? m) || (n =? 1) || (m =? 1).

(** NaN, or a float whose sign bit is clear. *)
Definition nonneg_or_nan (x : float64) : bool :=
  match x with
  | S754_nan => true
  | S754_zero s | S754_infinity s | S754_finite s _ _ => negb s
  end.

(** The index read by lookup: every recorded interval lies inside the vector
    and holds the data of its key's array. *)
Definition index_by_lookup (params : dict ndarray) (theta : vec)
           (positions : GradientCheck.positions_t) : Prop :=
  forall k from_i to_i,
    dict_get positions k = Some (from_i, to_i) ->
    from_i <= to_i /\ to_i <= length theta /\
    exists m, dict_get params k = Some m /\ slice theta from_i to_i = data m.

(** The intervals the index records for the keys [keys], read in order: they
    follow one another from offset [off] to offset [stop], each as long as
    its array's data. *)
Fixpoint chain (params : dict ndarray) (positions : GradientCheck.positions_t)
         (keys : list string) (off stop : nat) : Prop :=
  match keys with
  | [] => off = stop
  | k :: keys' =>
      exists m,
        dict_get positions k = Some (off, off + length (data m)) /\
        dict_get params k = Some m /\
        chain params positions keys' (off + length (data m)) stop
  end.

Section DriverVocabulary.

Variables Hidden Regularizer Input Target Output : Type.

Variable propagate_forward :
  Input -> bool -> GradientChecker.model Hidden Regularizer
  -> GradientChecker.model Hidden Regularizer * Output.
Variable compute_cost :
  Output -> Target -> GradientChecker.model Hidden Regularizer -> float64.

Variable eps : float64.
Variable X : Input.
Variable Y : Target.

(** The vector of central differences of the cost at the parameters stored
    in the model [m]. *)
Definition numeric_gradient (m : GradientChecker.model Hidden Regularizer) : vec :=
  let theta :=
    GradientChecker.roll_params (GradientChecker.layers m) GradientChecker.Params in
  map (fun i =>
         central_difference
           eps
           (predicted_cost propagate_forward compute_cost X Y
                           (installed (plus eps theta i) m))
           (predicted_cost propagate_forward compute_cost X Y
                           (installed (minus eps theta i) m)))
      (seq 0 (length theta)).

End DriverVocabulary.

(** The collaborator calls of [n] iterations of a central-difference loop
    whose forward passes are made with [predict]. *)
Definition loop_calls (predict : bool) (n : nat) : list call :=
  flat_map (fun _ => [Forward predict; Cost; Forward predict; Cost]) (seq 0 n).

Section RunVocabulary.

Variables Input Target Output Caches : Type.

Variable m : GradientCheck.model Input Target Output Caches.
Variable X : Input.
Variable Y : Target.

(** The keys [run] lists for the parameters and for the gradients. *)
Definition param_keys : list string :=
  GradientCheck.layer_keys "W" "b" (length (GradientCheck.layer_dims m)).

Definition grad_keys : list string :=
  GradientCheck.layer_keys "dW" "db" (length (GradientCheck.layer_dims m)).

(** The gradients [run] gets from the analytic pass on fresh parameters. *)
Definition analytic_gradients : dict ndarray :=
  let params := GradientCheck.initialize_params m X in
  let AL_caches := GradientCheck.propagate_forward m X params in
  GradientCheck.propagate_backward m (fst AL_caches) Y (snd AL_caches).

End RunVocabulary.

(* ------------------------------------------------------------------ *)
(** ** Concrete models and collections *)

Module Fixture.

Definition f_one : float64 := S754_finite false 4503599627370496 (-52).
Definition f_three : float64 := S754_finite false 6755399441055744 (-51).

Definition W : ndarray := mk_ndarray [2; 2] [f_one; two; f_three; f_one].
Definition b : ndarray := mk_ndarray [2; 1] [two; f_three].

Definition some_params : dict ndarray := [("W0"%string, W); ("b0"%string, b)].
Definition some_grads : dict ndarray := [("dW0"%string, W); ("db0"%string, b)].

Definition dense : GradientChecker.layer :=
  {| GradientChecker.class := GradientChecker.OtherLayer;
     GradientChecker.params := Some some_params;
     GradientChecker.grads := Some some_grads |}.

(** A layer without parameters, an activation for instance. *)
Definition activation : GradientChecker.layer :=
  {| GradientChecker.class := GradientChecker.OtherLayer;
     GradientChecker.params := None;
     GradientChecker.grads := None |}.

Definition some_layers : list GradientChecker.layer := [dense; activation; dense].

End Fixture.

Module PreconditionFixture.

(** A layer-based model with a batch-normalisation layer and collaborators
    that leave it alone. *)
Definition bn_layer : GradientChecker.layer :=
  {| GradientChecker.class := GradientChecker.BatchNorm;
     GradientChecker.params := Some Fixture.some_params;
     GradientChecker.grads := None |}.

Definition bn_world : GradientChecker.world unit unit :=
  {| GradientChecker.mdl :=
       {| GradientChecker.layers := [Fixture.dense; bn_layer];
          GradientChecker.regularizer := None;
          GradientChecker.hidden := tt |};
     GradientChecker.calls := [] |}.

Definition idle_forward (X : unit) (predict : bool) (m : GradientChecker.model unit unit)
  : GradientChecker.model unit unit * unit := (m, tt).
Definition idle_backward (o : unit) (Y : unit) (m : GradientChecker.model unit unit)
  : GradientChecker.model unit unit := m.
Definition idle_cost (o : unit) (Y : unit) (m : GradientChecker.model unit unit)
  : float64 := zero.

(** A dictionary-based model regularised by dropout. *)
Definition dropout_model : GradientCheck.model unit unit unit unit :=
  {| GradientCheck.regularizer := Some GradientCheck.Dropout;
     GradientCheck.layer_dims := [2];
     GradientCheck.initialize_params := fun _ => Fixture.some_params;
     GradientCheck.propagate_forward := fun _ _ => (tt, tt);
     GradientCheck.propagate_backward := fun _ _ _ => Fixture.some_grads;
     GradientCheck.compute_cost := fun _ _ _ => zero |}.

End PreconditionFixture.

Module ThresholdFixture.

(** 1.498801383004178 and 1.4988007834837447: two doubles whose relative
    difference is, after rounding, exactly the double 2e-7. *)
Definition g_analytic : float64 := S754_finite false 6750001350000000 (-52).
Definition g_slope : float64 := S754_finite false 6749998650000000 (-52).
Definition half : float64 := S754_finite false 4503599627370496 (-53).

Definition empty_bias : ndarray := mk_ndarray [0; 1] [].

(** One 1x1 weight [W0], initialised to 0; the cost is [g_slope * W0] and
    backpropagation reports the gradient [g_analytic]. *)
Definition model : GradientCheck.model unit unit float64 unit :=
  {| GradientCheck.regularizer := None;
     GradientCheck.layer_dims := [1];
     GradientCheck.initialize_params :=
       fun _ => [("W0"%string, mk_ndarray [1; 1] [zero]); ("b0"%string, empty_bias)];
     GradientCheck.propagate_forward :=
       fun _ params =>
         (match dict_get params "W0" with
          | Some W0 => getitem (data W0) 0
          | None => zero
          end, tt);
     GradientCheck.propagate_backward :=
       fun _ _ _ =>
         [("dW0"%string, mk_ndarray [1; 1] [g_analytic]); ("db0"%string, empty_bias)];
     GradientCheck.compute_cost := fun AL _ _ => mul g_slope AL |}.

End ThresholdFixture.

Module UnderflowFixture.

(** 1e-200, whose square is below the smallest subnormal double. *)
Definition tiny : float64 := S754_finite false 6894565328877484 (-717).

End UnderflowFixture.

Module QuadraticFixture.

Definition model_t : Type := GradientChecker.model unit unit.

(** The forward pass outputs the parameters; the cost is the sum of their
    squares. *)
Definition forward (X : unit) (predict : bool) (m : model_t) : model_t * vec :=
  (m, GradientChecker.roll_params (GradientChecker.layers m) GradientChecker.Params).

Definition cost (output : vec) (Y : unit) (m : model_t) : float64 := dot output output.

Definition double (a : ndarray) : ndarray :=
  mk_ndarray (shape a) (map (mul two) (data a)).

(** Backpropagation stores the gradient [2 * W] next to every parameter [W]. *)
Definition backward (output : vec) (Y : unit) (m : model_t) : model_t :=
  {| GradientChecker.layers :=
       map (fun l =>
              {| GradientChecker.class := GradientChecker.class l;
                 GradientChecker.params := GradientChecker.params l;
                 GradientChecker.grads :=
                   option_map (map (fun e => (fst e, double (snd e))))
                              (GradientChecker.params l) |})
           (GradientChecker.layers m);
     GradientChecker.regularizer := GradientChecker.regularizer m;
     GradientChecker.hidden := GradientChecker.hidden m |}.

(** A layer that went through a training step: gradients are stored. *)
Definition trained : GradientChecker.layer :=
  {| GradientChecker.class := GradientChecker.OtherLayer;
     GradientChecker.params := Some Fixture.some_params;
     GradientChecker.grads := Some Fixture.some_params |}.

Definition world0 : GradientChecker.world unit unit :=
  {| GradientChecker.mdl :=
       {| GradientChecker.layers := [trained; Fixture.activation];
          GradientChecker.regularizer := None;
          GradientChecker.hidden := tt |};
     GradientChecker.calls := [] |}.

End QuadraticFixture.

Module OneBasedFixture.

(** A model that numbers its layers from 1: its parameters are [W1] and [b1],
    its gradients [dW1] and [db1]. *)
Definition model : GradientCheck.model unit unit unit unit :=
  {| GradientCheck.regularizer := None;
     GradientCheck.layer_dims := [2];
     GradientCheck.initialize_params :=
       fun _ => [("W1"%string, Fixture.W); ("b1"%string, Fixture.b)];
     GradientCheck.propagate_forward := fun _ _ => (tt, tt);
     GradientCheck.propagate_backward :=
       fun _ _ _ => [("dW1"%string, Fixture.W); ("db1"%string, Fixture.b)];
     GradientCheck.compute_cost := fun _ _ _ => zero |}.

(** A model without layers. *)
Definition bare_model : GradientCheck.model unit unit unit unit :=
  {| GradientCheck.regularizer := None;
     GradientCheck.layer_dims := [];
     GradientCheck.initialize_params := fun _ => [];
     GradientCheck.propagate_forward := fun _ _ => (tt, tt);
     GradientCheck.propagate_backward := fun _ _ _ => [];
     GradientCheck.compute_cost := fun _ _ _ => Fixture.f_one |}.

End OneBasedFixture.

(* ================================================================== *)
(** * Properties *)

(** ** The scorer on zero vectors *)

Lemma mul_self_zero (x : float64) : is_zero x = true -> mul x x = zero.
Proof. destruct x as [[|]| | |]; simpl; intros H; try discriminate; reflexivity. Qed.

Lemma dot_self_zero_from (v : vec) :
  all_zero v ->
  fold_left (fun acc p => add acc (mul (fst p) (snd p))) (combine v v) zero = zero.
Proof.
  induction 1 as [|x v Hx _ IH]; simpl; [reflexivity|].
  rewrite (mul_self_zero x Hx). exact IH.
Qed.

Lemma norm_all_zero (v : vec) : all_zero v -> norm v = zero.
Proof.
  intros H. unfold norm, dot. rewrite (dot_self_zero_from H). reflexivity.
Qed.

Lemma sub_zero_zero (x y : float64) :
  is_zero x = true -> is_zero y = true -> is_zero (sub x y) = true.
Proof.
  destruct x as [[|]| | |], y as [[|]| | |]; simpl; intros; try discriminate; reflexivity.
Qed.

Lemma subtract_same_length (u v : vec) :
  length u = length v ->
  subtract u v = Ok (map (fun p => sub (fst p) (snd p)) (combine u v)).
Proof. intros H. unfold subtract. rewrite H, Nat.eqb_refl. reflexivity. Qed.

Lemma all_zero_sub (u v : vec) :
  all_zero u -> all_zero v ->
  all_zero (map (fun p => sub (fst p) (snd p)) (combine u v)).
Proof.
  intros Hu. revert v. induction Hu as [|x u Hx _ IH]; intros v Hv; simpl.
  - constructor.
  - destruct Hv as [|y v Hy Hv]; simpl; constructor.
    + apply sub_zero_zero; assumption.
    + apply IH; assumption.
Qed.

(** C6 (as the code has it): on two zero vectors of one length both scorers
    return NaN, the value of [0.0 / 0.0]; no policy value replaces it. *)
Theorem calculate_diff_zero_is_nan (A B : vec) :
  all_zero A -> all_zero B -> length A = length B ->
  GradientChecker.calculate_diff A B = Ok nan /\
  GradientCheck.calculate_diff A B = Ok nan.
Proof.
  intros HA HB Hlen.
  unfold GradientChecker.calculate_diff, GradientCheck.calculate_diff.
  rewrite (subtract_same_length _ _ Hlen).
  rewrite (norm_all_zero (all_zero_sub HA HB)), (norm_all_zero HA), (norm_all_zero HB).
  split; reflexivity.
Qed.

Lemma calculate_diff_zero_is_nan_witness :
  GradientChecker.calculate_diff [zero; zero] [zero; S754_zero true] = Ok nan /\
  GradientCheck.calculate_diff [zero; zero] [zero; S754_zero true] = Ok nan.
Proof.
  apply calculate_diff_zero_is_nan.
  - repeat constructor.
  - repeat constructor.
  - reflexivity.
Defined.

(** C6 as stated fails: the score of the zero vector against itself is NaN,
    which is not the perfect-match value 0 (NaN equals nothing). *)
Lemma calculate_diff_zero_counterexample :
  GradientChecker.calculate_diff [zero] [zero] = Ok nan /\
  GradientCheck.calculate_diff [zero] [zero] = Ok nan /\
  eqb nan zero = false.
Proof. repeat split. Qed.

(** ** Slices, reshapes and dictionaries *)

Lemma slice_app_mid (u v w : vec) :
  slice (u ++ v ++ w) (length u) (length u + length v) = v.
Proof.
  unfold slice.
  replace (length u + length v - length u) with (length v) by lia.
  rewrite skipn_app, skipn_all, Nat.sub_diag. simpl.
  rewrite firstn_app, firstn_all, Nat.sub_diag. simpl.
  apply app_nil_r.
Qed.

Lemma slice_app_end (u v : vec) :
  slice (u ++ v) (length u) (length u + length v) = v.
Proof.
  rewrite <- (app_nil_r v) at 1. apply slice_app_mid.
Qed.

Lemma slice_app_stable (u v : vec) (i j : nat) :
  j <= length u -> slice (u ++ v) i j = slice u i j.
Proof.
  intros Hj. unfold slice.
  rewrite skipn_app, firstn_app, length_skipn.
  replace (j - i - (length u - i)) with 0 by lia.
  simpl. apply app_nil_r.
Qed.

Lemma reshape_data (a : ndarray) : wf a -> reshape (data a) (shape a) = Ok a.
Proof.
  unfold wf, reshape. intros ->. rewrite Nat.eqb_refl. destruct a; reflexivity.
Qed.

Lemma dict_set_same {V : Type} (d : dict V) (k : string) (v : V) :
  dict_get d k = Some v -> dict_set d k v = d.
Proof.
  induction d as [|[k' v'] d IH]; simpl; [discriminate|].
  destruct (String.eqb k k').
  - intros [= ->]. reflexivity.
  - intros H. rewrite (IH H). reflexivity.
Qed.

Lemma dict_set_In {V : Type} (d : dict V) (k : string) (v : V) (e : string * V) :
  In e (dict_set d k v) -> In e d \/ e = (k, v).
Proof.
  induction d as [|[k' v'] d IH]; simpl.
  - intros [<-|[]]. right. reflexivity.
  - destruct (String.eqb_spec k k') as [->|N]; simpl.
    + intros [<-|H]; [right; reflexivity | left; right; exact H].
    + intros [<-|H]; [left; left; reflexivity|].
      destruct (IH H) as [H'|H']; [left; right; exact H' | right; exact H'].
Qed.

Lemma size_2d (r c : nat) : size [r; c] = r * c.
Proof. simpl. lia. Qed.

Lemma is_2d_shape (a : ndarray) :
  is_2d a -> exists r c, shape a = [r; c].
Proof.
  unfold is_2d, ndim. destruct (shape a) as [|r [|c [|x s]]]; simpl; try discriminate.
  intros _. exists r, c. reflexivity.
Qed.

(** ** Round trip of the dictionary-based roller *)

Lemma dict_set_In_new {V : Type} (d : dict V) (k : string) (v : V) :
  In (k, v) (dict_set d k v).
Proof.
  induction d as [|[k' v'] d IH]; simpl.
  - left. reflexivity.
  - destruct (String.eqb_spec k k') as [->|N]; simpl.
    + left. reflexivity.
    + right. exact IH.
Qed.

Lemma dict_set_In_other {V : Type} (d : dict V) (k k0 : string) (v v0 : V) :
  In (k0, v0) d -> k0 <> k -> In (k0, v0) (dict_set d k v).
Proof.
  intros Hin Hne. induction d as [|[k' v'] d IH]; simpl in *; [contradiction|].
  destruct (String.eqb_spec k k') as [->|N]; simpl.
  - destruct Hin as [[= -> ->]|Hin]; [contradiction | right; exact Hin].
  - destruct Hin as [Hin|Hin]; [left; exact Hin | right; apply IH; exact Hin].
Qed.

Lemma index_sound_step (params : dict ndarray) (theta : vec)
      (positions : GradientCheck.positions_t) (key : string) (m : ndarray) :
  index_sound params theta positions ->
  dict_get params key = Some m -> wf m ->
  index_sound params (theta ++ data m)
              (dict_set positions key (length theta, length (theta ++ data m))).
Proof.
  intros Hinv Hm Hwf k f t Hin.
  destruct (dict_set_In _ _ _ _ Hin) as [Hold|Hnew].
  - destruct (Hinv k f t Hold) as (Hle & m' & Hm' & Hwf' & Hs).
    split; [rewrite length_app; lia|].
    exists m'. repeat split; try assumption.
    rewrite slice_app_stable by exact Hle. exact Hs.
  - injection Hnew as -> -> ->. split; [lia|].
    exists m. repeat split; try assumption.
    rewrite length_app. apply slice_app_end.
Qed.

Lemma slice_length (v : vec) (i j : nat) :
  length (slice v i j) = Nat.min (j - i) (length v - i).
Proof. unfold slice. rewrite length_firstn, length_skipn. reflexivity. Qed.

Lemma index_covers_step (params : dict ndarray) (theta : vec)
      (positions : GradientCheck.positions_t) (key : string) (m : ndarray) :
  index_sound params theta positions ->
  index_covers theta positions ->
  dict_get params key = Some m ->
  index_covers (theta ++ data m)
               (dict_set positions key (length theta, length (theta ++ data m))).
Proof.
  intros Hinv Hcov Hm.
  destruct (data m) as [|x xs] eqn:Hd.
  - rewrite app_nil_r. destruct Hcov as [->|(k0 & f0 & Hin & Hlt)]; [left; reflexivity|].
    right. exists k0, f0. split; [|exact Hlt].
    apply dict_set_In_other; [exact Hin|].
    intros ->. destruct (Hinv key f0 (length theta) Hin) as (_ & m' & Hm' & _ & Hs).
    rewrite Hm in Hm'. injection Hm' as <-.
    apply (f_equal (@length float64)) in Hs. rewrite slice_length, Hd in Hs.
    simpl in Hs. lia.
  - right. exists key, (length theta). split.
    + apply dict_set_In_new.
    + rewrite length_app. simpl. lia.
Qed.

Lemma params_to_vector_loop_sound (params : dict ndarray) (keys : list string) :
  (forall k, In k keys -> exists m, dict_get params k = Some m /\ wf m) ->
  forall theta positions,
    index_sound params theta positions ->
    index_covers theta positions ->
    exists theta' positions',
      GradientCheck.params_to_vector_loop params keys theta positions
      = Ok (theta', positions') /\
      index_sound params theta' positions' /\
      index_covers theta' positions'.
Proof.
  induction keys as [|key keys IH]; intros Hkeys theta positions Hinv Hcov; simpl.
  - exists theta, positions. split; [reflexivity|]. split; [exact Hinv | exact Hcov].
  - destruct (Hkeys key (or_introl eq_refl)) as (m & Hm & Hwf).
    rewrite Hm. unfold concatenate, flatten. apply IH.
    + intros k Hk. apply Hkeys. right. exact Hk.
    + apply index_sound_step; assumption.
    + eapply index_covers_step; eassumption.
Qed.

Lemma params_to_vector_sound (params : dict ndarray) (keys : list string)
      (theta : vec) (cache : GradientCheck.cache_t) :
  (forall k, In k keys -> exists m, dict_get params k = Some m /\ wf m) ->
  GradientCheck.params_to_vector params keys = Ok (theta, cache) ->
  fst cache = params /\
  index_sound params theta (snd cache) /\ index_covers theta (snd cache).
Proof.
  intros Hkeys. unfold GradientCheck.params_to_vector.
  destruct (@params_to_vector_loop_sound params keys Hkeys [] [])
    as (theta' & positions & Hloop & Hinv & Hcov).
  - intros k f t [].
  - left. reflexivity.
  - rewrite Hloop. intros [= <- <-]. simpl.
    split; [reflexivity|]. split; assumption.
Qed.

Lemma vector_to_params_loop_id (theta : vec) (params : dict ndarray)
      (positions : GradientCheck.positions_t) :
  index_sound params theta positions ->
  GradientCheck.vector_to_params_loop theta params positions params = Ok params.
Proof.
  induction positions as [|[key [from_i to_i]] positions IH]; intros Hinv; simpl.
  - reflexivity.
  - destruct (Hinv key from_i to_i (or_introl eq_refl)) as (_ & m & Hm & Hwf & Hs).
    rewrite Hm, Hs, (reshape_data Hwf), (dict_set_same _ _ Hm).
    apply IH. intros k f t Hin. apply Hinv. right. exact Hin.
Qed.

Lemma params_to_vector_roundtrip (params : dict ndarray) (keys : list string) :
  (forall k, In k keys -> exists m, dict_get params k = Some m /\ wf m) ->
  exists theta cache,
    GradientCheck.params_to_vector params keys = Ok (theta, cache) /\
    GradientCheck.vector_to_params theta cache = Ok params.
Proof.
  intros Hkeys.
  destruct (@params_to_vector_loop_sound params keys Hkeys [] [])
    as (theta & positions & Hloop & Hinv & _).
  - intros k f t [].
  - left. reflexivity.
  - exists theta, (params, positions). unfold GradientCheck.params_to_vector.
    rewrite Hloop. split; [reflexivity|].
    simpl. apply vector_to_params_loop_id. exact Hinv.
Qed.

(** ** Round trip of the layer-based roller *)

Lemma roll_dict_app (d : dict ndarray) (theta : vec) :
  GradientChecker.roll_dict d theta = theta ++ GradientChecker.roll_dict d [].
Proof.
  revert theta. induction d as [|[k a] d IH]; intros theta; simpl.
  - symmetry. apply app_nil_r.
  - rewrite (IH (concatenate theta (flatten a))).
    match goal with
    | |- _ = theta ++ GradientChecker.roll_dict d ?x => rewrite (IH x)
    end.
    unfold concatenate. simpl. rewrite app_assoc. reflexivity.
Qed.

Lemma roll_layers_app (ty : GradientChecker.param_type)
      (ls : list GradientChecker.layer) (theta : vec) :
  GradientChecker.roll_layers ls ty theta
  = theta ++ GradientChecker.roll_layers ls ty [].
Proof.
  revert theta. induction ls as [|l ls IH]; intros theta; simpl.
  - symmetry. apply app_nil_r.
  - destruct (GradientChecker.getattr l ty) as [d|].
    + rewrite IH. rewrite (IH (GradientChecker.roll_dict d [])).
      rewrite (roll_dict_app d theta). rewrite app_assoc. reflexivity.
    + apply IH.
Qed.

Lemma roll_dict_cons (k : string) (a : ndarray) (d : dict ndarray) :
  GradientChecker.roll_dict ((k, a) :: d) [] = data a ++ GradientChecker.roll_dict d [].
Proof. simpl. rewrite roll_dict_app. reflexivity. Qed.

Lemma roll_layers_cons (ty : GradientChecker.param_type)
      (l : GradientChecker.layer) (ls : list GradientChecker.layer) :
  GradientChecker.roll_layers (l :: ls) ty []
  = match GradientChecker.getattr l ty with
    | None => []
    | Some d => GradientChecker.roll_dict d []
    end ++ GradientChecker.roll_layers ls ty [].
Proof.
  simpl. destruct (GradientChecker.getattr l ty) as [d|]; [|reflexivity].
  apply roll_layers_app.
Qed.

(** Unrolling the flattening of [d0] into a dict of the same keys and shapes
    gives [d0] back, wherever the flattening sits in the vector. *)
Lemma unroll_dict_transplant (d0 : dict ndarray) :
  dict_2d d0 ->
  forall (d : dict ndarray) (u w : vec),
    dict_skeleton d = dict_skeleton d0 ->
    GradientChecker.unroll_dict (u ++ GradientChecker.roll_dict d0 [] ++ w) (length u) d
    = (d0, Ok (length u + length (GradientChecker.roll_dict d0 []))).
Proof.
  induction 1 as [|[k0 a0] d0 [H2d Hwf] _ IH]; intros d u w Hsk.
  - destruct d; [|discriminate]. simpl. rewrite Nat.add_0_r. reflexivity.
  - destruct d as [|[k a] d]; [discriminate|].
    simpl in Hsk. injection Hsk as -> Hshape Hsk. simpl in H2d, Hwf.
    destruct (is_2d_shape H2d) as (r & c & Hs0).
    rewrite roll_dict_cons.
    cbn [GradientChecker.unroll_dict]. rewrite Hshape, Hs0. cbn [nth_error].
    assert (Hlen : length (data a0) = r * c).
    { unfold wf in Hwf. rewrite Hwf, Hs0. apply size_2d. }
    rewrite <- Hlen, <- (app_assoc (data a0)), slice_app_mid.
    rewrite <- Hs0, (reshape_data Hwf).
    replace (length u + length (data a0)) with (length (u ++ data a0))
      by apply length_app.
    rewrite (app_assoc u (data a0)).
    rewrite (IH d (u ++ data a0) w Hsk).
    rewrite !length_app. f_equal. f_equal. lia.
Qed.

Lemma with_collection_same (ty : GradientChecker.param_type)
      (l : GradientChecker.layer) (d : dict ndarray) :
  GradientChecker.getattr l ty = Some d -> GradientChecker.with_collection l ty d = l.
Proof. destruct l, ty; simpl; intros ->; reflexivity. Qed.

Lemma unroll_layers_transplant (ty : GradientChecker.param_type)
      (ls0 : list GradientChecker.layer) :
  layers_2d ty ls0 ->
  forall (ls : list GradientChecker.layer) (u w : vec),
    skeleton ty ls = skeleton ty ls0 ->
    GradientChecker.unroll_layers
      (u ++ GradientChecker.roll_layers ls0 ty [] ++ w) (length u) ls ty
    = (transplant_all ty ls ls0,
       Ok (length u + length (GradientChecker.roll_layers ls0 ty []))).
Proof.
  induction 1 as [|l0 ls0 Hl0 _ IH]; intros ls u w Hsk.
  - destruct ls; [|discriminate]. simpl. rewrite Nat.add_0_r. reflexivity.
  - destruct ls as [|l ls]; [discriminate|].
    simpl in Hsk. injection Hsk as Hl Hsk.
    rewrite roll_layers_cons. cbn [GradientChecker.unroll_layers transplant_all].
    unfold transplant.
    destruct (GradientChecker.getattr l0 ty) as [d0|] eqn:E0;
      destruct (GradientChecker.getattr l ty) as [d|] eqn:E; try discriminate.
    + simpl in Hl. injection Hl as Hd.
      rewrite <- app_assoc.
      rewrite (unroll_dict_transplant Hl0 d u _ Hd).
      replace (length u + length (GradientChecker.roll_dict d0 []))
        with (length (u ++ GradientChecker.roll_dict d0 [])) by apply length_app.
      rewrite app_assoc.
      rewrite (IH ls _ w Hsk). rewrite !length_app. f_equal. f_equal. lia.
    + simpl. rewrite (IH ls u w Hsk). reflexivity.
Qed.

Lemma transplant_all_same (ty : GradientChecker.param_type)
      (ls : list GradientChecker.layer) :
  transplant_all ty ls ls = ls.
Proof.
  induction ls as [|l ls IH]; simpl; [reflexivity|].
  rewrite IH. unfold transplant.
  destruct (GradientChecker.getattr l ty) as [d|] eqn:E; [|reflexivity].
  rewrite (with_collection_same _ _ E). reflexivity.
Qed.

Lemma unroll_params_transplant (ty : GradientChecker.param_type)
      (ls0 ls : list GradientChecker.layer) (w : vec) :
  layers_2d ty ls0 ->
  skeleton ty ls = skeleton ty ls0 ->
  GradientChecker.unroll_params (GradientChecker.roll_params ls0 ty ++ w) ls ty
  = (transplant_all ty ls ls0, Ok tt).
Proof.
  intros H2d Hsk. unfold GradientChecker.unroll_params, GradientChecker.roll_params.
  pose proof (unroll_layers_transplant H2d ls [] w Hsk) as H.
  simpl in H. rewrite H. reflexivity.
Qed.

Lemma roll_unroll_roundtrip (ty : GradientChecker.param_type)
      (ls : list GradientChecker.layer) :
  layers_2d ty ls ->
  GradientChecker.unroll_params (GradientChecker.roll_params ls ty) ls ty = (ls, Ok tt).
Proof.
  intros H2d.
  rewrite <- (app_nil_r (GradientChecker.roll_params ls ty)).
  rewrite (@unroll_params_transplant ty ls ls [] H2d eq_refl).
  rewrite transplant_all_same. reflexivity.
Qed.

(** ** Round trip, both rollers *)

Lemma fixture_layers_2d (ty : GradientChecker.param_type) :
  layers_2d ty Fixture.some_layers.
Proof.
  destruct ty; repeat constructor.
Qed.

(** C1: flattening a collection whose listed arrays are 2-D and unflattening
    the vector with the recorded index (dictionary-based roller), or into the
    layers it was rolled from (layer-based roller), returns the collection
    itself, shapes and values. *)
Theorem roller_roundtrip
        (params : dict ndarray) (keys : list string)
        (ty : GradientChecker.param_type) (ls : list GradientChecker.layer) :
  (forall k, In k keys -> exists m, dict_get params k = Some m /\ is_2d m /\ wf m) ->
  layers_2d ty ls ->
  (exists theta cache,
      GradientCheck.params_to_vector params keys = Ok (theta, cache) /\
      GradientCheck.vector_to_params theta cache = Ok params) /\
  GradientChecker.unroll_params (GradientChecker.roll_params ls ty) ls ty = (ls, Ok tt).
Proof.
  intros Hkeys H2d. split.
  - apply params_to_vector_roundtrip. intros k Hk.
    destruct (Hkeys k Hk) as (m & Hm & _ & Hwf). exists m. split; assumption.
  - apply roll_unroll_roundtrip. exact H2d.
Qed.

Lemma roller_roundtrip_witness :
  (exists theta cache,
      GradientCheck.params_to_vector Fixture.some_params ["W0"; "b0"]%string
      = Ok (theta, cache) /\
      GradientCheck.vector_to_params theta cache = Ok Fixture.some_params) /\
  GradientChecker.unroll_params
    (GradientChecker.roll_params Fixture.some_layers GradientChecker.Params)
    Fixture.some_layers GradientChecker.Params
  = (Fixture.some_layers, Ok tt).
Proof.
  apply roller_roundtrip.
  - intros k [<-|[<-|[]]]; eexists; (split; [reflexivity | split; reflexivity]).
  - apply fixture_layers_2d.
Defined.

(** ** Layers without a collection *)

Lemma roll_layers_skip (ty : GradientChecker.param_type)
      (ls1 ls2 : list GradientChecker.layer) (l : GradientChecker.layer) (theta : vec) :
  GradientChecker.getattr l ty = None ->
  GradientChecker.roll_layers (ls1 ++ l :: ls2) ty theta
  = GradientChecker.roll_layers (ls1 ++ ls2) ty theta.
Proof.
  intros HN. revert theta. induction ls1 as [|l1 ls1 IH]; intros theta; simpl.
  - rewrite HN. reflexivity.
  - destruct (GradientChecker.getattr l1 ty); apply IH.
Qed.

Lemma unroll_layers_keeps_none (ty : GradientChecker.param_type) (theta : vec)
      (ls1 ls2 : list GradientChecker.layer) (l : GradientChecker.layer) (i : nat) :
  GradientChecker.getattr l ty = None ->
  nth_error (fst (GradientChecker.unroll_layers theta i (ls1 ++ l :: ls2) ty))
            (length ls1) = Some l.
Proof.
  intros HN. revert i. induction ls1 as [|l1 ls1 IH]; intros i; simpl.
  - rewrite HN. destruct (GradientChecker.unroll_layers theta i ls2 ty). reflexivity.
  - destruct (GradientChecker.getattr l1 ty) as [d|].
    + destruct (GradientChecker.unroll_dict theta i d) as [d' [j|e]].
      * specialize (IH j).
        destruct (GradientChecker.unroll_layers theta j (ls1 ++ l :: ls2) ty).
        exact IH.
      * simpl. rewrite nth_error_app2 by lia. rewrite Nat.sub_diag. reflexivity.
    + specialize (IH i).
      destruct (GradientChecker.unroll_layers theta i (ls1 ++ l :: ls2) ty).
      exact IH.
Qed.

Lemma roll_dict_length (d : dict ndarray) :
  dict_2d d -> length (GradientChecker.roll_dict d []) = dict_count d.
Proof.
  induction 1 as [|[k a] d [H2d Hwf] _ IH].
  - reflexivity.
  - rewrite roll_dict_cons, length_app, IH. unfold dict_count. simpl.
    f_equal. simpl in H2d, Hwf. destruct (is_2d_shape H2d) as (r & c & Hs).
    unfold wf in Hwf. unfold rows, cols. rewrite Hwf, Hs. apply size_2d.
Qed.

Lemma roll_params_length (ty : GradientChecker.param_type)
      (ls : list GradientChecker.layer) :
  layers_2d ty ls -> length (GradientChecker.roll_params ls ty) = total_count ty ls.
Proof.
  unfold GradientChecker.roll_params, total_count.
  induction 1 as [|l ls Hl _ IH].
  - reflexivity.
  - rewrite roll_layers_cons, length_app, IH. unfold collections. simpl.
    destruct (GradientChecker.getattr l ty) as [d|]; simpl.
    + rewrite (roll_dict_length Hl). reflexivity.
    + reflexivity.
Qed.

(** C10: a layer whose collection [ty] is [None] adds no coordinate to the
    vector [roll_params] builds, is the same layer after [unroll_params]
    (whether that call returns or raises), and the length of the vector is the
    sum of rows x cols over the arrays of the layers that do have a collection
    (arrays 2-D). *)
Theorem none_layer_is_skipped
        (ty : GradientChecker.param_type)
        (ls1 ls2 : list GradientChecker.layer) (l : GradientChecker.layer)
        (theta : vec) :
  GradientChecker.getattr l ty = None ->
  GradientChecker.roll_params (ls1 ++ l :: ls2) ty
  = GradientChecker.roll_params (ls1 ++ ls2) ty /\
  nth_error (fst (GradientChecker.unroll_params theta (ls1 ++ l :: ls2) ty))
            (length ls1) = Some l /\
  (layers_2d ty (ls1 ++ l :: ls2) ->
   length (GradientChecker.roll_params (ls1 ++ l :: ls2) ty)
   = total_count ty (ls1 ++ ls2)).
Proof.
  intros HN. split; [|split].
  - apply roll_layers_skip. exact HN.
  - pose proof (@unroll_layers_keeps_none ty theta ls1 ls2 l 0 HN) as H.
    unfold GradientChecker.unroll_params.
    destruct (GradientChecker.unroll_layers theta 0 (ls1 ++ l :: ls2) ty) as [ls' [j|e]];
      exact H.
  - intros H2d. rewrite (roll_params_length H2d).
    unfold total_count, collections. rewrite !flat_map_app. simpl.
    rewrite HN. reflexivity.
Qed.

Lemma none_layer_is_skipped_witness :
  GradientChecker.roll_params Fixture.some_layers GradientChecker.Params
  = GradientChecker.roll_params [Fixture.dense; Fixture.dense] GradientChecker.Params /\
  nth_error (fst (GradientChecker.unroll_params [two] Fixture.some_layers
                                                GradientChecker.Params)) 1
  = Some Fixture.activation /\
  (layers_2d GradientChecker.Params Fixture.some_layers ->
   length (GradientChecker.roll_params Fixture.some_layers GradientChecker.Params)
   = total_count GradientChecker.Params [Fixture.dense; Fixture.dense]).
Proof.
  apply (@none_layer_is_skipped GradientChecker.Params
           [Fixture.dense] [Fixture.dense] Fixture.activation [two]).
  reflexivity.
Defined.

Example fixture_roll_length :
  length (GradientChecker.roll_params Fixture.some_layers GradientChecker.Params) = 12.
Proof. reflexivity. Qed.

(** ** When flattening fails *)

Lemma params_to_vector_loop_outcome (params : dict ndarray) (keys : list string) :
  forall theta positions,
    (forallb (present params) keys = true /\
     exists positions',
       GradientCheck.params_to_vector_loop params keys theta positions
       = Ok (theta ++ listed_data params keys, positions')) \/
    (forallb (present params) keys = false /\
     GradientCheck.params_to_vector_loop params keys theta positions = Raise KeyError).
Proof.
  induction keys as [|key keys IH]; intros theta positions; simpl.
  - left. split; [reflexivity|]. exists positions. rewrite app_nil_r. reflexivity.
  - unfold present at 1 3. destruct (dict_get params key) as [m|]; simpl.
    + destruct (IH (concatenate theta (flatten m))
                   (dict_set positions key
                             (length theta, length (concatenate theta (flatten m)))))
        as [[Hall [positions' Hloop]]|[Hnot Hloop]].
      * left. split; [exact Hall|]. exists positions'. rewrite Hloop.
        unfold concatenate, flatten, listed_data. rewrite <- app_assoc. reflexivity.
      * right. split; assumption.
    + right. split; reflexivity.
Qed.

Lemma roll_dict_data (d : dict ndarray) :
  GradientChecker.roll_dict d [] = flat_map (fun e => data (snd e)) d.
Proof.
  induction d as [|[k a] d IH]; [reflexivity|].
  rewrite roll_dict_cons, IH. reflexivity.
Qed.

Lemma roll_params_data (ty : GradientChecker.param_type)
      (ls : list GradientChecker.layer) :
  GradientChecker.roll_params ls ty
  = flat_map (fun d => flat_map (fun e => data (snd e)) d) (collections ty ls).
Proof.
  unfold GradientChecker.roll_params, collections.
  induction ls as [|l ls IH]; [reflexivity|].
  rewrite roll_layers_cons, IH. simpl.
  destruct (GradientChecker.getattr l ty) as [d|]; simpl.
  - rewrite roll_dict_data. reflexivity.
  - reflexivity.
Qed.

(** C8 (as the code has it): the dictionary-based flatten raises, with
    KeyError, exactly when a listed key is absent; otherwise it returns the
    elements of the listed arrays in key order, whatever their number of
    dimensions.  The layer-based flatten walks the keys of the collections
    themselves and always returns. *)
Theorem flatten_outcome
        (params : dict ndarray) (keys : list string)
        (ty : GradientChecker.param_type) (ls : list GradientChecker.layer) :
  ((forallb (present params) keys = true /\
    exists positions,
      GradientCheck.params_to_vector params keys
      = Ok (listed_data params keys, (params, positions))) \/
   (forallb (present params) keys = false /\
    GradientCheck.params_to_vector params keys = Raise KeyError)) /\
  GradientChecker.roll_params ls ty
  = flat_map (fun d => flat_map (fun e => data (snd e)) d) (collections ty ls).
Proof.
  split; [|apply roll_params_data].
  unfold GradientCheck.params_to_vector.
  destruct (params_to_vector_loop_outcome params keys [] [])
    as [[Hall [positions Hloop]]|[Hnot Hloop]]; rewrite Hloop.
  - left. split; [exact Hall|]. exists positions. reflexivity.
  - right. split; [exact Hnot | reflexivity].
Qed.

(** C8 as stated fails: a 1-D array of three elements and a 3-D array are
    flattened without any error by both rollers. *)
Lemma flatten_not_2d_counterexample :
  let a1 := mk_ndarray [3] [two; two; two] in
  let a3 := mk_ndarray [1; 2; 1] [two; Fixture.f_one] in
  let d := [("W0"%string, a1); ("b0"%string, a3)] in
  ndim a1 <> 2 /\ ndim a3 <> 2 /\
  (exists cache,
      GradientCheck.params_to_vector d ["W0"; "b0"]%string
      = Ok ([two; two; two; two; Fixture.f_one], cache)) /\
  GradientChecker.roll_params
    [{| GradientChecker.class := GradientChecker.OtherLayer;
        GradientChecker.params := Some d;
        GradientChecker.grads := None |}] GradientChecker.Params
  = [two; two; two; two; Fixture.f_one].
Proof.
  simpl. repeat split; try discriminate.
  eexists. reflexivity.
Qed.

(** ** When unflattening fails *)

Lemma vector_to_params_loop_ok (v : vec) (_params : dict ndarray)
      (positions : GradientCheck.positions_t) :
  (forall key from_i to_i,
      In (key, (from_i, to_i)) positions ->
      exists m, dict_get _params key = Some m /\
                length (slice v from_i to_i) = size (shape m)) ->
  forall acc, exists c,
      GradientCheck.vector_to_params_loop v _params positions acc = Ok c.
Proof.
  induction positions as [|[key [f t]] positions IH]; intros Hall acc; simpl.
  - exists acc. reflexivity.
  - destruct (Hall key f t (or_introl eq_refl)) as (m & Hm & Hlen).
    rewrite Hm. unfold reshape. rewrite Hlen, Nat.eqb_refl.
    apply IH. intros k f' t' Hin. apply Hall. right. exact Hin.
Qed.

Lemma vector_to_params_loop_raises (v : vec) (_params : dict ndarray)
      (positions : GradientCheck.positions_t) :
  (forall key from_i to_i,
      In (key, (from_i, to_i)) positions -> dict_get _params key <> None) ->
  (exists key from_i to_i m,
      In (key, (from_i, to_i)) positions /\ dict_get _params key = Some m /\
      length (slice v from_i to_i) <> size (shape m)) ->
  forall acc,
    GradientCheck.vector_to_params_loop v _params positions acc = Raise ValueError.
Proof.
  induction positions as [|[key [f t]] positions IH];
    intros Hpres (k0 & f0 & t0 & m0 & Hin & Hm0 & Hbad) acc; simpl.
  - destruct Hin.
  - destruct (dict_get _params key) as [m|] eqn:Hm.
    + unfold reshape.
      destruct (Nat.eqb_spec (length (slice v f t)) (size (shape m))) as [E|N];
        [|reflexivity].
      apply IH.
      * intros k f' t' Hin'. apply (Hpres k f' t'). right. exact Hin'.
      * destruct Hin as [[= <- <- <-]|Hin].
        -- rewrite Hm in Hm0. injection Hm0 as <-. contradiction.
        -- exists k0, f0, t0, m0. repeat split; assumption.
    + exfalso. apply (Hpres key f t (or_introl eq_refl)). exact Hm.
Qed.

Lemma index_sound_sizes (params : dict ndarray) (theta : vec)
      (positions : GradientCheck.positions_t) (key : string) (f t : nat) :
  index_sound params theta positions ->
  In (key, (f, t)) positions ->
  t <= length theta /\
  exists m, dict_get params key = Some m /\ size (shape m) = t - f.
Proof.
  intros Hinv Hin. destruct (Hinv key f t Hin) as (Hle & m & Hm & Hwf & Hs).
  split; [exact Hle|]. exists m. split; [exact Hm|].
  apply (f_equal (@length float64)) in Hs. rewrite slice_length in Hs.
  unfold wf in Hwf. lia.
Qed.

Lemma dict_count_cons (k : string) (a : ndarray) (d : dict ndarray) :
  dict_count ((k, a) :: d) = rows a * cols a + dict_count d.
Proof. reflexivity. Qed.

Lemma total_count_cons (ty : GradientChecker.param_type)
      (l : GradientChecker.layer) (ls : list GradientChecker.layer) :
  total_count ty (l :: ls)
  = match GradientChecker.getattr l ty with
    | None => 0
    | Some d => dict_count d
    end + total_count ty ls.
Proof.
  unfold total_count, collections. simpl.
  destruct (GradientChecker.getattr l ty); reflexivity.
Qed.

Lemma layers_2d_shapes (ty : GradientChecker.param_type)
      (ls : list GradientChecker.layer) :
  layers_2d ty ls -> shapes_2d ty ls.
Proof.
  induction 1 as [|l ls Hl _ IH]; constructor; [|exact IH].
  destruct (GradientChecker.getattr l ty) as [d|]; [|exact I].
  induction Hl as [|e d [H2d _] _ IHd]; constructor; assumption.
Qed.

Lemma unroll_dict_outcome (d : dict ndarray) :
  dict_shapes_2d d ->
  forall (v : vec) (i : nat),
    i <= length v ->
    snd (GradientChecker.unroll_dict v i d)
    = if i + dict_count d <=? length v then Ok (i + dict_count d) else Raise ValueError.
Proof.
  induction 1 as [|[k a] d H2d _ IH]; intros v i Hi.
  - simpl. rewrite Nat.add_0_r. destruct (Nat.leb_spec i (length v)); [reflexivity | lia].
  - simpl in H2d. destruct (is_2d_shape H2d) as (r & c & Hs).
    cbn [GradientChecker.unroll_dict]. rewrite dict_count_cons.
    unfold rows, cols. rewrite Hs. cbn [nth_error nth].
    unfold reshape. rewrite slice_length, size_2d.
    replace (i + r * c - i) with (r * c) by lia.
    destruct (Nat.leb_spec (i + r * c) (length v)) as [Hfit|Hshort].
    + rewrite Nat.min_l by lia. rewrite Nat.eqb_refl.
      specialize (IH v (i + r * c) Hfit).
      destruct (GradientChecker.unroll_dict v (i + r * c) d) as [d' res].
      cbn [snd] in *. rewrite IH, Nat.add_assoc. reflexivity.
    + destruct (Nat.eqb_spec (Nat.min (r * c) (length v - i)) (r * c)) as [E|N]; [lia|].
      cbn [snd].
      destruct (Nat.leb_spec (i + (r * c + dict_count d)) (length v)); [lia|].
      reflexivity.
Qed.

Lemma unroll_layers_outcome (ty : GradientChecker.param_type)
      (ls : list GradientChecker.layer) :
  shapes_2d ty ls ->
  forall (v : vec) (i : nat),
    i <= length v ->
    snd (GradientChecker.unroll_layers v i ls ty)
    = if i + total_count ty ls <=? length v
      then Ok (i + total_count ty ls) else Raise ValueError.
Proof.
  induction 1 as [|l ls Hl _ IH]; intros v i Hi.
  - simpl. unfold total_count. simpl. rewrite Nat.add_0_r.
    destruct (Nat.leb_spec i (length v)); [reflexivity | lia].
  - cbn [GradientChecker.unroll_layers]. rewrite total_count_cons.
    destruct (GradientChecker.getattr l ty) as [d|].
    + pose proof (unroll_dict_outcome Hl v Hi) as Hd.
      destruct (GradientChecker.unroll_dict v i d) as [d' res]. cbn [snd] in Hd.
      subst res.
      destruct (Nat.leb_spec (i + dict_count d) (length v)) as [Hfit|Hshort].
      * specialize (IH v (i + dict_count d) Hfit).
        destruct (GradientChecker.unroll_layers v (i + dict_count d) ls ty) as [ls' res].
        cbn [snd] in *. rewrite IH, Nat.add_assoc. reflexivity.
      * cbn [snd].
        destruct (Nat.leb_spec (i + (dict_count d + total_count ty ls)) (length v));
          [lia | reflexivity].
    + specialize (IH v i Hi).
      destruct (GradientChecker.unroll_layers v i ls ty) as [ls' res].
      cbn [snd] in *. exact IH.
Qed.

Lemma unroll_params_outcome (ty : GradientChecker.param_type)
      (ls : list GradientChecker.layer) (v : vec) :
  shapes_2d ty ls ->
  snd (GradientChecker.unroll_params v ls ty)
  = if total_count ty ls <=? length v then Ok tt else Raise ValueError.
Proof.
  intros H2d. unfold GradientChecker.unroll_params.
  pose proof (unroll_layers_outcome H2d v (Nat.le_0_l _)) as H.
  destruct (GradientChecker.unroll_layers v 0 ls ty) as [ls' [j|e]]; simpl in *.
  - destruct (total_count ty ls <=? length v); [reflexivity | discriminate].
  - destruct (total_count ty ls <=? length v); [discriminate|].
    injection H as ->. reflexivity.
Qed.

(** C9 as stated fails: a vector of seven scalars is unflattened without error
    into shapes that hold six (the recorded intervals are 0:4 and 4:6), and a
    vector of thirteen into layers that hold twelve. *)
Lemma unflatten_longer_counterexample :
  let theta := [Fixture.f_one; two; Fixture.f_three; Fixture.f_one; two; Fixture.f_three] in
  let cache := (Fixture.some_params, [("W0"%string, (0, 4)); ("b0"%string, (4, 6))]) in
  GradientCheck.params_to_vector Fixture.some_params ["W0"; "b0"]%string
  = Ok (theta, cache) /\
  length (theta ++ [two]) <> (4 - 0) + (6 - 4) /\
  GradientCheck.vector_to_params (theta ++ [two]) cache = Ok Fixture.some_params /\
  length (GradientChecker.roll_params Fixture.some_layers GradientChecker.Params ++ [two])
  <> total_count GradientChecker.Params Fixture.some_layers /\
  GradientChecker.unroll_params
    (GradientChecker.roll_params Fixture.some_layers GradientChecker.Params ++ [two])
    Fixture.some_layers GradientChecker.Params
  = (Fixture.some_layers, Ok tt).
Proof.
  simpl. repeat split; discriminate.
Qed.

(** ** The precondition of a check *)

Section Precondition.

Variables Hidden Regularizer Input Target Output Caches : Type.

Variable propagate_forward :
  Input -> bool -> GradientChecker.model Hidden Regularizer
  -> GradientChecker.model Hidden Regularizer * Output.
Variable propagate_backward :
  Output -> Target -> GradientChecker.model Hidden Regularizer
  -> GradientChecker.model Hidden Regularizer.
Variable compute_cost :
  Output -> Target -> GradientChecker.model Hidden Regularizer -> float64.

Lemma assert_layers_outcome (ls : list GradientChecker.layer)
      (w : GradientChecker.world Hidden Regularizer) :
  GradientChecker.assert_layers ls w
  = (w, if existsb stochastic ls then Raise AssertionError else Ok tt).
Proof.
  induction ls as [|l ls IH]; simpl; [reflexivity|].
  unfold stochastic at 1, bind, assert.
  destruct (GradientChecker.isinstance l GradientChecker.Dropout); simpl; [reflexivity|].
  destruct (GradientChecker.isinstance l GradientChecker.BatchNorm); simpl; [reflexivity|].
  exact IH.
Qed.

(** C7: a layer-based model with a Dropout or BatchNorm layer, or with any
    regularizer, and a dictionary-based model whose regularizer is Dropout,
    are refused with an AssertionError; the model and the log of collaborator
    calls are then exactly what they were, so nothing was called or mutated. *)
Theorem precondition_is_enforced
        (eps : float64) (X : Input) (Y : Target)
        (w : GradientChecker.world Hidden Regularizer)
        (m : GradientCheck.model Input Target Output Caches)
        (log : list call) :
  GradientChecker.regularizer (GradientChecker.mdl w) <> None \/
  existsb stochastic (GradientChecker.layers (GradientChecker.mdl w)) = true ->
  GradientCheck.regularizer m = Some GradientCheck.Dropout ->
  GradientChecker.compute_error propagate_forward propagate_backward compute_cost
                                eps X Y w
  = (w, Raise AssertionError) /\
  GradientCheck.run m eps X Y log = (log, Raise AssertionError).
Proof.
  intros Hbad Hdrop. split.
  - unfold GradientChecker.compute_error, bind at 1 2 3,
      GradientChecker.get_layers, GradientChecker.get_regularizer.
    destruct (GradientChecker.regularizer (GradientChecker.mdl w)) as [r|] eqn:Hr.
    + reflexivity.
    + simpl. unfold bind at 1. rewrite assert_layers_outcome.
      destruct Hbad as [Hne|Hex]; [contradiction|].
      rewrite Hex. reflexivity.
  - unfold GradientCheck.run, bind at 1. rewrite Hdrop. reflexivity.
Qed.

End Precondition.

Lemma precondition_is_enforced_witness :
  GradientChecker.compute_error PreconditionFixture.idle_forward
                                PreconditionFixture.idle_backward
                                PreconditionFixture.idle_cost
                                two tt tt PreconditionFixture.bn_world
  = (PreconditionFixture.bn_world, Raise AssertionError) /\
  GradientCheck.run PreconditionFixture.dropout_model two tt tt []
  = ([], Raise AssertionError).
Proof.
  apply precondition_is_enforced.
  - right. reflexivity.
  - reflexivity.
Defined.

(** ** Running a computation that returns *)

Lemma bind_Ok_inv {S A B : Type} (c : M S A) (k : A -> M S B) (s s' : S) (b : B) :
  bind c k s = (s', Ok b) ->
  exists a s1, c s = (s1, Ok a) /\ k a s1 = (s', Ok b).
Proof.
  unfold bind. destruct (c s) as [s1 [a|e]]; intros H.
  - exists a, s1. split; [reflexivity | exact H].
  - discriminate.
Qed.

Lemma bind_Ok {S A B : Type} (c : M S A) (k : A -> M S B) (s s1 : S) (a : A) :
  c s = (s1, Ok a) -> bind c k s = k a s1.
Proof. unfold bind. intros ->. reflexivity. Qed.

Tactic Notation "bind_inv" hyp(H) "as" ident(a) ident(s) ident(Hc) :=
  apply bind_Ok_inv in H; destruct H as (a & s & Hc & H).

(** ** Pass or fail *)

Lemma SFcompare_swap (x y : float64) :
  SFcompare y x = option_map CompOpp (SFcompare x y).
Proof.
  destruct x as [sx|sx| |sx mx ex], y as [sy|sy| |sy my ey]; simpl;
    try (destruct sx); try (destruct sy); try reflexivity;
    pose proof (Pos.compare_cont_antisym mx my Eq) as HA; simpl in HA;
    rewrite (Z.compare_antisym ex ey);
    destruct (Z.compare ex ey); simpl; try reflexivity;
    rewrite <- HA; try reflexivity;
    destruct (Pos.compare_cont Eq mx my); reflexivity.
Qed.

Lemma classify_spec (diff : float64) :
  (leb diff tol = true -> GradientCheck.classify diff = GradientCheck.Passed) /\
  (gtb diff tol = true -> GradientCheck.classify diff = GradientCheck.Failed) /\
  (diff = nan -> GradientCheck.classify diff = GradientCheck.Passed).
Proof.
  unfold GradientCheck.classify, gtb, leb, SFltb, SFleb.
  rewrite (SFcompare_swap diff tol).
  repeat split.
  - destruct (SFcompare diff tol) as [[| |]|]; simpl; intros H;
      try reflexivity; discriminate.
  - destruct (SFcompare diff tol) as [[| |]|]; simpl; intros H;
      try reflexivity; discriminate.
  - intros ->. reflexivity.
Qed.

Section Classification.

Variables Input Target Output Caches : Type.

Lemma run_message (m : GradientCheck.model Input Target Output Caches)
      (eps : float64) (X : Input) (Y : Target) (log log' : list call)
      (msg : GradientCheck.message) (diff : float64) :
  GradientCheck.run m eps X Y log = (log', Ok (msg, diff)) ->
  msg = GradientCheck.classify diff.
Proof.
  unfold GradientCheck.run. intros H.
  bind_inv H as u0 s0 H0. bind_inv H as params s1 H1.
  bind_inv H as AL_caches s2 H2. destruct AL_caches as [AL caches].
  bind_inv H as grads s3 H3. bind_inv H as theta_cache s4 H4.
  destruct theta_cache as [param_theta param_cache].
  bind_inv H as grad_theta s5 H5. bind_inv H as gradapprox s6 H6.
  bind_inv H as d s7 H7.
  unfold ret in H. injection H as _ <- <-. reflexivity.
Qed.

(** C4 (as the code has it): the message printed by a run that returns the
    score [diff] is "Passed" when [diff <= 2e-7] and "Failed" when
    [diff > 2e-7]; a NaN score, for which the comparison is false, is
    reported as passed too. *)
Theorem classification_of_score
        (m : GradientCheck.model Input Target Output Caches)
        (eps : float64) (X : Input) (Y : Target) (log log' : list call)
        (msg : GradientCheck.message) (diff : float64) :
  GradientCheck.run m eps X Y log = (log', Ok (msg, diff)) ->
  (leb diff tol = true -> msg = GradientCheck.Passed) /\
  (gtb diff tol = true -> msg = GradientCheck.Failed) /\
  (diff = nan -> msg = GradientCheck.Passed).
Proof.
  intros H. rewrite (run_message _ _ _ _ _ H). apply classify_spec.
Qed.

End Classification.

Example threshold_score :
  GradientCheck.calculate_diff [ThresholdFixture.g_analytic] [ThresholdFixture.g_slope]
  = Ok tol.
Proof. vm_compute. reflexivity. Qed.

Example threshold_run :
  snd (GradientCheck.run ThresholdFixture.model ThresholdFixture.half tt tt [])
  = Ok (GradientCheck.Passed, tol).
Proof. vm_compute. reflexivity. Qed.

Lemma classification_of_score_witness :
  (leb tol tol = true -> GradientCheck.Passed = GradientCheck.Passed) /\
  (gtb tol tol = true -> GradientCheck.Passed = GradientCheck.Failed) /\
  (tol = nan -> GradientCheck.Passed = GradientCheck.Passed).
Proof.
  eapply (@classification_of_score unit unit float64 unit
            ThresholdFixture.model ThresholdFixture.half tt tt []).
  vm_compute. reflexivity.
Defined.

(** C4 as stated fails at the tolerance itself: the run below returns the
    score 2e-7 exactly, a score "at or above" the tolerance, and reports
    "Passed". *)
Lemma classification_at_tolerance_counterexample :
  exists log',
    GradientCheck.run ThresholdFixture.model ThresholdFixture.half tt tt []
    = (log', Ok (GradientCheck.Passed, tol)) /\
    leb tol tol = true /\ ltb tol tol = false /\
    GradientCheck.Passed <> GradientCheck.Failed.
Proof.
  eexists. split; [vm_compute; reflexivity|].
  repeat split. discriminate.
Qed.

(** ** The scorer: formula, symmetry, score of a vector against itself *)

Lemma sub_self (x : float64) : is_finite x = true -> sub x x = zero.
Proof.
  destruct x as [[|]| | |s m e]; simpl; intros H; try discriminate; try reflexivity.
  unfold sub, SFsub. rewrite Z.sub_diag. reflexivity.
Qed.

Lemma subtract_self (A : vec) :
  all_finite A ->
  exists d, subtract A A = Ok d /\ all_zero d.
Proof.
  intros HA. rewrite (subtract_same_length A A eq_refl). eexists. split; [reflexivity|].
  induction HA as [|x A Hx _ IH]; simpl; constructor.
  - rewrite (sub_self x Hx). reflexivity.
  - exact IH.
Qed.

Lemma div_zero_number (d : float64) :
  nonzero_number d -> is_zero (div zero d) = true.
Proof.
  intros [Hnan Hz]. destruct d as [s|s| |s m e]; simpl in *;
    try discriminate; try reflexivity.
  contradiction Hnan. reflexivity.
Qed.

Lemma norm_scalar_zero : norm_scalar zero = zero.
Proof. reflexivity. Qed.

Lemma score_self (A : vec) :
  all_finite A ->
  (nonzero_number (add (norm A) (norm A)) ->
   exists z, GradientChecker.calculate_diff A A = Ok z /\ is_zero z = true) /\
  (nonzero_number (add (norm_scalar (norm A)) (norm_scalar (norm A))) ->
   exists z, GradientCheck.calculate_diff A A = Ok z /\ is_zero z = true).
Proof.
  intros HA. destruct (subtract_self HA) as (d & Hd & Hz).
  unfold GradientChecker.calculate_diff, GradientCheck.calculate_diff.
  rewrite Hd, (norm_all_zero Hz), norm_scalar_zero.
  split; intros Hden; eexists; (split; [reflexivity | apply div_zero_number; exact Hden]).
Qed.

Lemma mul_self_abs (u v : float64) : same_abs u v -> mul u u = mul v v.
Proof.
  unfold same_abs.
  destruct u as [[|]|[|]| |[|] mu eu], v as [[|]|[|]| |[|] mv ev]; simpl;
    intros H; try discriminate; try reflexivity;
    injection H as -> ->; reflexivity.
Qed.

Lemma binary_round_aux_abs (s : bool) (m e : Z) (l : location) :
  SFabs (binary_round_aux prec emax s m e l)
  = SFabs (binary_round_aux prec emax false m e l).
Proof.
  unfold binary_round_aux.
  destruct (shr_fexp prec emax m e l) as [mrs' e'].
  destruct (shr_fexp prec emax _ e' loc_Exact) as [mrs'' e''].
  destruct (shr_m mrs''); try reflexivity.
  destruct (Z.leb e'' (Z.sub emax prec)); reflexivity.
Qed.

Lemma binary_round_abs (s : bool) (m : positive) (e : Z) :
  SFabs (binary_round prec emax s m e) = SFabs (binary_round prec emax false m e).
Proof.
  unfold binary_round. destruct (shl_align m e _) as [mz ez].
  apply binary_round_aux_abs.
Qed.

Lemma binary_normalize_opp (z e : Z) :
  SFabs (binary_normalize prec emax (Z.opp z) e false)
  = SFabs (binary_normalize prec emax z e false).
Proof.
  destruct z as [|p|p]; simpl; [reflexivity| |].
  - apply binary_round_abs.
  - symmetry. apply binary_round_abs.
Qed.

Lemma sub_swap_abs (x y : float64) : same_abs (sub x y) (sub y x).
Proof.
  unfold same_abs.
  destruct x as [[|]|[|]| |sx mx ex], y as [[|]|[|]| |sy my ey];
    try reflexivity.
  unfold sub, SFsub. rewrite (Z.min_comm ey ex).
  rewrite <- binary_normalize_opp. rewrite Z.opp_sub_distr, Z.add_comm, Z.add_opp_r.
  reflexivity.
Qed.

Lemma add_comm (x y : float64) : add x y = add y x.
Proof.
  destruct x as [[|]|[|]| |sx mx ex], y as [[|]|[|]| |sy my ey];
    try reflexivity.
  unfold add, SFadd. rewrite (Z.min_comm ey ex), Z.add_comm. reflexivity.
Qed.

Lemma dot_self_abs (d d' : vec) :
  Forall2 same_abs d d' -> dot d d = dot d' d'.
Proof.
  unfold dot. intros H. generalize zero.
  induction H as [|u v d d' Huv _ IH]; intros acc; simpl; [reflexivity|].
  rewrite (mul_self_abs Huv). apply IH.
Qed.

Lemma subtract_swap (A B : vec) :
  (exists d d', subtract A B = Ok d /\ subtract B A = Ok d' /\ Forall2 same_abs d d') \/
  (subtract A B = Raise ValueError /\ subtract B A = Raise ValueError).
Proof.
  assert (Hmap1 : forall (x : float64) (v : vec),
             Forall2 same_abs (map (fun y => sub x y) v) (map (fun y => sub y x) v)).
  { intros x v. induction v; simpl; constructor; [apply sub_swap_abs | assumption]. }
  assert (Hmap2 : forall (x : float64) (v : vec),
             Forall2 same_abs (map (fun y => sub y x) v) (map (fun y => sub x y) v)).
  { intros x v. induction v; simpl; constructor; [apply sub_swap_abs | assumption]. }
  assert (Hcomb : forall u v : vec,
             Forall2 same_abs (map (fun p => sub (fst p) (snd p)) (combine u v))
                     (map (fun p => sub (fst p) (snd p)) (combine v u))).
  { induction u as [|x u IH]; intros [|y v]; simpl; constructor;
      [apply sub_swap_abs | apply IH]. }
  unfold subtract. rewrite (Nat.eqb_sym (length B) (length A)).
  destruct (Nat.eqb_spec (length A) (length B)) as [E|N].
  - left. eexists. eexists. repeat split. apply Hcomb.
  - destruct A as [|a [|a' A]], B as [|b [|b' B]]; simpl in N; try lia;
      first [ right; split; reflexivity
            | left; eexists; eexists;
              split; [reflexivity|];
              split; [reflexivity|];
              first [apply Hmap1 | apply Hmap2 | constructor] ].
Qed.

Lemma score_symmetric (A B : vec) :
  GradientChecker.calculate_diff A B = GradientChecker.calculate_diff B A /\
  GradientCheck.calculate_diff A B = GradientCheck.calculate_diff B A.
Proof.
  unfold GradientChecker.calculate_diff, GradientCheck.calculate_diff.
  destruct (subtract_swap A B) as [(d & d' & -> & -> & Hdd)|[-> ->]].
  - unfold norm. rewrite (dot_self_abs Hdd).
    rewrite (add_comm (sqrt (dot A A)) (sqrt (dot B B))).
    rewrite (add_comm (norm_scalar (sqrt (dot A A))) (norm_scalar (sqrt (dot B B)))).
    split; reflexivity.
  - split; reflexivity.
Qed.

(** C5 as stated fails: [1e-200] is a non-zero vector, yet its norm is
    computed as 0.0 (the square underflows) and its score against itself is
    NaN, not 0. *)
Lemma score_self_underflow_counterexample :
  is_zero UnderflowFixture.tiny = false /\
  norm [UnderflowFixture.tiny] = zero /\
  GradientChecker.calculate_diff [UnderflowFixture.tiny] [UnderflowFixture.tiny]
  = Ok nan /\
  GradientCheck.calculate_diff [UnderflowFixture.tiny] [UnderflowFixture.tiny]
  = Ok nan /\
  eqb nan zero = false.
Proof. vm_compute. repeat split. Qed.

(** ** Installing a vector into the layers *)

Lemma firstn_add_split {A : Type} (a b : nat) (l : list A) :
  firstn (a + b) l = firstn a l ++ firstn b (skipn a l).
Proof.
  revert l. induction a as [|a IH]; intros l; simpl; [reflexivity|].
  destruct l as [|x l]; simpl.
  - rewrite firstn_nil. reflexivity.
  - rewrite IH. reflexivity.
Qed.

Lemma slice_split (v : vec) (i m j : nat) :
  i <= m -> m <= j -> slice v i m ++ slice v m j = slice v i j.
Proof.
  intros Him Hmj. unfold slice.
  replace (j - i) with ((m - i) + (j - m)) by lia.
  rewrite firstn_add_split, skipn_skipn.
  replace (m - i + i) with m by lia. reflexivity.
Qed.

Lemma slice_empty (v : vec) (i : nat) : slice v i i = [].
Proof. unfold slice. rewrite Nat.sub_diag. reflexivity. Qed.

Lemma slice_whole (v : vec) : slice v 0 (length v) = v.
Proof. unfold slice. rewrite Nat.sub_0_r. simpl. apply firstn_all. Qed.

Lemma dict_count_skeleton (d d' : dict ndarray) :
  dict_skeleton d = dict_skeleton d' -> dict_count d = dict_count d'.
Proof.
  revert d'. induction d as [|[k a] d IH]; intros [|[k' a'] d'] H;
    try discriminate; [reflexivity|].
  simpl in H. injection H as _ Hs H.
  rewrite !dict_count_cons, (IH d' H). unfold rows, cols. rewrite Hs. reflexivity.
Qed.

Lemma dict_shapes_2d_skeleton (d d' : dict ndarray) :
  dict_skeleton d = dict_skeleton d' -> dict_shapes_2d d -> dict_shapes_2d d'.
Proof.
  intros H Hd. revert d' H. induction Hd as [|[k a] d Ha _ IH]; intros [|[k' a'] d'] H;
    try discriminate; constructor.
  - simpl in *. injection H as _ Hs _. unfold is_2d, ndim in *. rewrite <- Hs. exact Ha.
  - apply IH. simpl in H. injection H as _ _ H. exact H.
Qed.

Lemma total_count_skeleton (ty : GradientChecker.param_type)
      (ls ls' : list GradientChecker.layer) :
  skeleton ty ls = skeleton ty ls' -> total_count ty ls = total_count ty ls'.
Proof.
  revert ls'. induction ls as [|l ls IH]; intros [|l' ls'] H;
    try discriminate; [reflexivity|].
  simpl in H. injection H as Hl H. rewrite !total_count_cons, (IH ls' H).
  destruct (GradientChecker.getattr l ty) as [d|],
           (GradientChecker.getattr l' ty) as [d'|]; try discriminate; [|reflexivity].
  simpl in Hl. injection Hl as Hl. rewrite (@dict_count_skeleton d d' Hl). reflexivity.
Qed.

Lemma shapes_2d_skeleton (ty : GradientChecker.param_type)
      (ls ls' : list GradientChecker.layer) :
  skeleton ty ls = skeleton ty ls' -> shapes_2d ty ls -> shapes_2d ty ls'.
Proof.
  intros H Hls. revert ls' H. induction Hls as [|l ls Hl _ IH]; intros [|l' ls'] H;
    try discriminate; constructor.
  - simpl in H. injection H as Hl' _.
    destruct (GradientChecker.getattr l ty) as [d|],
             (GradientChecker.getattr l' ty) as [d'|]; try discriminate; [|exact I].
    simpl in Hl'. injection Hl' as Hl'. eapply dict_shapes_2d_skeleton; eassumption.
  - apply IH. simpl in H. injection H as _ H. exact H.
Qed.

Lemma unroll_dict_build (d : dict ndarray) :
  dict_shapes_2d d ->
  forall (v : vec) (i : nat),
    i + dict_count d <= length v ->
    GradientChecker.unroll_dict v i d
    = (build_dict v i (dict_skeleton d), Ok (i + dict_count d)).
Proof.
  induction 1 as [|[k a] d H2d _ IH]; intros v i Hfit.
  - simpl. rewrite Nat.add_0_r. reflexivity.
  - simpl in H2d. destruct (is_2d_shape H2d) as (r & c & Hs).
    rewrite dict_count_cons in *. unfold rows, cols in *. rewrite Hs in *.
    cbn [nth] in *.
    cbn [GradientChecker.unroll_dict dict_skeleton map build_dict fst snd].
    rewrite Hs. cbn [nth_error]. rewrite size_2d.
    unfold reshape. rewrite slice_length, size_2d.
    replace (Nat.min (i + r * c - i) (length v - i)) with (r * c) by lia.
    rewrite Nat.eqb_refl.
    fold (dict_skeleton d).
    rewrite (IH v (i + r * c)) by lia.
    rewrite Nat.add_assoc. reflexivity.
Qed.

Lemma build_dict_skeleton (v : vec) (i : nat) (sk : list (string * list nat)) :
  dict_skeleton (build_dict v i sk) = sk.
Proof.
  revert i. induction sk as [|[k s] sk IH]; intros i; simpl; [reflexivity|].
  rewrite IH. reflexivity.
Qed.

Lemma build_dict_roll (d : dict ndarray) :
  dict_shapes_2d d ->
  forall (v : vec) (i : nat),
    GradientChecker.roll_dict (build_dict v i (dict_skeleton d)) []
    = slice v i (i + dict_count d).
Proof.
  induction 1 as [|[k a] d H2d _ IH]; intros v i.
  - simpl. rewrite Nat.add_0_r, slice_empty. reflexivity.
  - simpl in H2d. destruct (is_2d_shape H2d) as (r & c & Hs).
    rewrite dict_count_cons. unfold rows, cols. rewrite Hs. cbn [nth].
    cbn [dict_skeleton map build_dict fst snd]. fold (dict_skeleton d).
    rewrite roll_dict_cons. cbn [data]. rewrite Hs, size_2d, IH.
    rewrite slice_split by lia. rewrite Nat.add_assoc. reflexivity.
Qed.

Lemma unroll_layers_install (ty : GradientChecker.param_type)
      (ls : list GradientChecker.layer) :
  shapes_2d ty ls ->
  forall (v : vec) (i : nat),
    i + total_count ty ls <= length v ->
    GradientChecker.unroll_layers v i ls ty
    = (install_layers v i ls ty, Ok (i + total_count ty ls)).
Proof.
  induction 1 as [|l ls Hl _ IH]; intros v i Hfit.
  - simpl. unfold total_count. simpl. rewrite Nat.add_0_r. reflexivity.
  - rewrite total_count_cons in *.
    cbn [GradientChecker.unroll_layers install_layers].
    destruct (GradientChecker.getattr l ty) as [d|].
    + rewrite (unroll_dict_build Hl v i) by lia.
      rewrite (IH v (i + dict_count d)) by lia.
      rewrite Nat.add_assoc. reflexivity.
    + rewrite (IH v i) by lia. reflexivity.
Qed.

Lemma getattr_with_collection (l : GradientChecker.layer)
      (ty : GradientChecker.param_type) (d : dict ndarray) :
  GradientChecker.getattr (GradientChecker.with_collection l ty d) ty = Some d /\
  GradientChecker.getattr (GradientChecker.with_collection l ty d) (other ty)
  = GradientChecker.getattr l (other ty).
Proof. destruct ty; split; reflexivity. Qed.

Lemma install_layers_skeleton (ty ty' : GradientChecker.param_type)
      (ls : list GradientChecker.layer) (v : vec) (i : nat) :
  skeleton ty' (install_layers v i ls ty) = skeleton ty' ls.
Proof.
  revert i. induction ls as [|l ls IH]; intros i; simpl; [reflexivity|].
  destruct (GradientChecker.getattr l ty) as [d|] eqn:E; simpl; rewrite IH; [|reflexivity].
  f_equal. destruct (getattr_with_collection l ty (build_dict v i (dict_skeleton d)))
    as [Hsame Hother].
  destruct ty, ty'; simpl in *;
    try (rewrite E; simpl; rewrite build_dict_skeleton; reflexivity);
    reflexivity.
Qed.

Lemma install_layers_other (ty : GradientChecker.param_type)
      (ls : list GradientChecker.layer) (v : vec) (i : nat) :
  map (fun l => GradientChecker.getattr l (other ty)) (install_layers v i ls ty)
  = map (fun l => GradientChecker.getattr l (other ty)) ls.
Proof.
  revert i. induction ls as [|l ls IH]; intros i; simpl; [reflexivity|].
  destruct (GradientChecker.getattr l ty) as [d|]; simpl; rewrite IH; [|reflexivity].
  f_equal. apply getattr_with_collection.
Qed.

Lemma install_layers_agree (ty : GradientChecker.param_type)
      (ls ls' : list GradientChecker.layer) (v : vec) :
  skeleton ty ls = skeleton ty ls' ->
  forall i,
    map (fun l => GradientChecker.getattr l ty) (install_layers v i ls ty)
    = map (fun l => GradientChecker.getattr l ty) (install_layers v i ls' ty).
Proof.
  revert ls'. induction ls as [|l ls IH]; intros [|l' ls'] H i;
    try discriminate; [reflexivity|].
  simpl in H. injection H as Hl H. simpl.
  destruct (GradientChecker.getattr l ty) as [d|] eqn:E,
           (GradientChecker.getattr l' ty) as [d'|] eqn:E'; try discriminate; simpl.
  - simpl in Hl. injection Hl as Hl.
    rewrite (proj1 (getattr_with_collection _ _ _)).
    rewrite (proj1 (getattr_with_collection _ _ _)).
    rewrite Hl, (@dict_count_skeleton d d' Hl), (IH ls' H). reflexivity.
  - rewrite E, E', (IH ls' H). reflexivity.
Qed.

Lemma install_layers_roll (ty : GradientChecker.param_type)
      (ls : list GradientChecker.layer) :
  shapes_2d ty ls ->
  forall (v : vec) (i : nat),
    GradientChecker.roll_layers (install_layers v i ls ty) ty []
    = slice v i (i + total_count ty ls).
Proof.
  induction 1 as [|l ls Hl _ IH]; intros v i.
  - simpl. unfold total_count. simpl. rewrite Nat.add_0_r, slice_empty. reflexivity.
  - rewrite total_count_cons. cbn [install_layers].
    destruct (GradientChecker.getattr l ty) as [d|] eqn:E.
    + rewrite roll_layers_cons, (proj1 (getattr_with_collection _ _ _)).
      rewrite (build_dict_roll Hl), IH.
      rewrite slice_split by lia. rewrite Nat.add_assoc. reflexivity.
    + rewrite roll_layers_cons, E, IH. reflexivity.
Qed.

(** ** Vectors updated at one coordinate *)

Lemma length_setitem (v : vec) (i : nat) (x : float64) :
  length (setitem v i x) = length v.
Proof.
  revert i. induction v as [|y v IH]; intros [|i]; simpl; try reflexivity.
  rewrite IH. reflexivity.
Qed.

Lemma getitem_setitem_same (v : vec) (i : nat) (x : float64) :
  i < length v -> getitem (setitem v i x) i = x.
Proof.
  unfold getitem. revert i. induction v as [|y v IH]; intros [|i]; simpl; intros H;
    try lia; [reflexivity|].
  apply IH. lia.
Qed.

Lemma getitem_setitem_other (v : vec) (i j : nat) (x : float64) :
  i <> j -> getitem (setitem v i x) j = getitem v j.
Proof.
  unfold getitem. revert i j. induction v as [|y v IH]; intros [|i] [|j] H; simpl;
    try reflexivity; try lia.
  apply IH. lia.
Qed.

Lemma length_zeros (n : nat) : length (zeros n) = n.
Proof. apply repeat_length. Qed.

(** ** The central-difference loop of the layer-based checker *)

Section LayerEstimator.

Variables Hidden Regularizer Input Target Output : Type.

Variable propagate_forward :
  Input -> bool -> GradientChecker.model Hidden Regularizer
  -> GradientChecker.model Hidden Regularizer * Output.
Variable propagate_backward :
  Output -> Target -> GradientChecker.model Hidden Regularizer
  -> GradientChecker.model Hidden Regularizer.
Variable compute_cost :
  Output -> Target -> GradientChecker.model Hidden Regularizer -> float64.

Variable eps : float64.
Variable X : Input.
Variable Y : Target.

Lemma error_loop_cons (theta : vec) (i : nat) (range : list nat) (g : vec)
      (w : GradientChecker.world Hidden Regularizer) :
  GradientChecker.error_loop propagate_forward compute_cost eps X Y theta
                             (i :: range) g w
  = match evaluate propagate_forward compute_cost X Y (plus eps theta i) w with
    | (w1, Raise e) => (w1, Raise e)
    | (w1, Ok cost_plus) =>
        match evaluate propagate_forward compute_cost X Y (minus eps theta i) w1 with
        | (w2, Raise e) => (w2, Raise e)
        | (w2, Ok cost_minus) =>
            GradientChecker.error_loop
              propagate_forward compute_cost eps X Y theta range
              (setitem g i (central_difference eps cost_plus cost_minus)) w2
        end
    end.
Proof.
  cbn [GradientChecker.error_loop].
  unfold evaluate, bind, plus, minus, central_difference. cbv zeta.
  repeat match goal with
         | |- context [match ?c with (_, _) => _ end] =>
             destruct c as [? [?|?]]; try reflexivity
         end.
Qed.

Lemma installed_layers (theta : vec) (m : GradientChecker.model Hidden Regularizer) :
  shapes_2d GradientChecker.Params (GradientChecker.layers m) ->
  total_count GradientChecker.Params (GradientChecker.layers m) <= length theta ->
  GradientChecker.layers (installed theta m)
  = install_layers theta 0 (GradientChecker.layers m) GradientChecker.Params.
Proof.
  intros H2d Hfit. unfold installed, GradientChecker.unroll_params.
  cbn [GradientChecker.layers].
  rewrite (unroll_layers_install H2d theta 0) by lia. reflexivity.
Qed.

Lemma evaluate_spec (theta : vec) (w : GradientChecker.world Hidden Regularizer) :
  shapes_2d GradientChecker.Params (GradientChecker.layers (GradientChecker.mdl w)) ->
  total_count GradientChecker.Params (GradientChecker.layers (GradientChecker.mdl w))
  <= length theta ->
  evaluate propagate_forward compute_cost X Y theta w
  = ({| GradientChecker.mdl :=
          fst (propagate_forward X true (installed theta (GradientChecker.mdl w)));
        GradientChecker.calls := (GradientChecker.calls w ++ [Forward true]) ++ [Cost] |},
     Ok (predicted_cost propagate_forward compute_cost X Y
                        (installed theta (GradientChecker.mdl w)))).
Proof.
  intros H2d Hfit.
  assert (E : GradientChecker.unroll_params
                theta (GradientChecker.layers (GradientChecker.mdl w))
                GradientChecker.Params
              = (install_layers theta 0 (GradientChecker.layers (GradientChecker.mdl w))
                                GradientChecker.Params, Ok tt)).
  { unfold GradientChecker.unroll_params.
    rewrite (unroll_layers_install H2d theta 0) by lia. reflexivity. }
  unfold evaluate, bind, GradientChecker.do_unroll, predicted_cost, installed.
  rewrite E. cbn [fst].
  unfold GradientChecker.do_forward, GradientChecker.with_layers.
  cbn [GradientChecker.mdl GradientChecker.calls].
  destruct (propagate_forward X true _) as [m1 o1]. reflexivity.
Qed.

(** Contract of the collaborator: a forward pass in prediction mode keeps the
    keys and shapes of the stored collections. *)
Hypothesis forward_keeps_skeleton :
  forall (m : GradientChecker.model Hidden Regularizer) (ty : GradientChecker.param_type),
    skeleton ty (GradientChecker.layers (fst (propagate_forward X true m)))
    = skeleton ty (GradientChecker.layers m).

Lemma evaluate_runs (ls0 : list GradientChecker.layer) (theta : vec)
      (w : GradientChecker.world Hidden Regularizer) :
  shapes_2d GradientChecker.Params ls0 ->
  length theta = total_count GradientChecker.Params ls0 ->
  skeleton GradientChecker.Params (GradientChecker.layers (GradientChecker.mdl w))
  = skeleton GradientChecker.Params ls0 ->
  exists w',
    evaluate propagate_forward compute_cost X Y theta w
    = (w', Ok (predicted_cost propagate_forward compute_cost X Y
                              (installed theta (GradientChecker.mdl w)))) /\
    forall ty,
      skeleton ty (GradientChecker.layers (GradientChecker.mdl w'))
      = skeleton ty (GradientChecker.layers (GradientChecker.mdl w)).
Proof.
  intros H2d Hlen Hsk.
  assert (H2dw : shapes_2d GradientChecker.Params
                           (GradientChecker.layers (GradientChecker.mdl w)))
    by (eapply shapes_2d_skeleton; [symmetry; exact Hsk | exact H2d]).
  assert (Hfit : total_count GradientChecker.Params
                             (GradientChecker.layers (GradientChecker.mdl w))
                 <= length theta)
    by (rewrite (total_count_skeleton _ _ _ Hsk); lia).
  eexists. split.
  - apply evaluate_spec; assumption.
  - intros ty. cbn [GradientChecker.mdl]. rewrite forward_keeps_skeleton.
    rewrite (installed_layers _ _ H2dw Hfit). apply install_layers_skeleton.
Qed.

Lemma error_loop_runs (ls0 : list GradientChecker.layer) (theta : vec) :
  shapes_2d GradientChecker.Params ls0 ->
  length theta = total_count GradientChecker.Params ls0 ->
  forall (range : list nat) (g : vec) (w : GradientChecker.world Hidden Regularizer),
    (forall i, In i range -> i < length theta) ->
    length g = length theta ->
    skeleton GradientChecker.Params (GradientChecker.layers (GradientChecker.mdl w))
    = skeleton GradientChecker.Params ls0 ->
    exists w' grad,
      GradientChecker.error_loop propagate_forward compute_cost eps X Y theta range g w
      = (w', Ok grad) /\
      (forall ty,
          skeleton ty (GradientChecker.layers (GradientChecker.mdl w'))
          = skeleton ty (GradientChecker.layers (GradientChecker.mdl w))) /\
      length grad = length theta /\
      (forall j, ~ In j range -> getitem grad j = getitem g j) /\
      (NoDup range ->
       forall i, In i range ->
         exists mp mm,
           skeleton GradientChecker.Params (GradientChecker.layers mp)
           = skeleton GradientChecker.Params ls0 /\
           skeleton GradientChecker.Params (GradientChecker.layers mm)
           = skeleton GradientChecker.Params ls0 /\
           getitem grad i
           = central_difference eps
               (predicted_cost propagate_forward compute_cost X Y (installed (plus eps theta i) mp))
               (predicted_cost propagate_forward compute_cost X Y
                               (installed (minus eps theta i) mm))).
Proof.
  intros H2d Hlen. induction range as [|i range IH]; intros g w Hrange Hg Hsk.
  - exists w, g. simpl. repeat split; try assumption; try reflexivity.
    intros _ i [].
  - rewrite error_loop_cons.
    destruct (@evaluate_runs ls0 (plus eps theta i) w H2d) as (w1 & E1 & Hsk1);
      [unfold plus; rewrite length_setitem; exact Hlen | exact Hsk |].
    rewrite E1.
    assert (Hsk1' : skeleton GradientChecker.Params
                             (GradientChecker.layers (GradientChecker.mdl w1))
                    = skeleton GradientChecker.Params ls0)
      by (rewrite Hsk1; exact Hsk).
    destruct (@evaluate_runs ls0 (minus eps theta i) w1 H2d) as (w2 & E2 & Hsk2);
      [unfold minus; rewrite length_setitem; exact Hlen | exact Hsk1' |].
    rewrite E2.
    assert (Hsk2' : skeleton GradientChecker.Params
                             (GradientChecker.layers (GradientChecker.mdl w2))
                    = skeleton GradientChecker.Params ls0)
      by (rewrite Hsk2; exact Hsk1').
    set (cd := central_difference eps _ _).
    destruct (IH (setitem g i cd) w2) as (w' & grad & E & Hsk' & Hl & Hkeep & Hnew).
    + intros j Hj. apply Hrange. right. exact Hj.
    + rewrite length_setitem. exact Hg.
    + exact Hsk2'.
    + exists w', grad. split; [exact E|]. split; [|split; [exact Hl|split]].
      * intros ty. rewrite Hsk', Hsk2, Hsk1. reflexivity.
      * intros j Hj. rewrite Hkeep by (intros Hin; apply Hj; right; exact Hin).
        apply getitem_setitem_other. intros ->. apply Hj. left. reflexivity.
      * intros Hnd i' [<-|Hin].
        -- exists (GradientChecker.mdl w), (GradientChecker.mdl w1).
           split; [exact Hsk|]. split; [exact Hsk1'|].
           inversion Hnd as [|? ? Hnotin _]; subst.
           rewrite (Hkeep i Hnotin). apply getitem_setitem_same.
           rewrite Hg. apply Hrange. left. reflexivity.
        -- inversion Hnd as [|? ? _ Hnd']; subst. apply (Hnew Hnd' i' Hin).
Qed.

(** Contract of the collaborator: the cost of a forward pass in prediction
    mode is a function of the parameters stored in the layers. *)
Hypothesis cost_of_parameters :
  forall m m' : GradientChecker.model Hidden Regularizer,
    map GradientChecker.params (GradientChecker.layers m)
    = map GradientChecker.params (GradientChecker.layers m') ->
    predicted_cost propagate_forward compute_cost X Y m
    = predicted_cost propagate_forward compute_cost X Y m'.

Lemma predicted_cost_installed (theta : vec)
      (m m' : GradientChecker.model Hidden Regularizer) :
  shapes_2d GradientChecker.Params (GradientChecker.layers m') ->
  length theta = total_count GradientChecker.Params (GradientChecker.layers m') ->
  skeleton GradientChecker.Params (GradientChecker.layers m)
  = skeleton GradientChecker.Params (GradientChecker.layers m') ->
  predicted_cost propagate_forward compute_cost X Y (installed theta m)
  = predicted_cost propagate_forward compute_cost X Y (installed theta m').
Proof.
  intros H2d Hlen Hsk.
  assert (H2dm : shapes_2d GradientChecker.Params (GradientChecker.layers m))
    by (eapply shapes_2d_skeleton; [symmetry; exact Hsk | exact H2d]).
  apply cost_of_parameters.
  change GradientChecker.params
    with (fun l => GradientChecker.getattr l GradientChecker.Params).
  rewrite (installed_layers theta m H2dm)
    by (rewrite (total_count_skeleton _ _ _ Hsk); lia).
  rewrite (installed_layers theta m' H2d) by lia.
  apply (install_layers_agree GradientChecker.Params _ _ theta Hsk 0).
Qed.

Lemma installed_roll (theta : vec) (m : GradientChecker.model Hidden Regularizer) :
  shapes_2d GradientChecker.Params (GradientChecker.layers m) ->
  length theta = total_count GradientChecker.Params (GradientChecker.layers m) ->
  GradientChecker.roll_params (GradientChecker.layers (installed theta m))
                              GradientChecker.Params
  = theta.
Proof.
  intros H2d Hlen. unfold GradientChecker.roll_params.
  rewrite (installed_layers theta m H2d) by lia.
  rewrite (install_layers_roll H2d theta 0).
  simpl. rewrite <- Hlen. apply slice_whole.
Qed.

Lemma layer_central_difference (w : GradientChecker.world Hidden Regularizer) :
  layers_2d GradientChecker.Params (GradientChecker.layers (GradientChecker.mdl w)) ->
  let param_theta :=
    GradientChecker.roll_params (GradientChecker.layers (GradientChecker.mdl w))
                                GradientChecker.Params in
  let num_params := length param_theta in
  exists w' grad_approx,
    GradientChecker.error_loop propagate_forward compute_cost eps X Y param_theta
                               (seq 0 num_params) (zeros num_params) w
    = (w', Ok grad_approx) /\
    length grad_approx = num_params /\
    forall i, i < num_params ->
      getitem grad_approx i
      = central_difference eps
          (predicted_cost propagate_forward compute_cost X Y
                          (installed (plus eps param_theta i) (GradientChecker.mdl w)))
          (predicted_cost propagate_forward compute_cost X Y
                          (installed (minus eps param_theta i) (GradientChecker.mdl w))) /\
      GradientChecker.roll_params
        (GradientChecker.layers (installed (plus eps param_theta i) (GradientChecker.mdl w)))
        GradientChecker.Params = plus eps param_theta i /\
      GradientChecker.roll_params
        (GradientChecker.layers (installed (minus eps param_theta i) (GradientChecker.mdl w)))
        GradientChecker.Params = minus eps param_theta i.
Proof.
  intros H2d param_theta num_params.
  pose proof (layers_2d_shapes H2d) as Hsh.
  pose proof (roll_params_length H2d) as Hlen. fold param_theta in Hlen.
  destruct (@error_loop_runs _ param_theta Hsh Hlen (seq 0 num_params) (zeros num_params) w)
    as (w' & grad & E & _ & Hl & _ & Hnew).
  - intros i Hi. apply in_seq in Hi. unfold num_params in Hi. lia.
  - apply length_zeros.
  - reflexivity.
  - exists w', grad. split; [exact E|]. split; [exact Hl|].
    intros i Hi.
    destruct (Hnew (seq_NoDup _ _) i) as (mp & mm & Hp & Hm & Hcd).
    { apply in_seq. lia. }
    split; [|split].
    + rewrite Hcd.
      rewrite (@predicted_cost_installed (plus eps param_theta i) mp
                                         (GradientChecker.mdl w) Hsh)
        by (try (unfold plus; rewrite length_setitem); assumption).
      rewrite (@predicted_cost_installed (minus eps param_theta i) mm
                                         (GradientChecker.mdl w) Hsh)
        by (try (unfold minus; rewrite length_setitem); assumption).
      reflexivity.
    + apply installed_roll; [exact Hsh|].
      unfold plus. rewrite length_setitem. exact Hlen.
    + apply installed_roll; [exact Hsh|].
      unfold minus. rewrite length_setitem. exact Hlen.
Qed.

End LayerEstimator.

(** ** The central-difference loop of the dictionary-based checker *)

Lemma vector_to_params_accepts (params : dict ndarray) (keys : list string)
      (theta : vec) (cache : GradientCheck.cache_t) (v : vec) :
  (forall k, In k keys -> exists m, dict_get params k = Some m /\ wf m) ->
  GradientCheck.params_to_vector params keys = Ok (theta, cache) ->
  length v = length theta ->
  exists p, GradientCheck.vector_to_params v cache = Ok p.
Proof.
  intros Hkeys Hflat Hlen.
  destruct (@params_to_vector_sound params keys theta cache Hkeys Hflat)
    as (Hfst & Hinv & _).
  destruct cache as [_params positions]. simpl in Hfst, Hinv. subst _params.
  simpl. apply vector_to_params_loop_ok. intros key f t Hin.
  destruct (@index_sound_sizes _ _ _ _ _ _ Hinv Hin) as (Hle & a & Ha & Hsz).
  exists a. split; [exact Ha|]. rewrite slice_length. lia.
Qed.

Section DictEstimator.

Variables Input Target Output Caches : Type.

Variable m : GradientCheck.model Input Target Output Caches.
Variable epsilon : float64.
Variable X : Input.
Variable Y : Target.

Lemma cost_at_spec (cache : GradientCheck.cache_t) (theta : vec) (log : list call) :
  GradientCheck.cost_at m X Y theta cache log
  = match cost_of m X Y cache theta with
    | Ok c => ((log ++ [Forward false]) ++ [Cost], Ok c)
    | Raise e => (log, Raise e)
    end.
Proof.
  unfold GradientCheck.cost_at, cost_of, bind, lift, GradientCheck.logged.
  destruct (GradientCheck.vector_to_params theta cache); reflexivity.
Qed.

Lemma run_loop_cons (theta : vec) (cache : GradientCheck.cache_t) (i : nat)
      (range : list nat) (J_plus J_minus g : vec) (log : list call) :
  GradientCheck.run_loop m epsilon X Y theta cache (i :: range) J_plus J_minus g log
  = match GradientCheck.cost_at m X Y (plus epsilon theta i) cache log with
    | (log1, Raise e) => (log1, Raise e)
    | (log1, Ok cost_plus) =>
        match GradientCheck.cost_at m X Y (minus epsilon theta i) cache log1 with
        | (log2, Raise e) => (log2, Raise e)
        | (log2, Ok cost_minus) =>
            GradientCheck.run_loop
              m epsilon X Y theta cache range
              (setitem J_plus i cost_plus) (setitem J_minus i cost_minus)
              (setitem g i (central_difference
                              epsilon
                              (getitem (setitem J_plus i cost_plus) i)
                              (getitem (setitem J_minus i cost_minus) i)))
              log2
        end
    end.
Proof.
  cbn [GradientCheck.run_loop]. unfold bind, plus, minus, central_difference. cbv zeta.
  repeat match goal with
         | |- context [match ?c with (_, _) => _ end] =>
             destruct c as [? [?|?]]; try reflexivity
         end.
Qed.

Lemma run_loop_runs (theta : vec) (cache : GradientCheck.cache_t) :
  (forall v, length v = length theta ->
             exists p, GradientCheck.vector_to_params v cache = Ok p) ->
  forall (range : list nat) (J_plus J_minus g : vec) (log : list call),
    (forall i, In i range -> i < length theta) ->
    length J_plus = length theta -> length J_minus = length theta ->
    length g = length theta ->
    exists log' grad,
      GradientCheck.run_loop m epsilon X Y theta cache range J_plus J_minus g log
      = (log', Ok grad) /\
      length grad = length theta /\
      (forall j, ~ In j range -> getitem grad j = getitem g j) /\
      (NoDup range ->
       forall i, In i range ->
         exists cost_plus cost_minus,
           cost_of m X Y cache (plus epsilon theta i) = Ok cost_plus /\
           cost_of m X Y cache (minus epsilon theta i) = Ok cost_minus /\
           getitem grad i = central_difference epsilon cost_plus cost_minus).
Proof.
  intros Hacc. induction range as [|i range IH]; intros Jp Jm g log Hrange HJp HJm Hg.
  - exists log, g. simpl. repeat split; try assumption; try reflexivity.
    intros _ i [].
  - rewrite run_loop_cons.
    assert (Hi : i < length theta) by (apply Hrange; left; reflexivity).
    assert (Hcp : exists cp, cost_of m X Y cache (plus epsilon theta i) = Ok cp).
    { unfold cost_of. destruct (Hacc (plus epsilon theta i)) as [p ->];
        [unfold plus; apply length_setitem | eexists; reflexivity]. }
    assert (Hcm : exists cm, cost_of m X Y cache (minus epsilon theta i) = Ok cm).
    { unfold cost_of. destruct (Hacc (minus epsilon theta i)) as [p ->];
        [unfold minus; apply length_setitem | eexists; reflexivity]. }
    destruct Hcp as [cp Hcp], Hcm as [cm Hcm].
    rewrite cost_at_spec, Hcp, cost_at_spec, Hcm.
    rewrite !getitem_setitem_same by lia.
    destruct (IH (setitem Jp i cp) (setitem Jm i cm)
                 (setitem g i (central_difference epsilon cp cm))
                 ((((log ++ [Forward false]) ++ [Cost]) ++ [Forward false]) ++ [Cost]))
      as (log' & grad & E & Hl & Hkeep & Hnew).
    + intros j Hj. apply Hrange. right. exact Hj.
    + rewrite length_setitem. exact HJp.
    + rewrite length_setitem. exact HJm.
    + rewrite length_setitem. exact Hg.
    + exists log', grad. split; [exact E|]. split; [exact Hl|]. split.
      * intros j Hj. rewrite Hkeep by (intros Hin; apply Hj; right; exact Hin).
        apply getitem_setitem_other. intros ->. apply Hj. left. reflexivity.
      * intros Hnd i' [<-|Hin].
        -- exists cp, cm. split; [exact Hcp|]. split; [exact Hcm|].
           inversion Hnd as [|? ? Hnotin _]; subst.
           rewrite (Hkeep i Hnotin). apply getitem_setitem_same. lia.
        -- inversion Hnd as [|? ? _ Hnd']; subst. apply (Hnew Hnd' i' Hin).
Qed.

Lemma dict_central_difference (params : dict ndarray) (keys : list string)
      (param_theta : vec) (param_cache : GradientCheck.cache_t) (log : list call) :
  (forall k, In k keys -> exists a, dict_get params k = Some a /\ wf a) ->
  GradientCheck.params_to_vector params keys = Ok (param_theta, param_cache) ->
  exists log' gradapprox,
    GradientCheck.run_gradapprox m epsilon X Y param_theta param_cache log
    = (log', Ok gradapprox) /\
    length gradapprox = length param_theta /\
    forall i, i < length param_theta ->
      exists cost_plus cost_minus,
        cost_of m X Y param_cache (plus epsilon param_theta i) = Ok cost_plus /\
        cost_of m X Y param_cache (minus epsilon param_theta i) = Ok cost_minus /\
        getitem gradapprox i = central_difference epsilon cost_plus cost_minus.
Proof.
  intros Hkeys Hflat. unfold GradientCheck.run_gradapprox.
  destruct (@run_loop_runs param_theta param_cache) with
    (range := seq 0 (length param_theta))
    (J_plus := zeros (length param_theta)) (J_minus := zeros (length param_theta))
    (g := zeros (length param_theta)) (log := log)
    as (log' & grad & E & Hl & _ & Hnew).
  - intros v Hv. eapply vector_to_params_accepts; eassumption.
  - intros i Hi. apply in_seq in Hi. lia.
  - apply length_zeros.
  - apply length_zeros.
  - apply length_zeros.
  - exists log', grad. split; [exact E|]. split; [exact Hl|].
    intros i Hi. apply (Hnew (seq_NoDup _ _)). apply in_seq. lia.
Qed.

End DictEstimator.

(** ** Restoration of the model *)

Lemma skeleton_length (ty : GradientChecker.param_type)
      (ls ls' : list GradientChecker.layer) :
  skeleton ty ls = skeleton ty ls' -> length ls = length ls'.
Proof.
  intros H. apply (f_equal (@length _)) in H. unfold skeleton in H.
  rewrite !length_map in H. exact H.
Qed.

Lemma transplant_all_same_attr (ty : GradientChecker.param_type)
      (ls ls0 : list GradientChecker.layer) :
  skeleton ty ls = skeleton ty ls0 ->
  map (fun l => GradientChecker.getattr l ty) (transplant_all ty ls ls0)
  = map (fun l => GradientChecker.getattr l ty) ls0.
Proof.
  revert ls0. induction ls as [|l ls IH]; intros [|l0 ls0] H; try discriminate;
    [reflexivity|].
  simpl in H. injection H as Hl H. simpl. rewrite (IH ls0 H). f_equal.
  unfold transplant.
  destruct (GradientChecker.getattr l0 ty) as [d0|] eqn:E0.
  - apply getattr_with_collection.
  - destruct (GradientChecker.getattr l ty); [discriminate | reflexivity].
Qed.

Lemma transplant_all_other_attr (ty : GradientChecker.param_type)
      (ls ls0 : list GradientChecker.layer) :
  length ls = length ls0 ->
  map (fun l => GradientChecker.getattr l (other ty)) (transplant_all ty ls ls0)
  = map (fun l => GradientChecker.getattr l (other ty)) ls.
Proof.
  revert ls0. induction ls as [|l ls IH]; intros [|l0 ls0] H; try discriminate;
    [reflexivity|].
  simpl in H. injection H as H. simpl. rewrite (IH ls0 H). f_equal.
  unfold transplant. destruct (GradientChecker.getattr l0 ty) as [d0|]; [|reflexivity].
  apply getattr_with_collection.
Qed.

Lemma skeleton_of_attr (ty : GradientChecker.param_type)
      (ls ls' : list GradientChecker.layer) :
  map (fun l => GradientChecker.getattr l ty) ls
  = map (fun l => GradientChecker.getattr l ty) ls' ->
  skeleton ty ls = skeleton ty ls'.
Proof.
  intros H. unfold skeleton.
  rewrite <- (map_map (fun l => GradientChecker.getattr l ty) (option_map dict_skeleton) ls).
  rewrite <- (map_map (fun l => GradientChecker.getattr l ty) (option_map dict_skeleton) ls').
  rewrite H. reflexivity.
Qed.

Lemma subtract_ok_same_length (u v : vec) :
  length u = length v -> exists d, subtract u v = Ok d.
Proof. intros H. rewrite (subtract_same_length u v H). eexists. reflexivity. Qed.

Section Restoration.

Variables Hidden Regularizer Input Target Output : Type.

Variable propagate_forward :
  Input -> bool -> GradientChecker.model Hidden Regularizer
  -> GradientChecker.model Hidden Regularizer * Output.
Variable propagate_backward :
  Output -> Target -> GradientChecker.model Hidden Regularizer
  -> GradientChecker.model Hidden Regularizer.
Variable compute_cost :
  Output -> Target -> GradientChecker.model Hidden Regularizer -> float64.

Variable eps : float64.
Variable X : Input.
Variable Y : Target.

(** C3: a check on a model without regularizer or stochastic layer, whose
    collections are 2-D at entry and keep their keys and shapes through the
    analytic pass and through forward passes in prediction mode, returns a
    score and leaves the parameter and the gradient collection of every layer
    equal to what they were at entry. *)
Theorem model_is_restored (w : GradientChecker.world Hidden Regularizer) :
  let ls0 := GradientChecker.layers (GradientChecker.mdl w) in
  let ls1 :=
    GradientChecker.layers
      (analytic_pass propagate_forward propagate_backward X Y (GradientChecker.mdl w)) in
  GradientChecker.regularizer (GradientChecker.mdl w) = None ->
  existsb stochastic ls0 = false ->
  (forall m ty,
      skeleton ty (GradientChecker.layers (fst (propagate_forward X true m)))
      = skeleton ty (GradientChecker.layers m)) ->
  (forall ty, layers_2d ty ls0) ->
  (forall ty, layers_2d ty ls1 /\ skeleton ty ls1 = skeleton ty ls0) ->
  total_count GradientChecker.Grads ls0 = total_count GradientChecker.Params ls0 ->
  exists w' relative_error,
    GradientChecker.compute_error propagate_forward propagate_backward compute_cost
                                  eps X Y w
    = (w', Ok relative_error) /\
    map GradientChecker.params (GradientChecker.layers (GradientChecker.mdl w'))
    = map GradientChecker.params ls0 /\
    map GradientChecker.grads (GradientChecker.layers (GradientChecker.mdl w'))
    = map GradientChecker.grads ls0.
Proof.
  intros ls0 ls1 Hreg Hstoch Hfwd H2d0 Hpass Hcount.
  unfold GradientChecker.compute_error.
  erewrite bind_Ok by reflexivity.
  erewrite bind_Ok by reflexivity.
  rewrite Hreg. erewrite bind_Ok by reflexivity.
  erewrite bind_Ok
    by (rewrite assert_layers_outcome; fold ls0; rewrite Hstoch; reflexivity).
  erewrite bind_Ok by reflexivity.
  erewrite bind_Ok by reflexivity.
  fold ls0.
  erewrite bind_Ok
    by (unfold GradientChecker.do_forward;
        rewrite (surjective_pairing (propagate_forward X false (GradientChecker.mdl w)));
        reflexivity).
  erewrite bind_Ok by reflexivity.
  erewrite bind_Ok by reflexivity.
  erewrite bind_Ok by reflexivity.
  cbn [GradientChecker.mdl GradientChecker.calls].
  fold (analytic_pass propagate_forward propagate_backward X Y (GradientChecker.mdl w)).
  fold ls1.
  set (param_theta := GradientChecker.roll_params ls1 GradientChecker.Params).
  set (grad_theta := GradientChecker.roll_params ls1 GradientChecker.Grads).
  set (w2 := {| GradientChecker.mdl :=
                  analytic_pass propagate_forward propagate_backward X Y
                                (GradientChecker.mdl w);
                GradientChecker.calls := _ |}).
  destruct (Hpass GradientChecker.Params) as [H2dP HskP].
  destruct (Hpass GradientChecker.Grads) as [H2dG HskG].
  assert (HlenP : length param_theta = total_count GradientChecker.Params ls1)
    by (apply roll_params_length; exact H2dP).
  assert (HlenG : length grad_theta = total_count GradientChecker.Grads ls1)
    by (apply roll_params_length; exact H2dG).
  destruct (@error_loop_runs Hidden Regularizer Input Target Output
              propagate_forward compute_cost eps X Y Hfwd ls1 param_theta
              (layers_2d_shapes H2dP) HlenP
              (seq 0 (length param_theta)) (zeros (length param_theta)) w2)
    as (w3 & grad_approx & Eloop & Hsk3 & Hlen3 & _).
  { intros i Hi. apply in_seq in Hi. lia. }
  { apply length_zeros. }
  { reflexivity. }
  erewrite bind_Ok by exact Eloop.
  set (ls3 := GradientChecker.layers (GradientChecker.mdl w3)).
  assert (Hsk30 : forall ty, skeleton ty ls3 = skeleton ty ls0).
  { intros ty. unfold ls3. rewrite Hsk3. destruct (Hpass ty) as [_ H]. exact H. }
  assert (Eparams :
            GradientChecker.do_unroll (GradientChecker.roll_params ls0 GradientChecker.Params)
                                      GradientChecker.Params w3
            = (GradientChecker.with_layers
                 w3 (transplant_all GradientChecker.Params ls3 ls0), Ok tt)).
  { unfold GradientChecker.do_unroll. fold ls3.
    rewrite <- (app_nil_r (GradientChecker.roll_params ls0 GradientChecker.Params)).
    rewrite (@unroll_params_transplant GradientChecker.Params ls0 ls3 []
               (H2d0 GradientChecker.Params) (Hsk30 GradientChecker.Params)).
    reflexivity. }
  erewrite bind_Ok by exact Eparams.
  set (ls4 := transplant_all GradientChecker.Params ls3 ls0).
  assert (Hgr4 : map (fun l => GradientChecker.getattr l GradientChecker.Grads) ls4
                 = map (fun l => GradientChecker.getattr l GradientChecker.Grads) ls3).
  { apply (transplant_all_other_attr GradientChecker.Params).
    apply (skeleton_length GradientChecker.Params). apply Hsk30. }
  assert (Hsk4 : skeleton GradientChecker.Grads ls4 = skeleton GradientChecker.Grads ls0).
  { rewrite (skeleton_of_attr GradientChecker.Grads _ _ Hgr4). apply Hsk30. }
  assert (Egrads :
            GradientChecker.do_unroll (GradientChecker.roll_params ls0 GradientChecker.Grads)
                                      GradientChecker.Grads
                                      (GradientChecker.with_layers w3 ls4)
            = (GradientChecker.with_layers
                 (GradientChecker.with_layers w3 ls4)
                 (transplant_all GradientChecker.Grads ls4 ls0), Ok tt)).
  { unfold GradientChecker.do_unroll. cbn [GradientChecker.with_layers
      GradientChecker.mdl GradientChecker.layers].
    rewrite <- (app_nil_r (GradientChecker.roll_params ls0 GradientChecker.Grads)).
    rewrite (@unroll_params_transplant GradientChecker.Grads ls0 ls4 []
               (H2d0 GradientChecker.Grads) Hsk4).
    reflexivity. }
  erewrite bind_Ok by exact Egrads.
  destruct (@subtract_ok_same_length grad_theta grad_approx) as [d Hd].
  { rewrite Hlen3, HlenG, HlenP.
    rewrite (total_count_skeleton _ _ _ HskG), (total_count_skeleton _ _ _ HskP).
    exact Hcount. }
  unfold GradientChecker.calculate_diff. rewrite Hd.
  unfold bind, lift, ret. eexists. eexists. split; [reflexivity|].
  cbn [GradientChecker.with_layers GradientChecker.mdl GradientChecker.layers].
  split.
  - change GradientChecker.params
      with (fun l => GradientChecker.getattr l GradientChecker.Params).
    etransitivity.
    + apply (transplant_all_other_attr GradientChecker.Grads ls4 ls0).
      apply (skeleton_length GradientChecker.Grads). exact Hsk4.
    + apply (transplant_all_same_attr GradientChecker.Params). apply Hsk30.
  - change GradientChecker.grads
      with (fun l => GradientChecker.getattr l GradientChecker.Grads).
    apply transplant_all_same_attr. exact Hsk4.
Qed.

End Restoration.

(** ** The estimator on a model with a quadratic cost *)

Lemma roll_params_of_params (ls ls' : list GradientChecker.layer) :
  map GradientChecker.params ls = map GradientChecker.params ls' ->
  GradientChecker.roll_params ls GradientChecker.Params
  = GradientChecker.roll_params ls' GradientChecker.Params.
Proof.
  unfold GradientChecker.roll_params.
  revert ls'. induction ls as [|l ls IH]; intros [|l' ls'] H; try discriminate;
    [reflexivity|].
  simpl in H. injection H as Hl H.
  rewrite !roll_layers_cons. simpl. rewrite Hl, (IH ls' H). reflexivity.
Qed.

Lemma quadratic_cost_of_parameters (m m' : QuadraticFixture.model_t) :
  map GradientChecker.params (GradientChecker.layers m)
  = map GradientChecker.params (GradientChecker.layers m') ->
  predicted_cost QuadraticFixture.forward QuadraticFixture.cost tt tt m
  = predicted_cost QuadraticFixture.forward QuadraticFixture.cost tt tt m'.
Proof.
  intros H. unfold predicted_cost, QuadraticFixture.forward, QuadraticFixture.cost.
  rewrite (roll_params_of_params _ _ H). reflexivity.
Qed.

Lemma model_is_restored_witness :
  exists w' relative_error,
    GradientChecker.compute_error
      QuadraticFixture.forward QuadraticFixture.backward QuadraticFixture.cost
      ThresholdFixture.half tt tt QuadraticFixture.world0
    = (w', Ok relative_error) /\
    map GradientChecker.params (GradientChecker.layers (GradientChecker.mdl w'))
    = [Some Fixture.some_params; None] /\
    map GradientChecker.grads (GradientChecker.layers (GradientChecker.mdl w'))
    = [Some Fixture.some_params; None].
Proof.
  apply (@model_is_restored unit unit unit unit vec
           QuadraticFixture.forward QuadraticFixture.backward QuadraticFixture.cost
           ThresholdFixture.half tt tt QuadraticFixture.world0).
  - reflexivity.
  - reflexivity.
  - intros m ty. reflexivity.
  - intros ty. destruct ty; repeat constructor.
  - intros ty. destruct ty; (split; [repeat constructor | reflexivity]).
  - reflexivity.
Defined.

(** On a model whose gradients are not allocated yet ([grads] is [None] at
    entry) and whose backward pass allocates them, the snapshot of the
    gradients is empty and re-installing it raises: such a run does not
    complete. *)
Example fresh_model_check_raises :
  let fresh :=
    {| GradientChecker.class := GradientChecker.OtherLayer;
       GradientChecker.params := Some Fixture.some_params;
       GradientChecker.grads := None |} in
  snd (GradientChecker.compute_error
         QuadraticFixture.forward QuadraticFixture.backward QuadraticFixture.cost
         ThresholdFixture.half tt tt
         {| GradientChecker.mdl :=
              {| GradientChecker.layers := [fresh; Fixture.activation];
                 GradientChecker.regularizer := None;
                 GradientChecker.hidden := tt |};
            GradientChecker.calls := [] |})
  = Raise ValueError.
Proof. vm_compute. reflexivity. Qed.

(* ================================================================== *)
(** * Further properties of the layer-based roller *)

Lemma unroll_dict_keeps_skeleton (v : vec) (d : dict ndarray) (i : nat) :
  dict_skeleton (fst (GradientChecker.unroll_dict v i d)) = dict_skeleton d.
Proof.
  revert i. induction d as [|[k a] d IH]; intros i; [reflexivity|].
  cbn [GradientChecker.unroll_dict].
  destruct (nth_error (shape a) 0) as [r|]; [|reflexivity].
  destruct (nth_error (shape a) 1) as [c|]; [|reflexivity].
  unfold reshape. destruct (length (slice v i (i + r * c)) =? size (shape a));
    [|reflexivity].
  specialize (IH (i + r * c)).
  destruct (GradientChecker.unroll_dict v (i + r * c) d) as [d' res].
  simpl in *. rewrite IH. reflexivity.
Qed.

Lemma with_collection_layout (l : GradientChecker.layer)
      (ty : GradientChecker.param_type) (d d' : dict ndarray) :
  GradientChecker.getattr l ty = Some d ->
  dict_skeleton d' = dict_skeleton d ->
  (forall ty', option_map dict_skeleton
                 (GradientChecker.getattr (GradientChecker.with_collection l ty d') ty')
               = option_map dict_skeleton (GradientChecker.getattr l ty')) /\
  GradientChecker.class (GradientChecker.with_collection l ty d')
  = GradientChecker.class l /\
  GradientChecker.getattr (GradientChecker.with_collection l ty d') (other ty)
  = GradientChecker.getattr l (other ty).
Proof.
  intros E Hsk. split; [|split].
  - intros ty'. destruct ty, ty'; simpl in *; try reflexivity;
      rewrite E; simpl; rewrite Hsk; reflexivity.
  - destruct ty; reflexivity.
  - destruct ty; reflexivity.
Qed.

Lemma unroll_layers_keeps_layout (v : vec) (ty : GradientChecker.param_type)
      (ls : list GradientChecker.layer) (i : nat) :
  (forall ty', skeleton ty' (fst (GradientChecker.unroll_layers v i ls ty))
               = skeleton ty' ls) /\
  map GradientChecker.class (fst (GradientChecker.unroll_layers v i ls ty))
  = map GradientChecker.class ls /\
  map (fun l => GradientChecker.getattr l (other ty))
      (fst (GradientChecker.unroll_layers v i ls ty))
  = map (fun l => GradientChecker.getattr l (other ty)) ls.
Proof.
  revert i. induction ls as [|l ls IH]; intros i.
  - simpl. repeat split.
  - cbn [GradientChecker.unroll_layers].
    destruct (GradientChecker.getattr l ty) as [d|] eqn:E.
    + pose proof (unroll_dict_keeps_skeleton v d i) as Hd.
      destruct (GradientChecker.unroll_dict v i d) as [d' [j|e]]; cbn [fst] in Hd.
      * destruct (IH j) as (Hsk & Hcl & Hot).
        destruct (GradientChecker.unroll_layers v j ls ty) as [ls' res].
        cbn [fst] in *.
        destruct (@with_collection_layout l ty d d' E Hd) as (Hl1 & Hl2 & Hl3).
        split; [|split].
        -- intros ty'. simpl. rewrite (Hl1 ty'), (Hsk ty'). reflexivity.
        -- simpl. rewrite Hl2, Hcl. reflexivity.
        -- simpl. rewrite Hl3, Hot. reflexivity.
      * cbn [fst].
        destruct (@with_collection_layout l ty d d' E Hd) as (Hl1 & Hl2 & Hl3).
        split; [|split].
        -- intros ty'. simpl. rewrite (Hl1 ty'). reflexivity.
        -- simpl. rewrite Hl2. reflexivity.
        -- simpl. rewrite Hl3. reflexivity.
    + destruct (IH i) as (Hsk & Hcl & Hot).
      destruct (GradientChecker.unroll_layers v i ls ty) as [ls' res].
      cbn [fst] in *. split; [|split].
      * intros ty'. simpl. rewrite (Hsk ty'). reflexivity.
      * simpl. rewrite Hcl. reflexivity.
      * simpl. rewrite Hot. reflexivity.
Qed.

Lemma unroll_params_skeleton (v : vec) (ty ty' : GradientChecker.param_type)
      (ls : list GradientChecker.layer) :
  skeleton ty' (fst (GradientChecker.unroll_params v ls ty)) = skeleton ty' ls.
Proof.
  pose proof (proj1 (unroll_layers_keeps_layout v ty ls 0) ty') as H.
  unfold GradientChecker.unroll_params.
  destruct (GradientChecker.unroll_layers v 0 ls ty) as [ls' [j|e]]; exact H.
Qed.

(** X1: whatever the vector, and whether it returns or raises,
    [unroll_params] leaves every layer with the keys and shapes it had in both
    collections, with its class, and with its other collection untouched. *)
Theorem unroll_params_keeps_layout (v : vec) (ty : GradientChecker.param_type)
        (ls : list GradientChecker.layer) :
  (forall ty', skeleton ty' (fst (GradientChecker.unroll_params v ls ty))
               = skeleton ty' ls) /\
  map GradientChecker.class (fst (GradientChecker.unroll_params v ls ty))
  = map GradientChecker.class ls /\
  map (fun l => GradientChecker.getattr l (other ty))
      (fst (GradientChecker.unroll_params v ls ty))
  = map (fun l => GradientChecker.getattr l (other ty)) ls.
Proof.
  pose proof (unroll_layers_keeps_layout v ty ls 0) as H.
  unfold GradientChecker.unroll_params.
  destruct (GradientChecker.unroll_layers v 0 ls ty) as [ls' [j|e]]; exact H.
Qed.

Lemma unroll_params_install (ty : GradientChecker.param_type)
      (ls : list GradientChecker.layer) (v : vec) :
  shapes_2d ty ls ->
  total_count ty ls <= length v ->
  GradientChecker.unroll_params v ls ty = (install_layers v 0 ls ty, Ok tt).
Proof.
  intros H2d Hfit. unfold GradientChecker.unroll_params.
  rewrite (unroll_layers_install H2d v 0) by lia. reflexivity.
Qed.

(** X2: when [unroll_params] returns (2-D shapes, vector long enough),
    flattening the layers it leaves gives back the vector, cut to the number
    of coordinates the layers hold. *)
Theorem roll_after_unroll (ty : GradientChecker.param_type)
        (ls : list GradientChecker.layer) (v : vec) :
  shapes_2d ty ls ->
  total_count ty ls <= length v ->
  GradientChecker.roll_params (fst (GradientChecker.unroll_params v ls ty)) ty
  = firstn (total_count ty ls) v.
Proof.
  intros H2d Hfit. rewrite (@unroll_params_install ty ls v H2d Hfit). cbn [fst].
  unfold GradientChecker.roll_params. rewrite (install_layers_roll H2d v 0).
  unfold slice. rewrite Nat.sub_0_r. reflexivity.
Qed.

Lemma roll_after_unroll_witness :
  GradientChecker.roll_params
    (fst (GradientChecker.unroll_params
            [two; two; zero; zero; two; two; Fixture.f_one]
            [Fixture.dense; Fixture.activation] GradientChecker.Params))
    GradientChecker.Params
  = [two; two; zero; zero; two; two].
Proof.
  apply (@roll_after_unroll GradientChecker.Params
           [Fixture.dense; Fixture.activation]
           [two; two; zero; zero; two; two; Fixture.f_one]).
  - repeat constructor.
  - vm_compute. lia.
Defined.

Lemma with_collection_twice (l : GradientChecker.layer)
      (ty : GradientChecker.param_type) (d d' : dict ndarray) :
  GradientChecker.with_collection (GradientChecker.with_collection l ty d') ty d
  = GradientChecker.with_collection l ty d.
Proof. destruct ty; reflexivity. Qed.

Lemma install_layers_twice (ty : GradientChecker.param_type)
      (ls : list GradientChecker.layer) (v v' : vec) :
  forall i i',
    install_layers v i (install_layers v' i' ls ty) ty = install_layers v i ls ty.
Proof.
  induction ls as [|l ls IH]; intros i i'; [reflexivity|].
  cbn [install_layers].
  destruct (GradientChecker.getattr l ty) as [d|] eqn:E.
  - cbn [install_layers].
    rewrite (proj1 (getattr_with_collection l ty _)).
    rewrite build_dict_skeleton, with_collection_twice.
    rewrite (@dict_count_skeleton (build_dict v' i' (dict_skeleton d)) d
               (build_dict_skeleton v' i' (dict_skeleton d))).
    rewrite IH. reflexivity.
  - cbn [install_layers]. rewrite E, IH. reflexivity.
Qed.

(** X3: an install overwrites the previous one completely: running
    [unroll_params] with [v] after a run with [v'] leaves exactly the layers
    that [unroll_params] with [v] alone leaves (2-D shapes, both vectors long
    enough). *)
Theorem unroll_params_last_wins (ty : GradientChecker.param_type)
        (ls : list GradientChecker.layer) (v v' : vec) :
  shapes_2d ty ls ->
  total_count ty ls <= length v' ->
  total_count ty ls <= length v ->
  GradientChecker.unroll_params
    v (fst (GradientChecker.unroll_params v' ls ty)) ty
  = GradientChecker.unroll_params v ls ty.
Proof.
  intros H2d Hfit' Hfit.
  pose proof (unroll_params_skeleton v' ty ty ls) as Hsk.
  rewrite (@unroll_params_install ty (fst (GradientChecker.unroll_params v' ls ty)) v).
  - rewrite (@unroll_params_install ty ls v' H2d Hfit'), (@unroll_params_install ty ls v H2d Hfit).
    cbn [fst]. rewrite install_layers_twice. reflexivity.
  - eapply shapes_2d_skeleton; [symmetry; exact Hsk | exact H2d].
  - rewrite (total_count_skeleton _ _ _ Hsk). exact Hfit.
Qed.

Lemma unroll_params_last_wins_witness :
  GradientChecker.unroll_params
    [two; two; zero; zero; two; two]
    (fst (GradientChecker.unroll_params
            [zero; zero; zero; zero; zero; zero; zero]
            [Fixture.dense; Fixture.activation] GradientChecker.Params))
    GradientChecker.Params
  = GradientChecker.unroll_params
      [two; two; zero; zero; two; two]
      [Fixture.dense; Fixture.activation] GradientChecker.Params.
Proof.
  apply unroll_params_last_wins.
  - repeat constructor.
  - vm_compute. lia.
  - vm_compute. lia.
Defined.


(** X4: [unroll_params] cannot put back an array that is not 2-D, although
    [roll_params] flattens it: if the first array it reaches has fewer than
    two dimensions it raises IndexError, and if it has more than two, with
    rows x cols positive and at least two elements per (row, column), it
    raises ValueError; the layers are left as they were, whatever the vector. *)
Theorem unroll_params_needs_2d
        (ty : GradientChecker.param_type) (l : GradientChecker.layer)
        (rest : list GradientChecker.layer)
        (k : string) (a : ndarray) (d : dict ndarray) (v : vec) :
  GradientChecker.getattr l ty = Some ((k, a) :: d) ->
  (ndim a < 2 ->
   GradientChecker.unroll_params v (l :: rest) ty = (l :: rest, Raise IndexError)) /\
  (forall r c s,
      shape a = r :: c :: s -> 0 < r * c -> 2 <= size s ->
      GradientChecker.unroll_params v (l :: rest) ty = (l :: rest, Raise ValueError)).
Proof.
  intros E. unfold GradientChecker.unroll_params.
  cbn [GradientChecker.unroll_layers]. rewrite E.
  cbn [GradientChecker.unroll_dict]. split.
  - unfold ndim. intros Hdim.
    destruct (shape a) as [|r [|c s]]; simpl in Hdim; try lia;
      cbn [nth_error]; rewrite (with_collection_same _ _ E); reflexivity.
  - intros r c s Hs Hpos Hsz. rewrite Hs. cbn [nth_error].
    unfold reshape. rewrite slice_length.
    assert (Hsize : size (r :: c :: s) = r * c * size s) by (simpl; lia).
    destruct (Nat.eqb_spec (Nat.min (0 + r * c - 0) (length v - 0))
                           (size (r :: c :: s))) as [Heq|Hne].
    + rewrite Hsize in Heq. nia.
    + rewrite (with_collection_same _ _ E). reflexivity.
Qed.

Lemma unroll_params_needs_2d_witness :
  let bias := {| GradientChecker.class := GradientChecker.OtherLayer;
                 GradientChecker.params :=
                   Some [("b"%string, mk_ndarray [2] [two; two])];
                 GradientChecker.grads := None |} in
  (ndim (mk_ndarray [2] [two; two]) < 2 ->
   GradientChecker.unroll_params [two; two] [bias] GradientChecker.Params
   = ([bias], Raise IndexError)) /\
  (forall r c s,
      [2] = r :: c :: s -> 0 < r * c -> 2 <= size s ->
      GradientChecker.unroll_params [two; two] [bias] GradientChecker.Params
      = ([bias], Raise ValueError)).
Proof.
  intros bias.
  apply (@unroll_params_needs_2d GradientChecker.Params bias []
           "b"%string (mk_ndarray [2] [two; two]) [] [two; two]).
  reflexivity.
Defined.

(** X5: flattening a concatenation of layer lists is the concatenation of
    the flattenings, so a layer's coordinates sit after those of all the
    layers before it. *)
Theorem roll_params_app (ty : GradientChecker.param_type)
        (ls1 ls2 : list GradientChecker.layer) :
  GradientChecker.roll_params (ls1 ++ ls2) ty
  = GradientChecker.roll_params ls1 ty ++ GradientChecker.roll_params ls2 ty.
Proof.
  rewrite !roll_params_data. unfold collections. rewrite flat_map_app.
  apply flat_map_app.
Qed.

(* ================================================================== *)
(** * Further properties of the scorer *)

Lemma subtract_outcome (u v : vec) :
  (broadcastable (length u) (length v) = true /\ exists d, subtract u v = Ok d) \/
  (broadcastable (length u) (length v) = false /\ subtract u v = Raise ValueError).
Proof.
  unfold subtract, broadcastable.
  destruct (Nat.eqb_spec (length u) (length v)) as [E|N].
  - left. split; [reflexivity|]. eexists. reflexivity.
  - destruct u as [|x [|x' u]], v as [|y [|y' v]]; simpl in *; try lia;
      first [ left; split; [reflexivity|]; eexists; reflexivity
            | right; split; reflexivity ].
Qed.

(** X6: both scorers raise ValueError exactly when the two vectors have
    different lengths and neither has length 1 (numpy's broadcasting rule);
    in every other case, including two empty vectors, they return a float. *)
Theorem calculate_diff_outcome (A B : vec) :
  (broadcastable (length A) (length B) = true /\
   (exists x, GradientChecker.calculate_diff A B = Ok x) /\
   (exists x, GradientCheck.calculate_diff A B = Ok x)) \/
  (broadcastable (length A) (length B) = false /\
   GradientChecker.calculate_diff A B = Raise ValueError /\
   GradientCheck.calculate_diff A B = Raise ValueError).
Proof.
  unfold GradientChecker.calculate_diff, GradientCheck.calculate_diff.
  destruct (subtract_outcome A B) as [[Hb [d ->]]|[Hb ->]].
  - left. split; [exact Hb|]. split; eexists; reflexivity.
  - right. split; [exact Hb|]. split; reflexivity.
Qed.

Lemma binary_round_aux_nonneg (m e : Z) (l : location) :
  nonneg_or_nan (binary_round_aux prec emax false m e l) = true.
Proof.
  unfold binary_round_aux.
  destruct (shr_fexp prec emax m e l) as [mrs' e'].
  destruct (shr_fexp prec emax _ e' loc_Exact) as [mrs'' e''].
  destruct (shr_m mrs''); try reflexivity.
  destruct (Z.leb e'' (Z.sub emax prec)); reflexivity.
Qed.

Lemma binary_round_nonneg (m : positive) (e : Z) :
  nonneg_or_nan (binary_round prec emax false m e) = true.
Proof.
  unfold binary_round. destruct (shl_align m e _) as [mz ez].
  apply binary_round_aux_nonneg.
Qed.

Lemma mul_self_nonneg (x : float64) : nonneg_or_nan (mul x x) = true.
Proof.
  destruct x as [[|]|[|]| |s m e]; try reflexivity.
  unfold mul, SFmul. rewrite xorb_nilpotent. apply binary_round_aux_nonneg.
Qed.

Lemma add_nonneg (x y : float64) :
  nonneg_or_nan x = true -> nonneg_or_nan y = true -> nonneg_or_nan (add x y) = true.
Proof.
  destruct x as [[|]|[|]| |[|] mx ex], y as [[|]|[|]| |[|] my ey];
    simpl; intros Hx Hy; try discriminate; try reflexivity.
  apply binary_round_nonneg.
Qed.

Lemma sqrt_nonneg (x : float64) :
  nonneg_or_nan x = true -> nonneg_or_nan (sqrt x) = true.
Proof.
  destruct x as [[|]|[|]| |[|] m e]; simpl; intros Hx; try discriminate;
    try reflexivity.
  unfold sqrt, SFsqrt. destruct (SFsqrt_core_binary prec emax (Zpos m) e) as [[mz ez] lz].
  apply binary_round_aux_nonneg.
Qed.

Lemma div_nonneg (x y : float64) :
  nonneg_or_nan x = true -> nonneg_or_nan y = true -> nonneg_or_nan (div x y) = true.
Proof.
  destruct x as [[|]|[|]| |[|] mx ex], y as [[|]|[|]| |[|] my ey];
    simpl; intros Hx Hy; try discriminate; try reflexivity.
  unfold div, SFdiv.
  destruct (SFdiv_core_binary prec emax (Zpos mx) ex (Zpos my) ey) as [[mz ez] lz].
  apply binary_round_aux_nonneg.
Qed.

Lemma dot_self_nonneg (v : vec) : nonneg_or_nan (dot v v) = true.
Proof.
  unfold dot. assert (H0 : nonneg_or_nan zero = true) by reflexivity.
  revert H0. generalize zero.
  induction v as [|x v IH]; intros acc Hacc; simpl; [exact Hacc|].
  apply IH. apply add_nonneg; [exact Hacc | apply mul_self_nonneg].
Qed.

Lemma norm_nonneg (v : vec) : nonneg_or_nan (norm v) = true.
Proof. unfold norm. apply sqrt_nonneg, dot_self_nonneg. Qed.

(** X7: a score is never negative: whatever the two vectors, the float
    returned by either scorer is NaN or has its sign bit clear (zero, a
    positive number or +infinity). *)
Theorem score_is_nonnegative_or_nan (A B : vec) (x : float64) :
  GradientChecker.calculate_diff A B = Ok x \/ GradientCheck.calculate_diff A B = Ok x ->
  nonneg_or_nan x = true.
Proof.
  unfold GradientChecker.calculate_diff, GradientCheck.calculate_diff, norm_scalar.
  destruct (subtract A B) as [d|e]; intros [H|H]; try discriminate;
    injection H as <-; apply div_nonneg;
    try apply norm_nonneg; apply add_nonneg; apply norm_nonneg.
Qed.

Lemma score_is_nonnegative_or_nan_witness :
  nonneg_or_nan tol = true.
Proof.
  apply (@score_is_nonnegative_or_nan [ThresholdFixture.g_analytic]
                                      [ThresholdFixture.g_slope] tol).
  right. vm_compute. reflexivity.
Defined.


(* ================================================================== *)
(** * Further properties of the dictionary-based roller *)

Lemma dict_get_set_same {V : Type} (d : dict V) (k : string) (v : V) :
  dict_get (dict_set d k v) k = Some v.
Proof.
  induction d as [|[k' v'] d IH]; simpl.
  - rewrite String.eqb_refl. reflexivity.
  - destruct (String.eqb k k') eqn:E; simpl; rewrite E; [reflexivity | exact IH].
Qed.

Lemma dict_get_set_other {V : Type} (d : dict V) (k k0 : string) (v : V) :
  k0 <> k -> dict_get (dict_set d k v) k0 = dict_get d k0.
Proof.
  intros Hne. induction d as [|[k' v'] d IH]; simpl.
  - destruct (String.eqb_spec k0 k); [contradiction | reflexivity].
  - destruct (String.eqb_spec k k') as [->|N]; simpl.
    + destruct (String.eqb_spec k0 k'); [contradiction | reflexivity].
    + rewrite IH. reflexivity.
Qed.

Lemma dict_get_In_keys {V : Type} (d : dict V) (k : string) :
  dict_get d k <> None <-> In k (dict_keys d).
Proof.
  induction d as [|[k' v'] d IH]; simpl.
  - split; [intros H; contradiction H; reflexivity | intros []].
  - destruct (String.eqb_spec k k') as [->|N].
    + split; [intros _; left; reflexivity | intros _; discriminate].
    + rewrite IH. split; [intros H; right; exact H|].
      intros [E|H]; [symmetry in E; contradiction | exact H].
Qed.

(** What the index says by lookup: the interval of a key lies inside the
    vector and holds the data of that key's array. *)
Lemma params_to_vector_loop_lookup (params : dict ndarray) (keys : list string) :
  forall theta positions theta' positions',
    GradientCheck.params_to_vector_loop params keys theta positions
    = Ok (theta', positions') ->
    index_by_lookup params theta positions ->
    index_by_lookup params theta' positions' /\
    (forall k, In k keys \/ dict_get positions k <> None ->
               dict_get positions' k <> None).
Proof.
  induction keys as [|key keys IH]; intros theta positions theta' positions' Hloop Hinv.
  - simpl in Hloop. injection Hloop as <- <-. split; [exact Hinv|].
    intros k [[]|H]. exact H.
  - simpl in Hloop. destruct (dict_get params key) as [m|] eqn:Hm; [|discriminate].
    unfold concatenate, flatten in Hloop.
    apply IH in Hloop.
    + destruct Hloop as [Hinv' Hkeys]. split; [exact Hinv'|].
      intros k [[<-|Hin]|Hold].
      * apply Hkeys. right. rewrite dict_get_set_same. discriminate.
      * apply Hkeys. left. exact Hin.
      * apply Hkeys. right.
        destruct (String.eqb_spec k key) as [->|N].
        -- rewrite dict_get_set_same. discriminate.
        -- rewrite dict_get_set_other by exact N. exact Hold.
    + intros k f t Hget.
      destruct (String.eqb_spec k key) as [->|N].
      * rewrite dict_get_set_same in Hget. injection Hget as <- <-.
        rewrite length_app. split; [lia|]. split; [lia|].
        exists m. split; [exact Hm|]. apply slice_app_end.
      * rewrite dict_get_set_other in Hget by exact N.
        destruct (Hinv k f t Hget) as (Hft & Hle & m' & Hm' & Hs).
        rewrite length_app. split; [exact Hft|]. split; [lia|].
        exists m'. split; [exact Hm'|].
        rewrite slice_app_stable by exact Hle. exact Hs.
Qed.

(** X8: once [params_to_vector] has returned, looking a listed key up in the
    recorded index gives an interval [from, to) inside the vector whose slice
    is the data of that key's array (for a key listed twice, its last copy). *)
Theorem params_to_vector_index (params : dict ndarray) (keys : list string)
        (theta : vec) (cache : GradientCheck.cache_t) (k : string) :
  GradientCheck.params_to_vector params keys = Ok (theta, cache) ->
  In k keys ->
  fst cache = params /\
  exists from_i to_i m,
    dict_get (snd cache) k = Some (from_i, to_i) /\
    dict_get params k = Some m /\
    from_i <= to_i /\ to_i <= length theta /\
    slice theta from_i to_i = data m.
Proof.
  unfold GradientCheck.params_to_vector. intros H Hk.
  destruct (GradientCheck.params_to_vector_loop params keys [] [])
    as [[theta' positions]|e] eqn:Hloop; [|discriminate].
  injection H as <- <-. split; [reflexivity|]. cbn [snd].
  destruct (@params_to_vector_loop_lookup params keys [] [] theta' positions Hloop)
    as [Hinv Hkeys].
  { intros k' f t Hget. discriminate. }
  destruct (dict_get positions k) as [[f t]|] eqn:Hget.
  - destruct (Hinv k f t Hget) as (Hft & Hle & m & Hm & Hs).
    exists f, t, m. repeat split; assumption.
  - exfalso. apply (Hkeys k (or_introl Hk)). exact Hget.
Qed.

Lemma params_to_vector_index_witness :
  fst (Fixture.some_params, [("W0"%string, (0, 4)); ("b0"%string, (4, 6))])
  = Fixture.some_params /\
  exists from_i to_i m,
    dict_get [("W0"%string, (0, 4)); ("b0"%string, (4, 6))] "b0" = Some (from_i, to_i) /\
    dict_get Fixture.some_params "b0" = Some m /\
    from_i <= to_i /\ to_i <= 6 /\
    slice [Fixture.f_one; two; Fixture.f_three; Fixture.f_one; two; Fixture.f_three]
          from_i to_i = data m.
Proof.
  apply (@params_to_vector_index
           Fixture.some_params ["W0"; "b0"]%string
           [Fixture.f_one; two; Fixture.f_three; Fixture.f_one; two; Fixture.f_three]
           (Fixture.some_params, [("W0"%string, (0, 4)); ("b0"%string, (4, 6))])
           "b0"%string).
  - reflexivity.
  - right. left. reflexivity.
Defined.

Lemma dict_skeleton_get (d d' : dict ndarray) (k : string) (a : ndarray) :
  dict_skeleton d = dict_skeleton d' ->
  dict_get d k = Some a ->
  exists a', dict_get d' k = Some a' /\ shape a' = shape a.
Proof.
  revert d'. induction d as [|[k1 a1] d IH]; intros [|[k2 a2] d'] Hsk Hget;
    try discriminate.
  simpl in Hsk. injection Hsk as -> Hs Hsk. simpl in *.
  destruct (String.eqb k k2).
  - injection Hget as <-. exists a2. split; [reflexivity | symmetry; exact Hs].
  - apply IH; assumption.
Qed.

Lemma dict_set_skeleton (d : dict ndarray) (k : string) (a a0 : ndarray) :
  dict_get d k = Some a0 -> shape a = shape a0 ->
  dict_skeleton (dict_set d k a) = dict_skeleton d.
Proof.
  induction d as [|[k' a'] d IH]; simpl; [discriminate|].
  destruct (String.eqb k k').
  - intros [= ->] Hs. simpl. rewrite Hs. reflexivity.
  - intros Hget Hs. simpl. rewrite (IH Hget Hs). reflexivity.
Qed.

Lemma vector_to_params_loop_layout (v : vec) (_params : dict ndarray)
      (positions : GradientCheck.positions_t) :
  forall acc p,
    GradientCheck.vector_to_params_loop v _params positions acc = Ok p ->
    dict_skeleton acc = dict_skeleton _params ->
    dict_skeleton p = dict_skeleton _params /\
    forall k, ~ In k (dict_keys positions) -> dict_get p k = dict_get acc k.
Proof.
  induction positions as [|[key [f t]] positions IH]; intros acc p Hloop Hsk.
  - simpl in Hloop. injection Hloop as <-. split; [exact Hsk|]. reflexivity.
  - simpl in Hloop.
    destruct (dict_get _params key) as [template|] eqn:Ht; [|discriminate].
    unfold reshape in Hloop.
    destruct (length (slice v f t) =? size (shape template)); [|discriminate].
    symmetry in Hsk.
    destruct (@dict_skeleton_get _params acc key template Hsk Ht) as (a1 & Ha1 & Hs1).
    symmetry in Hsk.
    apply IH in Hloop.
    + destruct Hloop as [Hp Hframe]. split; [exact Hp|].
      intros k Hk. simpl in Hk. rewrite Hframe by tauto.
      apply dict_get_set_other. intros ->. apply Hk. left. reflexivity.
    + rewrite (@dict_set_skeleton acc key _ a1 Ha1); [exact Hsk|].
      simpl. symmetry. exact Hs1.
Qed.

(** X9: when [vector_to_params] returns, the dict it returns has the keys of
    the template in the same order with the same shapes, and every key the
    index does not mention keeps the template's array. *)
Theorem vector_to_params_keeps_layout (v : vec) (cache : GradientCheck.cache_t)
        (p : dict ndarray) :
  GradientCheck.vector_to_params v cache = Ok p ->
  dict_skeleton p = dict_skeleton (fst cache) /\
  forall k, ~ In k (dict_keys (snd cache)) -> dict_get p k = dict_get (fst cache) k.
Proof.
  destruct cache as [_params positions]. simpl. intros H.
  eapply vector_to_params_loop_layout; [exact H | reflexivity].
Qed.

Lemma vector_to_params_keeps_layout_witness :
  dict_skeleton [("W0"%string, mk_ndarray [2; 2] [zero; zero; zero; zero]);
                 ("b0"%string, Fixture.b)]
  = dict_skeleton Fixture.some_params /\
  forall k, ~ In k (dict_keys [("W0"%string, (0, 4))]) ->
            dict_get [("W0"%string, mk_ndarray [2; 2] [zero; zero; zero; zero]);
                      ("b0"%string, Fixture.b)] k
            = dict_get Fixture.some_params k.
Proof.
  apply (@vector_to_params_keeps_layout
           [zero; zero; zero; zero]
           (Fixture.some_params, [("W0"%string, (0, 4))])).
  reflexivity.
Defined.


Lemma params_to_vector_loop_get_other (params : dict ndarray) (keys : list string)
      (k : string) :
  ~ In k keys ->
  forall theta positions theta' positions',
    GradientCheck.params_to_vector_loop params keys theta positions
    = Ok (theta', positions') ->
    dict_get positions' k = dict_get positions k.
Proof.
  intros Hk. induction keys as [|key keys IH]; intros theta positions theta' positions' H.
  - simpl in H. injection H as _ <-. reflexivity.
  - simpl in H. destruct (dict_get params key) as [m|]; [|discriminate].
    apply IH in H; [|intros Hin; apply Hk; right; exact Hin].
    rewrite H. apply dict_get_set_other. intros ->. apply Hk. left. reflexivity.
Qed.

Lemma params_to_vector_loop_chain (params : dict ndarray) (keys : list string) :
  NoDup keys ->
  forall theta positions theta' positions',
    GradientCheck.params_to_vector_loop params keys theta positions
    = Ok (theta', positions') ->
    chain params positions' keys (length theta) (length theta').
Proof.
  induction 1 as [|key keys Hnotin _ IH]; intros theta positions theta' positions' H.
  - simpl in H. injection H as <- _. reflexivity.
  - simpl in H. destruct (dict_get params key) as [m|] eqn:Hm; [|discriminate].
    unfold concatenate, flatten in H.
    exists m. split; [|split; [exact Hm|]].
    + rewrite (@params_to_vector_loop_get_other params keys key Hnotin _ _ _ _ H).
      rewrite dict_get_set_same, length_app. reflexivity.
    + rewrite <- length_app. apply (IH _ _ _ _ H).
Qed.

Lemma dict_set_keys_In {V : Type} (d : dict V) (k x : string) (v : V) :
  In x (dict_keys (dict_set d k v)) -> In x (dict_keys d) \/ x = k.
Proof.
  induction d as [|[k' v'] d IH]; simpl.
  - intros [<-|[]]. right. reflexivity.
  - destruct (String.eqb k k'); simpl.
    + intros H. left. exact H.
    + intros [<-|H]; [left; left; reflexivity|].
      destruct (IH H) as [H'|H']; [left; right; exact H' | right; exact H'].
Qed.

Lemma dict_set_keys_NoDup {V : Type} (d : dict V) (k : string) (v : V) :
  NoDup (dict_keys d) -> NoDup (dict_keys (dict_set d k v)).
Proof.
  induction d as [|[k' v'] d IH]; simpl; intros Hnd.
  - constructor; [intros [] | constructor].
  - inversion Hnd as [|? ? Hnotin Hnd']; subst.
    destruct (String.eqb_spec k k') as [->|N]; simpl.
    + constructor; assumption.
    + constructor; [|apply IH; exact Hnd'].
      intros Hin. destruct (@dict_set_keys_In _ _ _ _ _ Hin) as [H|H].
      * apply Hnotin. exact H.
      * apply N. symmetry. exact H.
Qed.

Lemma params_to_vector_loop_NoDup (params : dict ndarray) (keys : list string) :
  forall theta positions theta' positions',
    GradientCheck.params_to_vector_loop params keys theta positions
    = Ok (theta', positions') ->
    NoDup (dict_keys positions) -> NoDup (dict_keys positions').
Proof.
  induction keys as [|key keys IH]; intros theta positions theta' positions' H Hnd.
  - simpl in H. injection H as _ <-. exact Hnd.
  - simpl in H. destruct (dict_get params key) as [m|]; [|discriminate].
    apply (IH _ _ _ _ H). apply dict_set_keys_NoDup. exact Hnd.
Qed.

Lemma vector_to_params_loop_get_other (v : vec) (_params : dict ndarray)
      (positions : GradientCheck.positions_t) (k : string) :
  ~ In k (dict_keys positions) ->
  forall acc p,
    GradientCheck.vector_to_params_loop v _params positions acc = Ok p ->
    dict_get p k = dict_get acc k.
Proof.
  intros Hk. induction positions as [|[key [f t]] positions IH]; intros acc p H.
  - simpl in H. injection H as <-. reflexivity.
  - simpl in H. destruct (dict_get _params key) as [template|]; [|discriminate].
    destruct (reshape (slice v f t) (shape template)) as [a|e]; [|discriminate].
    apply IH in H; [|intros Hin; apply Hk; right; exact Hin].
    rewrite H. apply dict_get_set_other. intros ->. apply Hk. left. reflexivity.
Qed.

Lemma vector_to_params_loop_lookup (v : vec) (_params : dict ndarray)
      (positions : GradientCheck.positions_t) :
  NoDup (dict_keys positions) ->
  forall acc p,
    GradientCheck.vector_to_params_loop v _params positions acc = Ok p ->
    forall k f t,
      dict_get positions k = Some (f, t) ->
      exists m, dict_get _params k = Some m /\
                dict_get p k = Some (mk_ndarray (shape m) (slice v f t)).
Proof.
  induction positions as [|[key [f0 t0]] positions IH]; intros Hnd acc p H k f t Hget.
  - discriminate.
  - simpl in Hnd. inversion Hnd as [|? ? Hnotin Hnd']; subst.
    simpl in H. destruct (dict_get _params key) as [template|] eqn:Ht; [|discriminate].
    unfold reshape in H.
    destruct (length (slice v f0 t0) =? size (shape template)); [|discriminate].
    simpl in Hget. destruct (String.eqb_spec k key) as [->|N].
    + injection Hget as <- <-. exists template. split; [exact Ht|].
      rewrite (@vector_to_params_loop_get_other v _params positions key Hnotin _ _ H).
      apply dict_get_set_same.
    + apply (IH Hnd' _ _ H k f t Hget).
Qed.

Lemma chain_listed_data (params p : dict ndarray) (positions : GradientCheck.positions_t)
      (v : vec) (keys : list string) :
  (forall k f t,
      dict_get positions k = Some (f, t) ->
      exists m, dict_get params k = Some m /\
                dict_get p k = Some (mk_ndarray (shape m) (slice v f t))) ->
  forall off stop,
    chain params positions keys off stop ->
    off <= stop /\
    forallb (present p) keys = true /\
    listed_data p keys = slice v off stop.
Proof.
  intros Hp. induction keys as [|k keys IH]; intros off stop Hchain.
  - simpl in Hchain. subst stop. split; [lia|]. split; [reflexivity|].
    simpl. rewrite slice_empty. reflexivity.
  - destruct Hchain as (m & Hget & Hm & Hrest).
    destruct (IH _ _ Hrest) as (Hle & Hall & Hdata).
    destruct (Hp k _ _ Hget) as (m' & Hm' & Hpk).
    split; [lia|]. split.
    + simpl. unfold present at 1. rewrite Hpk. exact Hall.
    + unfold listed_data in *. cbn [flat_map]. rewrite Hpk, Hdata. cbn [data].
      apply slice_split; lia.
Qed.

(** X10: the dictionary-based roller is a bijection on vectors too: for
    distinct listed keys, unflattening any vector of the recorded length and
    flattening the result with the same keys gives the vector back. *)
Theorem flatten_after_unflatten (params : dict ndarray) (keys : list string)
        (theta : vec) (cache : GradientCheck.cache_t) (v : vec) :
  NoDup keys ->
  (forall k, In k keys -> exists m, dict_get params k = Some m /\ wf m) ->
  GradientCheck.params_to_vector params keys = Ok (theta, cache) ->
  length v = length theta ->
  exists p cache',
    GradientCheck.vector_to_params v cache = Ok p /\
    GradientCheck.params_to_vector p keys = Ok (v, cache').
Proof.
  intros Hnd Hkeys Hflat Hlen.
  destruct (@vector_to_params_accepts params keys theta cache v Hkeys Hflat Hlen)
    as [p Hp].
  unfold GradientCheck.params_to_vector in Hflat.
  destruct (GradientCheck.params_to_vector_loop params keys [] [])
    as [[theta' positions]|e] eqn:Hloop; [|discriminate].
  injection Hflat as <- <-.
  pose proof (@params_to_vector_loop_chain params keys Hnd _ _ _ _ Hloop) as Hchain.
  pose proof (@params_to_vector_loop_NoDup params keys _ _ _ _ Hloop (NoDup_nil _)) as Hndp.
  simpl in Hp, Hchain.
  pose proof (@vector_to_params_loop_lookup v params positions Hndp _ _ Hp) as Hlook.
  destruct (@chain_listed_data params p positions v keys Hlook _ _ Hchain)
    as (_ & Hall & Hdata).
  exists p. unfold GradientCheck.params_to_vector.
  destruct (params_to_vector_loop_outcome p keys [] [])
    as [[_ [positions' Hloop']]|[Hnot _]].
  - eexists. split; [exact Hp|].
    rewrite Hloop'. simpl. rewrite Hdata, <- Hlen, slice_whole. reflexivity.
  - rewrite Hall in Hnot. discriminate.
Qed.

Lemma flatten_after_unflatten_witness :
  exists p cache',
    GradientCheck.vector_to_params
      [zero; two; zero; two; zero; two]
      (Fixture.some_params, [("W0"%string, (0, 4)); ("b0"%string, (4, 6))]) = Ok p /\
    GradientCheck.params_to_vector p ["W0"; "b0"]%string
    = Ok ([zero; two; zero; two; zero; two], cache').
Proof.
  apply (@flatten_after_unflatten
           Fixture.some_params ["W0"; "b0"]%string
           [Fixture.f_one; two; Fixture.f_three; Fixture.f_one; two; Fixture.f_three]).
  - repeat constructor; simpl; intuition discriminate.
  - intros k [<-|[<-|[]]]; eexists; (split; reflexivity).
  - reflexivity.
  - reflexivity.
Defined.


(* ================================================================== *)
(** * Further properties of [compute_error] *)

Section ComputeErrorRuns.

Variables Hidden Regularizer Input Target Output : Type.

Variable propagate_forward :
  Input -> bool -> GradientChecker.model Hidden Regularizer
  -> GradientChecker.model Hidden Regularizer * Output.
Variable propagate_backward :
  Output -> Target -> GradientChecker.model Hidden Regularizer
  -> GradientChecker.model Hidden Regularizer.
Variable compute_cost :
  Output -> Target -> GradientChecker.model Hidden Regularizer -> float64.

Variable eps : float64.
Variable X : Input.
Variable Y : Target.

Lemma do_unroll_calls (theta : vec) (ty : GradientChecker.param_type)
      (w w1 : GradientChecker.world Hidden Regularizer) (r : result unit) :
  GradientChecker.do_unroll theta ty w = (w1, r) ->
  GradientChecker.calls w1 = GradientChecker.calls w.
Proof.
  unfold GradientChecker.do_unroll.
  destruct (GradientChecker.unroll_params theta _ ty) as [ls' r'].
  intros [= <- _]. reflexivity.
Qed.

Lemma evaluate_calls (theta : vec) (w w1 : GradientChecker.world Hidden Regularizer)
      (c : float64) :
  evaluate propagate_forward compute_cost X Y theta w = (w1, Ok c) ->
  GradientChecker.calls w1 = (GradientChecker.calls w ++ [Forward true]) ++ [Cost].
Proof.
  unfold evaluate. intros H.
  bind_inv H as u s0 H0. apply do_unroll_calls in H0.
  bind_inv H as o s1 H1.
  unfold GradientChecker.do_forward in H1.
  destruct (propagate_forward X true (GradientChecker.mdl s0)) as [m' o'].
  injection H1 as <- _.
  unfold GradientChecker.do_cost in H. injection H as <- _.
  simpl. rewrite H0. reflexivity.
Qed.

Lemma error_loop_calls (theta : vec) (range : list nat) :
  forall (g : vec) (w w' : GradientChecker.world Hidden Regularizer) (grad : vec),
    GradientChecker.error_loop propagate_forward compute_cost eps X Y theta range g w
    = (w', Ok grad) ->
    GradientChecker.calls w'
    = GradientChecker.calls w
      ++ flat_map (fun _ => [Forward true; Cost; Forward true; Cost]) range.
Proof.
  induction range as [|i range IH]; intros g w w' grad H.
  - simpl in H. injection H as <- _. simpl. rewrite app_nil_r. reflexivity.
  - rewrite error_loop_cons in H.
    destruct (evaluate propagate_forward compute_cost X Y (plus eps theta i) w)
      as [w1 [cp|e]] eqn:E1; [|discriminate].
    destruct (evaluate propagate_forward compute_cost X Y (minus eps theta i) w1)
      as [w2 [cm|e]] eqn:E2; [|discriminate].
    apply IH in H. apply evaluate_calls in E1, E2.
    rewrite H, E2, E1. simpl. rewrite <- !app_assoc. reflexivity.
Qed.

(** X11: a run of [compute_error] that returns has made, after the calls
    logged at entry, one forward pass in training mode, one backward pass
    and then, for each of the [n] parameter coordinates, a forward pass in
    prediction mode and a cost evaluation twice: [2n + 1] forward passes in
    all, and no backward pass after the first prediction. *)
Theorem compute_error_calls
        (w w' : GradientChecker.world Hidden Regularizer) (score : float64) :
  GradientChecker.compute_error propagate_forward propagate_backward compute_cost
                                eps X Y w
  = (w', Ok score) ->
  GradientChecker.calls w'
  = GradientChecker.calls w ++ [Forward false; Backward]
    ++ loop_calls true
         (length (GradientChecker.roll_params
                    (GradientChecker.layers
                       (analytic_pass propagate_forward propagate_backward X Y
                                      (GradientChecker.mdl w)))
                    GradientChecker.Params)).
Proof.
  unfold GradientChecker.compute_error. intros H.
  bind_inv H as ls s0 H0. injection H0 as <- <-.
  bind_inv H as reg s1 H1. injection H1 as <- <-.
  bind_inv H as u2 s2 H2.
  assert (s2 = w) as ->.
  { unfold assert in H2. destruct (GradientChecker.is_None _); [|discriminate].
    injection H2 as <- _. reflexivity. }
  bind_inv H as u3 s3 H3.
  assert (s3 = w) as ->.
  { rewrite assert_layers_outcome in H3. injection H3 as <- _. reflexivity. }
  bind_inv H as params s4 H4. injection H4 as <- <-.
  bind_inv H as grads s5 H5. injection H5 as <- <-.
  bind_inv H as output s6 H6.
  unfold GradientChecker.do_forward in H6.
  rewrite (surjective_pairing (propagate_forward X false (GradientChecker.mdl w))) in H6.
  injection H6 as <- <-.
  bind_inv H as u7 s7 H7. injection H7 as <- _.
  bind_inv H as param_theta s8 H8. injection H8 as <- <-.
  bind_inv H as grad_theta s9 H9. injection H9 as <- <-.
  cbn [GradientChecker.mdl GradientChecker.calls] in H.
  fold (analytic_pass propagate_forward propagate_backward X Y (GradientChecker.mdl w))
    in H.
  bind_inv H as grad_approx s10 H10. apply error_loop_calls in H10.
  bind_inv H as u11 s11 H11. apply do_unroll_calls in H11.
  bind_inv H as u12 s12 H12. apply do_unroll_calls in H12.
  bind_inv H as d s13 H13. unfold lift in H13. injection H13 as <- _.
  unfold ret in H. injection H as <- _.
  rewrite H12, H11, H10. cbn [GradientChecker.calls].
  unfold loop_calls. rewrite <- !app_assoc. reflexivity.
Qed.

End ComputeErrorRuns.

Lemma compute_error_calls_witness :
  GradientChecker.calls
    (fst (GradientChecker.compute_error
            QuadraticFixture.forward QuadraticFixture.backward QuadraticFixture.cost
            ThresholdFixture.half tt tt QuadraticFixture.world0))
  = [] ++ [Forward false; Backward] ++ loop_calls true 6.
Proof.
  destruct (GradientChecker.compute_error
              QuadraticFixture.forward QuadraticFixture.backward QuadraticFixture.cost
              ThresholdFixture.half tt tt QuadraticFixture.world0)
    as [w' [score|e]] eqn:E.
  - cbn [fst].
    apply (@compute_error_calls unit unit unit unit vec
             QuadraticFixture.forward QuadraticFixture.backward QuadraticFixture.cost
             ThresholdFixture.half tt tt QuadraticFixture.world0 w' score E).
  - exfalso. vm_compute in E. discriminate.
Defined.


Section ComputeErrorOutcome.

Variables Hidden Regularizer Input Target Output : Type.

Variable propagate_forward :
  Input -> bool -> GradientChecker.model Hidden Regularizer
  -> GradientChecker.model Hidden Regularizer * Output.
Variable propagate_backward :
  Output -> Target -> GradientChecker.model Hidden Regularizer
  -> GradientChecker.model Hidden Regularizer.
Variable compute_cost :
  Output -> Target -> GradientChecker.model Hidden Regularizer -> float64.

Variable eps : float64.
Variable X : Input.
Variable Y : Target.

Lemma numeric_gradient_ext (m : GradientChecker.model Hidden Regularizer) (g : vec) :
  let theta :=
    GradientChecker.roll_params (GradientChecker.layers m) GradientChecker.Params in
  length g = length theta ->
  (forall i, i < length theta ->
     getitem g i
     = central_difference
         eps
         (predicted_cost propagate_forward compute_cost X Y
                         (installed (plus eps theta i) m))
         (predicted_cost propagate_forward compute_cost X Y
                         (installed (minus eps theta i) m))) ->
  g = numeric_gradient propagate_forward compute_cost eps X Y m.
Proof.
  intros theta Hlen Hg. unfold numeric_gradient. fold theta.
  apply (nth_ext g _ zero zero).
  - rewrite length_map, length_seq. exact Hlen.
  - intros i Hi. rewrite Hlen in Hi.
    change (nth i g zero) with (getitem g i). rewrite (Hg i Hi).
    set (f := fun i0 : nat => central_difference eps _ _).
    rewrite (nth_indep (map f (seq 0 (length theta))) zero (f 0))
      by (rewrite length_map, length_seq; exact Hi).
    rewrite map_nth, seq_nth by exact Hi. reflexivity.
Qed.

(** X12: what [compute_error] returns, in whatever order numpy adds up the
    squares of a norm ([s] stands for its [x.dot(x)]).  On a model without
    regularizer or stochastic layer whose collaborators keep the keys and
    shapes of the 2-D collections and whose prediction cost depends on the
    stored parameters only, the result is the scorer applied to the analytic
    gradient stored by the backward pass and to the vector of central
    differences of the cost: its score, or its ValueError when the two lengths
    cannot be broadcast.  In both cases the model has been restored before. *)
Theorem compute_error_outcome (s : vec -> vec -> float64)
        (w : GradientChecker.world Hidden Regularizer) :
  let ls0 := GradientChecker.layers (GradientChecker.mdl w) in
  let m1 := analytic_pass propagate_forward propagate_backward X Y
                          (GradientChecker.mdl w) in
  let ls1 := GradientChecker.layers m1 in
  GradientChecker.regularizer (GradientChecker.mdl w) = None ->
  existsb stochastic ls0 = false ->
  (forall m ty,
      skeleton ty (GradientChecker.layers (fst (propagate_forward X true m)))
      = skeleton ty (GradientChecker.layers m)) ->
  (forall m m',
      map GradientChecker.params (GradientChecker.layers m)
      = map GradientChecker.params (GradientChecker.layers m') ->
      predicted_cost propagate_forward compute_cost X Y m
      = predicted_cost propagate_forward compute_cost X Y m') ->
  (forall ty, layers_2d ty ls0) ->
  layers_2d GradientChecker.Params ls1 ->
  (forall ty, skeleton ty ls1 = skeleton ty ls0) ->
  exists w',
    GradientChecker.compute_error_by propagate_forward propagate_backward compute_cost
                                     eps s X Y w
    = (w', GradientChecker.calculate_diff_by
             s (GradientChecker.roll_params ls1 GradientChecker.Grads)
             (numeric_gradient propagate_forward compute_cost eps X Y m1)) /\
    map GradientChecker.params (GradientChecker.layers (GradientChecker.mdl w'))
    = map GradientChecker.params ls0 /\
    map GradientChecker.grads (GradientChecker.layers (GradientChecker.mdl w'))
    = map GradientChecker.grads ls0.
Proof.
  intros ls0 m1 ls1 Hreg Hstoch Hfwd Hpure H2d0 H2dP Hsk1.
  unfold GradientChecker.compute_error_by.
  erewrite bind_Ok by reflexivity.
  erewrite bind_Ok by reflexivity.
  rewrite Hreg. erewrite bind_Ok by reflexivity.
  erewrite bind_Ok
    by (rewrite assert_layers_outcome; fold ls0; rewrite Hstoch; reflexivity).
  erewrite bind_Ok by reflexivity.
  erewrite bind_Ok by reflexivity.
  fold ls0.
  erewrite bind_Ok
    by (unfold GradientChecker.do_forward;
        rewrite (surjective_pairing (propagate_forward X false (GradientChecker.mdl w)));
        reflexivity).
  erewrite bind_Ok by reflexivity.
  erewrite bind_Ok by reflexivity.
  erewrite bind_Ok by reflexivity.
  cbn [GradientChecker.mdl GradientChecker.calls].
  fold (analytic_pass propagate_forward propagate_backward X Y (GradientChecker.mdl w)).
  fold m1. fold ls1.
  set (param_theta := GradientChecker.roll_params ls1 GradientChecker.Params).
  set (grad_theta := GradientChecker.roll_params ls1 GradientChecker.Grads).
  set (w2 := {| GradientChecker.mdl := m1; GradientChecker.calls := _ |}).
  pose proof (layers_2d_shapes H2dP) as HshP.
  assert (HlenP : length param_theta = total_count GradientChecker.Params ls1)
    by (apply roll_params_length; exact H2dP).
  destruct (@error_loop_runs Hidden Regularizer Input Target Output
              propagate_forward compute_cost eps X Y Hfwd ls1 param_theta
              HshP HlenP
              (seq 0 (length param_theta)) (zeros (length param_theta)) w2)
    as (w3 & grad_approx & Eloop & Hsk3 & Hlen3 & _ & Hnew).
  { intros i Hi. apply in_seq in Hi. lia. }
  { apply length_zeros. }
  { reflexivity. }
  assert (Hgrad : grad_approx
                  = numeric_gradient propagate_forward compute_cost eps X Y m1).
  { apply numeric_gradient_ext; [exact Hlen3|]. fold ls1. fold param_theta.
    intros i Hi.
    destruct (Hnew (seq_NoDup _ _) i) as (mp & mm & Hp & Hm & Hcd).
    { apply in_seq. lia. }
    rewrite Hcd.
    rewrite (@predicted_cost_installed Hidden Regularizer Input Target Output
               propagate_forward compute_cost X Y Hpure
               (plus eps param_theta i) mp m1 HshP)
      by (try (unfold plus; rewrite length_setitem); assumption).
    rewrite (@predicted_cost_installed Hidden Regularizer Input Target Output
               propagate_forward compute_cost X Y Hpure
               (minus eps param_theta i) mm m1 HshP)
      by (try (unfold minus; rewrite length_setitem); assumption).
    reflexivity. }
  erewrite bind_Ok by exact Eloop.
  set (ls3 := GradientChecker.layers (GradientChecker.mdl w3)).
  assert (Hsk30 : forall ty, skeleton ty ls3 = skeleton ty ls0).
  { intros ty. unfold ls3. rewrite Hsk3. apply Hsk1. }
  assert (Eparams :
            GradientChecker.do_unroll (GradientChecker.roll_params ls0 GradientChecker.Params)
                                      GradientChecker.Params w3
            = (GradientChecker.with_layers
                 w3 (transplant_all GradientChecker.Params ls3 ls0), Ok tt)).
  { unfold GradientChecker.do_unroll. fold ls3.
    rewrite <- (app_nil_r (GradientChecker.roll_params ls0 GradientChecker.Params)).
    rewrite (@unroll_params_transplant GradientChecker.Params ls0 ls3 []
               (H2d0 GradientChecker.Params) (Hsk30 GradientChecker.Params)).
    reflexivity. }
  erewrite bind_Ok by exact Eparams.
  set (ls4 := transplant_all GradientChecker.Params ls3 ls0).
  assert (Hgr4 : map (fun l => GradientChecker.getattr l GradientChecker.Grads) ls4
                 = map (fun l => GradientChecker.getattr l GradientChecker.Grads) ls3).
  { apply (transplant_all_other_attr GradientChecker.Params).
    apply (skeleton_length GradientChecker.Params). apply Hsk30. }
  assert (Hsk4 : skeleton GradientChecker.Grads ls4 = skeleton GradientChecker.Grads ls0).
  { rewrite (skeleton_of_attr GradientChecker.Grads _ _ Hgr4). apply Hsk30. }
  assert (Egrads :
            GradientChecker.do_unroll (GradientChecker.roll_params ls0 GradientChecker.Grads)
                                      GradientChecker.Grads
                                      (GradientChecker.with_layers w3 ls4)
            = (GradientChecker.with_layers
                 (GradientChecker.with_layers w3 ls4)
                 (transplant_all GradientChecker.Grads ls4 ls0), Ok tt)).
  { unfold GradientChecker.do_unroll. cbn [GradientChecker.with_layers
      GradientChecker.mdl GradientChecker.layers].
    rewrite <- (app_nil_r (GradientChecker.roll_params ls0 GradientChecker.Grads)).
    rewrite (@unroll_params_transplant GradientChecker.Grads ls0 ls4 []
               (H2d0 GradientChecker.Grads) Hsk4).
    reflexivity. }
  erewrite bind_Ok by exact Egrads.
  rewrite <- Hgrad.
  eexists. split.
  - unfold bind, lift, ret.
    destruct (GradientChecker.calculate_diff_by s grad_theta grad_approx); reflexivity.
  - cbn [GradientChecker.with_layers GradientChecker.mdl GradientChecker.layers].
    split.
    + change GradientChecker.params
        with (fun l => GradientChecker.getattr l GradientChecker.Params).
      etransitivity.
      * apply (transplant_all_other_attr GradientChecker.Grads ls4 ls0).
        apply (skeleton_length GradientChecker.Grads). exact Hsk4.
      * apply (transplant_all_same_attr GradientChecker.Params). apply Hsk30.
    + change GradientChecker.grads
        with (fun l => GradientChecker.getattr l GradientChecker.Grads).
      apply transplant_all_same_attr. exact Hsk4.
Qed.

End ComputeErrorOutcome.

Lemma compute_error_outcome_witness :
  let m1 := analytic_pass QuadraticFixture.forward QuadraticFixture.backward tt tt
                          (GradientChecker.mdl QuadraticFixture.world0) in
  exists w',
    GradientChecker.compute_error_by
      QuadraticFixture.forward QuadraticFixture.backward QuadraticFixture.cost
      ThresholdFixture.half dot tt tt QuadraticFixture.world0
    = (w', GradientChecker.calculate_diff_by
             dot (GradientChecker.roll_params (GradientChecker.layers m1)
                                              GradientChecker.Grads)
             (numeric_gradient QuadraticFixture.forward QuadraticFixture.cost
                               ThresholdFixture.half tt tt m1)) /\
    map GradientChecker.params (GradientChecker.layers (GradientChecker.mdl w'))
    = [Some Fixture.some_params; None] /\
    map GradientChecker.grads (GradientChecker.layers (GradientChecker.mdl w'))
    = [Some Fixture.some_params; None].
Proof.
  apply (@compute_error_outcome unit unit unit unit vec
           QuadraticFixture.forward QuadraticFixture.backward QuadraticFixture.cost
           ThresholdFixture.half tt tt dot QuadraticFixture.world0).
  - reflexivity.
  - reflexivity.
  - intros m ty. reflexivity.
  - exact quadratic_cost_of_parameters.
  - intros ty. destruct ty; repeat constructor.
  - repeat constructor.
  - intros ty. destruct ty; reflexivity.
Defined.


(* ================================================================== *)
(** * Further properties of [run] *)

Section RunOutcome.

Variables Input Target Output Caches : Type.

Variable m : GradientCheck.model Input Target Output Caches.
Variable epsilon : float64.
Variable X : Input.
Variable Y : Target.

(** [run] once the assertion has passed, written out. *)
Lemma run_unfold (log : list call) :
  GradientCheck.isinstance_Dropout (GradientCheck.regularizer m) = false ->
  let params := GradientCheck.initialize_params m X in
  let grads := analytic_gradients m X Y in
  let log1 := ((log ++ [InitializeParams]) ++ [Forward false]) ++ [Backward] in
  GradientCheck.run m epsilon X Y log
  = match GradientCheck.params_to_vector params (param_keys m) with
    | Raise e => (log1, Raise e)
    | Ok (param_theta, param_cache) =>
        match GradientCheck.params_to_vector grads (grad_keys m) with
        | Raise e => (log1, Raise e)
        | Ok (grad_theta, _) =>
            match GradientCheck.run_gradapprox m epsilon X Y param_theta param_cache log1
            with
            | (log2, Raise e) => (log2, Raise e)
            | (log2, Ok gradapprox) =>
                (log2,
                 match GradientCheck.calculate_diff grad_theta gradapprox with
                 | Raise e => Raise e
                 | Ok diff => Ok (GradientCheck.classify diff, diff)
                 end)
            end
        end
    end.
Proof.
  intros Hreg params grads log1.
  unfold GradientCheck.run, bind at 1. rewrite Hreg. cbn [negb assert ret].
  unfold bind at 1, GradientCheck.logged at 1.
  unfold bind at 1, GradientCheck.logged at 1.
  fold params. unfold grads, analytic_gradients. fold params.
  destruct (GradientCheck.propagate_forward m X params) as [AL caches].
  unfold bind at 1, GradientCheck.logged at 1. cbn [fst snd].
  fold log1. unfold param_keys, grad_keys.
  unfold bind at 1, lift at 1.
  destruct (GradientCheck.params_to_vector params _) as [[param_theta param_cache]|e];
    [|reflexivity].
  unfold bind at 1, lift at 1.
  destruct (GradientCheck.params_to_vector _ _) as [[grad_theta c]|e]; [|reflexivity].
  cbn [fst]. unfold bind at 1.
  destruct (GradientCheck.run_gradapprox m epsilon X Y param_theta param_cache log1)
    as [log2 [gradapprox|e]]; [|reflexivity].
  unfold bind, lift, ret.
  destruct (GradientCheck.calculate_diff grad_theta gradapprox); reflexivity.
Qed.

(** X13: [run] builds the keys [W0, b0, W1, b1, ...] and [dW0, db0, ...]
    from [range(len(layer_dims))]; if the freshly initialised parameters
    lack one of the former, or the gradients returned by the backward pass
    one of the latter, it raises KeyError, after the initialisation and the
    analytic forward and backward pass and before any cost is evaluated. *)
Theorem run_missing_key (log : list call) :
  GradientCheck.isinstance_Dropout (GradientCheck.regularizer m) = false ->
  forallb (present (GradientCheck.initialize_params m X)) (param_keys m) = false \/
  forallb (present (analytic_gradients m X Y)) (grad_keys m) = false ->
  GradientCheck.run m epsilon X Y log
  = (((log ++ [InitializeParams]) ++ [Forward false]) ++ [Backward], Raise KeyError).
Proof.
  intros Hreg Hmiss. rewrite (run_unfold log Hreg). cbv zeta.
  unfold GradientCheck.params_to_vector.
  destruct (params_to_vector_loop_outcome
              (GradientCheck.initialize_params m X) (param_keys m) [] [])
    as [[Hall [positions ->]]|[Hnot ->]]; [|reflexivity].
  destruct (params_to_vector_loop_outcome
              (analytic_gradients m X Y) (grad_keys m) [] [])
    as [[Hall' [positions' ->]]|[Hnot ->]]; [|reflexivity].
  destruct Hmiss as [H|H]; congruence.
Qed.

(** X14: on a model whose [layer_dims] is empty no key is listed, both flat
    vectors are empty, the loop body never runs, and [run] returns the score
    NaN (0.0 / 0.0) with the message "Passed", whatever the collaborators
    return. *)
Theorem run_without_layers (log : list call) :
  GradientCheck.isinstance_Dropout (GradientCheck.regularizer m) = false ->
  GradientCheck.layer_dims m = [] ->
  GradientCheck.run m epsilon X Y log
  = (((log ++ [InitializeParams]) ++ [Forward false]) ++ [Backward],
     Ok (GradientCheck.Passed, nan)).
Proof.
  intros Hreg Hdims. rewrite (run_unfold log Hreg). cbv zeta.
  unfold param_keys, grad_keys. rewrite Hdims. reflexivity.
Qed.

Lemma run_loop_calls (theta : vec) (cache : GradientCheck.cache_t) (range : list nat) :
  forall (J_plus J_minus g : vec) (log log' : list call) (grad : vec),
    GradientCheck.run_loop m epsilon X Y theta cache range J_plus J_minus g log
    = (log', Ok grad) ->
    log' = log ++ flat_map (fun _ => [Forward false; Cost; Forward false; Cost]) range.
Proof.
  induction range as [|i range IH]; intros Jp Jm g log log' grad H.
  - simpl in H. injection H as <- _. simpl. rewrite app_nil_r. reflexivity.
  - rewrite run_loop_cons, cost_at_spec in H.
    destruct (cost_of m X Y cache (plus epsilon theta i)) as [cp|e]; [|discriminate].
    rewrite cost_at_spec in H.
    destruct (cost_of m X Y cache (minus epsilon theta i)) as [cm|e]; [|discriminate].
    apply IH in H. rewrite H. simpl. rewrite <- !app_assoc. reflexivity.
Qed.

End RunOutcome.


Lemma run_missing_key_witness :
  GradientCheck.run OneBasedFixture.model two tt tt []
  = ([InitializeParams; Forward false; Backward], Raise KeyError).
Proof.
  apply (@run_missing_key unit unit unit unit OneBasedFixture.model two tt tt []).
  - reflexivity.
  - left. vm_compute. reflexivity.
Defined.

Lemma run_without_layers_witness :
  GradientCheck.run OneBasedFixture.bare_model two tt tt []
  = ([InitializeParams; Forward false; Backward], Ok (GradientCheck.Passed, nan)).
Proof.
  apply (@run_without_layers unit unit unit unit OneBasedFixture.bare_model two tt tt []).
  - reflexivity.
  - reflexivity.
Defined.

(* ================================================================== *)
(** * Unflattening reads the vector, and only its first coordinates *)

Lemma slice_firstn (v : vec) (n i j : nat) :
  j <= n -> slice (firstn n v) i j = slice v i j.
Proof.
  intros Hj. unfold slice. rewrite skipn_firstn_comm, firstn_firstn.
  f_equal. lia.
Qed.

Lemma vector_to_params_loop_prefix (v : vec) (n : nat) (_params : dict ndarray)
      (positions : GradientCheck.positions_t) :
  (forall key f t, In (key, (f, t)) positions -> t <= n) ->
  forall acc,
    GradientCheck.vector_to_params_loop (firstn n v) _params positions acc
    = GradientCheck.vector_to_params_loop v _params positions acc.
Proof.
  induction positions as [|[key [f t]] positions IH]; intros Hall acc; [reflexivity|].
  simpl. rewrite (@slice_firstn v n f t (Hall key f t (or_introl eq_refl))).
  destruct (dict_get _params key) as [template|]; [|reflexivity].
  destruct (reshape (slice v f t) (shape template)) as [a|e]; [|reflexivity].
  apply IH. intros k f' t' Hin. apply (Hall k f' t'). right. exact Hin.
Qed.

(** Whatever lies beyond the recorded length is not read. *)
Lemma vector_to_params_prefix (params : dict ndarray) (keys : list string)
      (theta : vec) (cache : GradientCheck.cache_t) (v : vec) :
  (forall k, In k keys -> exists m, dict_get params k = Some m /\ wf m) ->
  GradientCheck.params_to_vector params keys = Ok (theta, cache) ->
  GradientCheck.vector_to_params (firstn (length theta) v) cache
  = GradientCheck.vector_to_params v cache.
Proof.
  intros Hkeys Hflat.
  destruct (@params_to_vector_sound params keys theta cache Hkeys Hflat)
    as (_ & Hinv & _).
  destruct cache as [_params positions]. simpl in Hinv. simpl.
  apply vector_to_params_loop_prefix. intros key f t Hin.
  destruct (Hinv key f t Hin) as [Hle _]. exact Hle.
Qed.

Lemma params_to_vector_loop_keys (params : dict ndarray) (keys : list string) :
  forall theta positions theta' positions',
    GradientCheck.params_to_vector_loop params keys theta positions
    = Ok (theta', positions') ->
    forall k, In k (dict_keys positions') -> In k keys \/ In k (dict_keys positions).
Proof.
  induction keys as [|key keys IH]; intros theta positions theta' positions' H k Hk.
  - simpl in H. injection H as _ <-. right. exact Hk.
  - simpl in H. destruct (dict_get params key) as [m|]; [|discriminate].
    destruct (IH _ _ _ _ H k Hk) as [Hin|Hin].
    + left. right. exact Hin.
    + destruct (@dict_set_keys_In _ _ _ _ _ Hin) as [Hold| ->].
      * right. exact Hold.
      * left. left. reflexivity.
Qed.

(** The dictionary-based roller the other way round, on a vector at least as
    long as the one recorded: the dict returned has the keys and shapes of the
    template, keeps what is not listed and, for distinct keys, flattens back
    to the first coordinates of the vector. *)
Lemma vector_to_params_reads (params : dict ndarray) (keys : list string)
      (theta : vec) (cache : GradientCheck.cache_t) (v : vec) :
  (forall k, In k keys -> exists m, dict_get params k = Some m /\ wf m) ->
  GradientCheck.params_to_vector params keys = Ok (theta, cache) ->
  length theta <= length v ->
  exists p,
    GradientCheck.vector_to_params v cache = Ok p /\
    dict_skeleton p = dict_skeleton params /\
    (forall k, ~ In k keys -> dict_get p k = dict_get params k) /\
    (NoDup keys ->
     exists cache',
       GradientCheck.params_to_vector p keys = Ok (firstn (length theta) v, cache')).
Proof.
  intros Hkeys Hflat Hlong.
  destruct (@params_to_vector_sound params keys theta cache Hkeys Hflat)
    as (_ & Hinv & _).
  unfold GradientCheck.params_to_vector in Hflat.
  destruct (GradientCheck.params_to_vector_loop params keys [] [])
    as [[theta' positions]|e] eqn:Hloop; [|discriminate].
  injection Hflat as <- <-. simpl in Hinv.
  destruct (@vector_to_params_loop_ok v params positions) with (acc := params)
    as [p Hp].
  { intros key f t Hin.
    destruct (@index_sound_sizes _ _ _ _ _ _ Hinv Hin) as (Hle & m & Hm & Hsz).
    exists m. split; [exact Hm|]. rewrite slice_length. lia. }
  exists p. simpl. split; [exact Hp|].
  destruct (@vector_to_params_loop_layout v params positions params p Hp eq_refl)
    as [Hsk Hframe].
  split; [exact Hsk|]. split.
  - intros k Hk. apply Hframe. intros Hin.
    destruct (@params_to_vector_loop_keys params keys _ _ _ _ Hloop k Hin) as [H|[]].
    apply Hk. exact H.
  - intros Hnd.
    pose proof (@params_to_vector_loop_chain params keys Hnd _ _ _ _ Hloop) as Hchain.
    pose proof (@params_to_vector_loop_NoDup params keys _ _ _ _ Hloop (NoDup_nil _))
      as Hndp.
    simpl in Hchain.
    pose proof (@vector_to_params_loop_lookup v params positions Hndp _ _ Hp) as Hlook.
    destruct (@chain_listed_data params p positions v keys Hlook _ _ Hchain)
      as (_ & Hall & Hdata).
    unfold GradientCheck.params_to_vector.
    destruct (params_to_vector_loop_outcome p keys [] [])
      as [[_ [positions' Hloop']]|[Hnot _]].
    + eexists. rewrite Hloop'. simpl. rewrite Hdata.
      unfold slice. rewrite Nat.sub_0_r. reflexivity.
    + rewrite Hall in Hnot. discriminate.
Qed.

Lemma build_dict_prefix (d : dict ndarray) :
  dict_shapes_2d d ->
  forall (v : vec) (n i : nat),
    i + dict_count d <= n ->
    build_dict (firstn n v) i (dict_skeleton d) = build_dict v i (dict_skeleton d).
Proof.
  induction 1 as [|[k a] d H2d _ IH]; intros v n i Hfit; [reflexivity|].
  simpl in H2d. destruct (is_2d_shape H2d) as (r & c & Hs).
  rewrite dict_count_cons in Hfit. unfold rows, cols in Hfit. rewrite Hs in Hfit.
  cbn [nth] in Hfit.
  cbn [dict_skeleton map build_dict fst snd]. fold (dict_skeleton d).
  rewrite Hs, size_2d.
  rewrite (@slice_firstn v n i (i + r * c)) by lia.
  rewrite (IH v n (i + r * c)) by lia. reflexivity.
Qed.

Lemma install_layers_prefix (ty : GradientChecker.param_type)
      (ls : list GradientChecker.layer) :
  shapes_2d ty ls ->
  forall (v : vec) (n i : nat),
    i + total_count ty ls <= n ->
    install_layers (firstn n v) i ls ty = install_layers v i ls ty.
Proof.
  induction 1 as [|l ls Hl _ IH]; intros v n i Hfit; [reflexivity|].
  rewrite total_count_cons in Hfit. cbn [install_layers].
  destruct (GradientChecker.getattr l ty) as [d|].
  - rewrite (@build_dict_prefix d Hl v n i) by lia.
    rewrite (IH v n (i + dict_count d)) by lia. reflexivity.
  - rewrite (IH v n i) by lia. reflexivity.
Qed.

(** [unroll_params] on a vector long enough: what lies beyond the total is
    not read, and the layers left flatten to what lies before it. *)
Lemma unroll_params_reads (ty : GradientChecker.param_type)
      (ls : list GradientChecker.layer) (v : vec) :
  shapes_2d ty ls ->
  total_count ty ls <= length v ->
  GradientChecker.unroll_params v ls ty
  = GradientChecker.unroll_params (firstn (total_count ty ls) v) ls ty /\
  GradientChecker.roll_params (fst (GradientChecker.unroll_params v ls ty)) ty
  = firstn (total_count ty ls) v.
Proof.
  intros H2d Hfit. rewrite (@unroll_params_install ty ls v H2d Hfit). split.
  - rewrite (@unroll_params_install ty ls (firstn (total_count ty ls) v) H2d)
      by (rewrite length_firstn; lia).
    rewrite (@install_layers_prefix ty ls H2d v (total_count ty ls) 0) by lia.
    reflexivity.
  - cbn [fst]. unfold GradientChecker.roll_params.
    rewrite (install_layers_roll H2d v 0).
    unfold slice. rewrite Nat.sub_0_r. reflexivity.
Qed.

(** C9 (as the code has it): neither unflatten compares lengths.  With an
    index recorded by [params_to_vector] for listed keys that are present,
    [vector_to_params] raises the ValueError of [reshape] on a vector shorter
    than the one recorded, and accepts a vector at least that long; on layers
    whose arrays are 2-D, [unroll_params] raises it on a vector shorter than
    the total element count and accepts a vector at least that long.  In both
    rollers what lies beyond the total is ignored: the outcome is that of the
    vector cut to the total, and what is installed flattens back (for the
    dictionary, with distinct keys) to the vector cut to the total. *)
Theorem unflatten_outcome
        (params : dict ndarray) (keys : list string)
        (theta : vec) (cache : GradientCheck.cache_t)
        (ty : GradientChecker.param_type) (ls : list GradientChecker.layer)
        (v : vec) :
  (forall k, In k keys -> exists m, dict_get params k = Some m /\ wf m) ->
  GradientCheck.params_to_vector params keys = Ok (theta, cache) ->
  layers_2d ty ls ->
  (length theta <= length v ->
   exists c,
     GradientCheck.vector_to_params v cache = Ok c /\
     GradientCheck.vector_to_params (firstn (length theta) v) cache = Ok c /\
     (NoDup keys ->
      exists cache',
        GradientCheck.params_to_vector c keys
        = Ok (firstn (length theta) v, cache'))) /\
  (length v < length theta ->
   GradientCheck.vector_to_params v cache = Raise ValueError) /\
  snd (GradientChecker.unroll_params v ls ty)
  = (if total_count ty ls <=? length v then Ok tt else Raise ValueError) /\
  (total_count ty ls <= length v ->
   GradientChecker.unroll_params v ls ty
   = GradientChecker.unroll_params (firstn (total_count ty ls) v) ls ty /\
   GradientChecker.roll_params (fst (GradientChecker.unroll_params v ls ty)) ty
   = firstn (total_count ty ls) v).
Proof.
  intros Hkeys Hflat H2d. split; [|split; [|split]].
  - intros Hlong.
    destruct (@vector_to_params_reads params keys theta cache v Hkeys Hflat Hlong)
      as (c & Hc & _ & _ & Hback).
    exists c. split; [exact Hc|]. split; [|exact Hback].
    rewrite (@vector_to_params_prefix params keys theta cache v Hkeys Hflat).
    exact Hc.
  - intros Hshort.
    destruct (@params_to_vector_sound params keys theta cache Hkeys Hflat)
      as (Hfst & Hinv & Hcov).
    destruct cache as [_params positions]. simpl in Hfst, Hinv, Hcov. subst _params.
    simpl. apply vector_to_params_loop_raises.
    + intros key f t Hin.
      destruct (@index_sound_sizes _ _ _ _ _ _ Hinv Hin) as (_ & m & Hm & _). congruence.
    + destruct Hcov as [->|(key & f & Hin & Hlt)]; [simpl in Hshort; lia|].
      destruct (@index_sound_sizes _ _ _ _ _ _ Hinv Hin) as (_ & m & Hm & Hsz).
      exists key, f, (length theta), m. repeat split; try assumption.
      rewrite slice_length. lia.
  - apply unroll_params_outcome. apply layers_2d_shapes. exact H2d.
  - intros Hfit. apply unroll_params_reads; [|exact Hfit].
    apply layers_2d_shapes. exact H2d.
Qed.

Lemma unflatten_outcome_witness :
  let theta := [Fixture.f_one; two; Fixture.f_three; Fixture.f_one; two; Fixture.f_three] in
  let cache := (Fixture.some_params, [("W0"%string, (0, 4)); ("b0"%string, (4, 6))]) in
  let v := [two; two; two; two; two; two; zero] in
  (exists c,
      GradientCheck.vector_to_params v cache = Ok c /\
      GradientCheck.vector_to_params [two; two; two; two; two; two] cache = Ok c /\
      exists cache',
        GradientCheck.params_to_vector c ["W0"; "b0"]%string
        = Ok ([two; two; two; two; two; two], cache')) /\
  snd (GradientChecker.unroll_params v [Fixture.dense; Fixture.activation]
                                     GradientChecker.Params)
  = Ok tt /\
  GradientChecker.roll_params
    (fst (GradientChecker.unroll_params v [Fixture.dense; Fixture.activation]
                                        GradientChecker.Params))
    GradientChecker.Params
  = [two; two; two; two; two; two].
Proof.
  intros theta cache v.
  destruct (@unflatten_outcome Fixture.some_params ["W0"; "b0"]%string theta cache
              GradientChecker.Params [Fixture.dense; Fixture.activation] v)
    as (Hlong & _ & Hout & Hreads).
  - intros k [<-|[<-|[]]]; eexists; (split; reflexivity).
  - reflexivity.
  - repeat constructor.
  - split; [|split].
    + destruct Hlong as (c & Hc & Hcut & Hback); [vm_compute; lia|].
      exists c. split; [exact Hc|]. split; [exact Hcut|].
      apply Hback. repeat constructor; simpl; intuition discriminate.
    + exact Hout.
    + destruct Hreads as [_ Hroll]; [vm_compute; lia|]. exact Hroll.
Defined.

(* ================================================================== *)
(** * The central-difference loop, both checkers *)

Lemma str_inj (a b : nat) : str a = str b -> a = b.
Proof.
  assert (Hnil : forall n, Nat.to_uint n <> Decimal.Nil).
  { intros n. rewrite <- (DecimalNat.Unsigned.of_to n) at 1.
    rewrite DecimalNat.Unsigned.to_of. apply DecimalFacts.unorm_nonnil. }
  unfold str. intros H.
  apply (f_equal NilZero.uint_of_string) in H.
  rewrite !NilZero.usu in H by apply Hnil.
  injection H as H. apply DecimalNat.Unsigned.to_uint_inj. exact H.
Qed.

Lemma append_same_length_inj (k1 k2 s1 s2 : string) :
  String.length k1 = String.length k2 ->
  (k1 ++ s1)%string = (k2 ++ s2)%string -> k1 = k2 /\ s1 = s2.
Proof.
  revert k2. induction k1 as [|c k1 IH]; intros [|c' k2] Hlen H;
    try discriminate; simpl in *.
  - split; [reflexivity | exact H].
  - injection H as -> H. injection Hlen as Hlen.
    destruct (IH k2 Hlen H) as [-> ->]. split; reflexivity.
Qed.

(** The keys [run] builds are distinct. *)
Lemma layer_keys_NoDup (k1 k2 : string) (n : nat) :
  String.length k1 = String.length k2 -> k1 <> k2 ->
  NoDup (GradientCheck.layer_keys k1 k2 n).
Proof.
  intros Hlen Hne. unfold GradientCheck.layer_keys.
  assert (Hin : forall (range : list nat) (k : string),
             In k (flat_map (fun l => [(k1 ++ str l)%string; (k2 ++ str l)%string])
                            range) ->
             exists l, In l range /\ (k = (k1 ++ str l)%string \/ k = (k2 ++ str l)%string)).
  { induction range as [|l range IH]; simpl; intros k Hk; [destruct Hk|].
    destruct Hk as [<-|[<-|Hk]].
    - exists l. split; [left; reflexivity | left; reflexivity].
    - exists l. split; [left; reflexivity | right; reflexivity].
    - destruct (IH k Hk) as (l' & Hl' & Hk'). exists l'. split; [right; exact Hl' | exact Hk']. }
  generalize (seq_NoDup n 0). generalize (seq 0 n).
  induction 1 as [|l range Hnotin _ IH]; simpl; [constructor|].
  constructor; [|constructor; [|exact IH]].
  - intros [E|Hk].
    + symmetry in E.
      destruct (@append_same_length_inj k1 k2 _ _ Hlen E) as [E' _]. contradiction.
    + destruct (Hin range _ Hk) as (l' & Hl' & [E|E]).
      * destruct (@append_same_length_inj k1 k1 _ _ eq_refl E) as [_ E'].
        apply str_inj in E'. subst l'. contradiction.
      * destruct (@append_same_length_inj k1 k2 _ _ Hlen E) as [E' _]. contradiction.
  - intros Hk. destruct (Hin range _ Hk) as (l' & Hl' & [E|E]).
    + symmetry in E.
      destruct (@append_same_length_inj k1 k2 _ _ Hlen E) as [E' _]. contradiction.
    + destruct (@append_same_length_inj k2 k2 _ _ eq_refl E) as [_ E'].
      apply str_inj in E'. subst l'. contradiction.
Qed.

Section DictLoop.

Variables Input Target Output Caches : Type.

Variable m : GradientCheck.model Input Target Output Caches.
Variable epsilon : float64.
Variable X : Input.
Variable Y : Target.

Lemma unflattens_to_cost (params : dict ndarray) (keys : list string)
      (theta : vec) (cache : GradientCheck.cache_t) (v : vec) (c : float64) :
  NoDup keys ->
  (forall k, In k keys -> exists a, dict_get params k = Some a /\ wf a) ->
  GradientCheck.params_to_vector params keys = Ok (theta, cache) ->
  length v = length theta ->
  cost_of m X Y cache v = Ok c ->
  exists p, unflattens_to params keys cache v p /\ c = dict_cost m X Y p.
Proof.
  intros Hnd Hkeys Hflat Hlen Hc.
  destruct (@vector_to_params_reads params keys theta cache v Hkeys Hflat)
    as (p & Hp & Hsk & Hframe & Hback); [lia|].
  exists p. split.
  - split; [exact Hp|]. split; [exact Hsk|]. split; [exact Hframe|].
    destruct (Hback Hnd) as [cache' Hb]. exists cache'.
    rewrite Hb, <- Hlen, firstn_all. reflexivity.
  - unfold cost_of in Hc. rewrite Hp in Hc. injection Hc as <-. reflexivity.
Qed.

(** The loop of [run]: the vector it returns, the dicts it hands to the
    forward pass, and the calls it makes. *)
Lemma dict_loop (params : dict ndarray) (keys : list string)
      (param_theta : vec) (param_cache : GradientCheck.cache_t) (log : list call) :
  NoDup keys ->
  (forall k, In k keys -> exists a, dict_get params k = Some a /\ wf a) ->
  GradientCheck.params_to_vector params keys = Ok (param_theta, param_cache) ->
  exists log' gradapprox,
    GradientCheck.run_gradapprox m epsilon X Y param_theta param_cache log
    = (log', Ok gradapprox) /\
    length gradapprox = length param_theta /\
    forall i, i < length param_theta ->
      exists theta_plus_params theta_minus_params,
        unflattens_to params keys param_cache (plus epsilon param_theta i)
                      theta_plus_params /\
        unflattens_to params keys param_cache (minus epsilon param_theta i)
                      theta_minus_params /\
        getitem gradapprox i
        = central_difference epsilon (dict_cost m X Y theta_plus_params)
                             (dict_cost m X Y theta_minus_params).
Proof.
  intros Hnd Hkeys Hflat.
  destruct (@dict_central_difference Input Target Output Caches m epsilon X Y
              params keys param_theta param_cache log Hkeys Hflat)
    as (log' & grad & E & Hl & Hgrad).
  exists log', grad. split; [exact E|]. split; [exact Hl|].
  intros i Hi. destruct (Hgrad i Hi) as (cp & cm & Hcp & Hcm & Hcd).
  destruct (@unflattens_to_cost params keys param_theta param_cache
              (plus epsilon param_theta i) cp Hnd Hkeys Hflat)
    as (pp & Hpp & ->); [unfold plus; apply length_setitem | exact Hcp |].
  destruct (@unflattens_to_cost params keys param_theta param_cache
              (minus epsilon param_theta i) cm Hnd Hkeys Hflat)
    as (pm & Hpm & ->); [unfold minus; apply length_setitem | exact Hcm |].
  exists pp, pm. split; [exact Hpp|]. split; [exact Hpm | exact Hcd].
Qed.

End DictLoop.

Section Estimator.

Variables Hidden Regularizer Caches Input Target Output DictOutput : Type.

Variable propagate_forward :
  Input -> bool -> GradientChecker.model Hidden Regularizer
  -> GradientChecker.model Hidden Regularizer * Output.
Variable compute_cost :
  Output -> Target -> GradientChecker.model Hidden Regularizer -> float64.
Variable dict_model : GradientCheck.model Input Target DictOutput Caches.

Variable eps : float64.
Variable X : Input.
Variable Y : Target.

(** C2: in both checkers the loop returns a vector [grad_approx] of the
    length of [param_theta] with, at every coordinate [i],
    [grad_approx[i] = (cost_plus - cost_minus) / (2 * eps)], where [cost_plus]
    and [cost_minus] are the model's cost on the parameters that flatten to
    the original [param_theta] with coordinate [i] alone increased,
    respectively decreased, by [eps]: the layers once [unroll_params] has
    installed that vector, the dict [vector_to_params] makes of it.  For the
    layer-based checker the forward pass in prediction mode is assumed to keep
    the keys and shapes of the collections and to have a cost that depends on
    the stored parameters only; for the dictionary-based one the keys are
    distinct, as those [run] builds are ([layer_keys_NoDup]). *)
Theorem central_difference_loop
        (w : GradientChecker.world Hidden Regularizer)
        (params : dict ndarray) (keys : list string)
        (theta : vec) (cache : GradientCheck.cache_t) (log : list call) :
  (forall m ty,
      skeleton ty (GradientChecker.layers (fst (propagate_forward X true m)))
      = skeleton ty (GradientChecker.layers m)) ->
  (forall m m',
      map GradientChecker.params (GradientChecker.layers m)
      = map GradientChecker.params (GradientChecker.layers m') ->
      predicted_cost propagate_forward compute_cost X Y m
      = predicted_cost propagate_forward compute_cost X Y m') ->
  layers_2d GradientChecker.Params (GradientChecker.layers (GradientChecker.mdl w)) ->
  NoDup keys ->
  (forall k, In k keys -> exists a, dict_get params k = Some a /\ wf a) ->
  GradientCheck.params_to_vector params keys = Ok (theta, cache) ->
  (let param_theta :=
     GradientChecker.roll_params (GradientChecker.layers (GradientChecker.mdl w))
                                 GradientChecker.Params in
   let cost_with := fun v =>
     predicted_cost propagate_forward compute_cost X Y
                    (installed v (GradientChecker.mdl w)) in
   exists w' grad_approx,
     GradientChecker.error_loop propagate_forward compute_cost eps X Y param_theta
                                (seq 0 (length param_theta))
                                (zeros (length param_theta)) w
     = (w', Ok grad_approx) /\
     length grad_approx = length param_theta /\
     forall i, i < length param_theta ->
       getitem grad_approx i
       = central_difference eps (cost_with (plus eps param_theta i))
                            (cost_with (minus eps param_theta i)) /\
       GradientChecker.roll_params
         (GradientChecker.layers (installed (plus eps param_theta i)
                                            (GradientChecker.mdl w)))
         GradientChecker.Params = plus eps param_theta i /\
       GradientChecker.roll_params
         (GradientChecker.layers (installed (minus eps param_theta i)
                                            (GradientChecker.mdl w)))
         GradientChecker.Params = minus eps param_theta i /\
       perturbs_only param_theta (plus eps param_theta i) i
                     (add (getitem param_theta i) eps) /\
       perturbs_only param_theta (minus eps param_theta i) i
                     (sub (getitem param_theta i) eps)) /\
  (exists log' gradapprox,
      GradientCheck.run_gradapprox dict_model eps X Y theta cache log
      = (log', Ok gradapprox) /\
      length gradapprox = length theta /\
      forall i, i < length theta ->
        exists theta_plus_params theta_minus_params,
          unflattens_to params keys cache (plus eps theta i) theta_plus_params /\
          unflattens_to params keys cache (minus eps theta i) theta_minus_params /\
          getitem gradapprox i
          = central_difference eps (dict_cost dict_model X Y theta_plus_params)
                               (dict_cost dict_model X Y theta_minus_params) /\
          perturbs_only theta (plus eps theta i) i (add (getitem theta i) eps) /\
          perturbs_only theta (minus eps theta i) i (sub (getitem theta i) eps)).
Proof.
  intros Hskel Hpure H2d Hnd Hkeys Hflat. split.
  - intros param_theta cost_with.
    destruct (@layer_central_difference Hidden Regularizer Input Target Output
                propagate_forward compute_cost eps X Y Hskel Hpure w H2d)
      as (w' & grad & E & Hl & Hgrad).
    exists w', grad. split; [exact E|]. split; [exact Hl|].
    intros i Hi. destruct (Hgrad i Hi) as (Hcd & Hp & Hm).
    repeat split; try assumption;
      try (apply length_setitem);
      try (apply getitem_setitem_same; exact Hi);
      intros j Hj; apply getitem_setitem_other; intros ->; apply Hj; reflexivity.
  - destruct (@dict_loop Input Target DictOutput Caches dict_model eps X Y
                params keys theta cache log Hnd Hkeys Hflat)
      as (log' & grad & E & Hl & Hgrad).
    exists log', grad. split; [exact E|]. split; [exact Hl|].
    intros i Hi. destruct (Hgrad i Hi) as (pp & pm & Hpp & Hpm & Hcd).
    exists pp, pm. split; [exact Hpp|]. split; [exact Hpm|]. split; [exact Hcd|].
    split; (split; [apply length_setitem|]; split;
            [apply getitem_setitem_same; exact Hi|];
            intros j Hj; apply getitem_setitem_other; intros ->; apply Hj; reflexivity).
Qed.

End Estimator.

Lemma central_difference_loop_witness :
  (exists w' grad_approx,
      GradientChecker.error_loop
        QuadraticFixture.forward QuadraticFixture.cost ThresholdFixture.half tt tt
        (GradientChecker.roll_params [QuadraticFixture.trained; Fixture.activation]
                                     GradientChecker.Params)
        (seq 0 6) (zeros 6) QuadraticFixture.world0
      = (w', Ok grad_approx) /\ length grad_approx = 6) /\
  (exists log' gradapprox,
      GradientCheck.run_gradapprox
        ThresholdFixture.model ThresholdFixture.half tt tt [zero]
        ([("W0"%string, mk_ndarray [1; 1] [zero]);
          ("b0"%string, ThresholdFixture.empty_bias)],
         [("W0"%string, (0, 1)); ("b0"%string, (1, 1))]) []
      = (log', Ok gradapprox) /\ length gradapprox = 1 /\
      exists theta_plus_params cache',
        GradientCheck.params_to_vector theta_plus_params ["W0"; "b0"]%string
        = Ok ([ThresholdFixture.half], cache') /\
        exists theta_minus_params,
          getitem gradapprox 0
          = central_difference
              ThresholdFixture.half
              (dict_cost ThresholdFixture.model tt tt theta_plus_params)
              (dict_cost ThresholdFixture.model tt tt theta_minus_params)).
Proof.
  destruct (@central_difference_loop
              unit unit unit unit unit vec float64
              QuadraticFixture.forward QuadraticFixture.cost ThresholdFixture.model
              ThresholdFixture.half tt tt
              QuadraticFixture.world0
              [("W0"%string, mk_ndarray [1; 1] [zero]);
               ("b0"%string, ThresholdFixture.empty_bias)]
              ["W0"; "b0"]%string
              [zero]
              ([("W0"%string, mk_ndarray [1; 1] [zero]);
                ("b0"%string, ThresholdFixture.empty_bias)],
               [("W0"%string, (0, 1)); ("b0"%string, (1, 1))])
              [])
    as [Hlayer Hdict].
  - intros m ty. reflexivity.
  - exact quadratic_cost_of_parameters.
  - repeat constructor.
  - repeat constructor; simpl; intuition discriminate.
  - intros k [<-|[<-|[]]]; eexists; (split; reflexivity).
  - reflexivity.
  - split.
    + destruct Hlayer as (w' & g & E & Hl & _). exists w', g. split; [exact E | exact Hl].
    + destruct Hdict as (log' & g & E & Hl & Hg). exists log', g.
      split; [exact E|]. split; [exact Hl|].
      destruct (Hg 0) as (pp & pm & (_ & _ & _ & cache' & Hpp) & _ & Hcd & _);
        [simpl; lia|].
      exists pp, cache'. split; [exact Hpp|]. exists pm. exact Hcd.
Defined.

(* ================================================================== *)
(** * The scorer, in whatever order numpy adds up the squares *)

Lemma add_zero_nonneg (y : float64) : nonneg_or_nan y = true -> add zero y = y.
Proof.
  destruct y as [[|]|[|]| |[|] m e]; simpl; intros H; try discriminate; reflexivity.
Qed.

(** The sum taken from the left is one of the sums [sums_squares] describes. *)
Lemma sequential_sums_squares : sums_squares dot.
Proof.
  constructor.
  - intros x. unfold dot. simpl. apply add_zero_nonneg, mul_self_nonneg.
  - intros u v H. apply dot_self_abs. exact H.
  - intros v H. unfold dot. apply dot_self_zero_from. exact H.
Qed.

(** With it, the scorers and the drivers are those of the sections above. *)
Lemma calculate_diff_by_sequential (A B : vec) :
  GradientChecker.calculate_diff_by dot A B = GradientChecker.calculate_diff A B /\
  GradientCheck.calculate_diff_by dot A B = GradientCheck.calculate_diff A B.
Proof. split; reflexivity. Qed.

Lemma run_by_sequential (Input Target Output Caches : Type)
      (m : GradientCheck.model Input Target Output Caches) (epsilon : float64)
      (X : Input) (Y : Target) :
  GradientCheck.run_by m epsilon dot X Y = GradientCheck.run m epsilon X Y.
Proof. reflexivity. Qed.

Lemma compute_error_by_sequential (Hidden Regularizer Input Target Output : Type)
      (propagate_forward :
         Input -> bool -> GradientChecker.model Hidden Regularizer
         -> GradientChecker.model Hidden Regularizer * Output)
      (propagate_backward :
         Output -> Target -> GradientChecker.model Hidden Regularizer
         -> GradientChecker.model Hidden Regularizer)
      (compute_cost :
         Output -> Target -> GradientChecker.model Hidden Regularizer -> float64)
      (eps : float64) (X : Input) (Y : Target) :
  GradientChecker.compute_error_by propagate_forward propagate_backward compute_cost
                                   eps dot X Y
  = GradientChecker.compute_error propagate_forward propagate_backward compute_cost
                                  eps X Y.
Proof. reflexivity. Qed.

(** C5 (as the code has it).  [s] stands for numpy's [x.dot(x)], the sum of
    the squares in whatever order numpy adds them.  Both scorers return
    [sqrt(s(A - B)) / (sqrt(s(A)) + sqrt(s(B)))] computed in binary64, the
    dictionary-based one with every norm [n] taken a second time, that is
    replaced by [sqrt(n * n)]; the score of [(A, B)] and of [(B, A)] is one
    and the same result; and the score of [A] against itself is zero whenever
    the entries of [A] are finite and the denominator computed is a non-zero
    number. *)
Theorem scorer_properties (s : vec -> vec -> float64) (A B : vec) :
  sums_squares s ->
  let norm := fun x : vec => sqrt (s x x) in
  let again := fun n : float64 => sqrt (mul n n) in
  (forall d, subtract A B = Ok d ->
             GradientChecker.calculate_diff_by s A B
             = Ok (div (norm d) (add (norm A) (norm B))) /\
             GradientCheck.calculate_diff_by s A B
             = Ok (div (again (norm d)) (add (again (norm A)) (again (norm B))))) /\
  (GradientChecker.calculate_diff_by s A B = GradientChecker.calculate_diff_by s B A /\
   GradientCheck.calculate_diff_by s A B = GradientCheck.calculate_diff_by s B A) /\
  (all_finite A ->
   (nonzero_number (add (norm A) (norm A)) ->
    exists z, GradientChecker.calculate_diff_by s A A = Ok z /\ is_zero z = true) /\
   (nonzero_number (add (again (norm A)) (again (norm A))) ->
    exists z, GradientCheck.calculate_diff_by s A A = Ok z /\ is_zero z = true)).
Proof.
  intros Hs norm again.
  assert (Hdict : forall u v d : vec,
             subtract u v = Ok d ->
             GradientCheck.calculate_diff_by s u v
             = Ok (div (again (norm d)) (add (again (norm u)) (again (norm v))))).
  { intros u v d Hd. unfold GradientCheck.calculate_diff_by. rewrite Hd.
    unfold norm_scalar_by, norm_by. rewrite !(dot_single Hs). reflexivity. }
  assert (Hlayer : forall u v d : vec,
             subtract u v = Ok d ->
             GradientChecker.calculate_diff_by s u v
             = Ok (div (norm d) (add (norm u) (norm v)))).
  { intros u v d Hd. unfold GradientChecker.calculate_diff_by. rewrite Hd. reflexivity. }
  split; [|split].
  - intros d Hd. split; [apply Hlayer | apply Hdict]; exact Hd.
  - destruct (subtract_swap A B) as [(d & d' & Hd & Hd' & Hdd)|[Hr Hr']].
    + rewrite (Hlayer A B d Hd), (Hlayer B A d' Hd'), (Hdict A B d Hd), (Hdict B A d' Hd').
      unfold norm. rewrite (dot_magnitudes Hs Hdd).
      rewrite (add_comm (sqrt (s A A)) (sqrt (s B B))).
      rewrite (add_comm (again (sqrt (s A A))) (again (sqrt (s B B)))).
      split; reflexivity.
    + unfold GradientChecker.calculate_diff_by, GradientCheck.calculate_diff_by.
      rewrite Hr, Hr'. split; reflexivity.
  - intros HA. destruct (subtract_self HA) as (d & Hd & Hz).
    rewrite (Hlayer A A d Hd), (Hdict A A d Hd).
    assert (Hn : norm d = zero).
    { unfold norm. rewrite (dot_zeros Hs Hz). reflexivity. }
    rewrite Hn.
    split; intros Hden; eexists; (split; [reflexivity | apply div_zero_number; exact Hden]).
Qed.

Lemma scorer_properties_witness :
  (exists z, GradientChecker.calculate_diff [Fixture.f_one; two] [Fixture.f_one; two]
             = Ok z /\ is_zero z = true) /\
  (exists z, GradientCheck.calculate_diff [Fixture.f_one; two] [Fixture.f_one; two]
             = Ok z /\ is_zero z = true).
Proof.
  pose proof (proj2 (proj2 (@scorer_properties dot [Fixture.f_one; two] [two]
                                               sequential_sums_squares))) as H.
  assert (Hfin : all_finite [Fixture.f_one; two]) by (repeat constructor).
  destruct (H Hfin) as [H1 H2]. split.
  - apply H1. split; [vm_compute; discriminate | vm_compute; reflexivity].
  - apply H2. split; [vm_compute; discriminate | vm_compute; reflexivity].
Defined.

(* ================================================================== *)
(** * What [run] returns *)

Section RunByOutcome.

Variables Input Target Output Caches : Type.

Variable m : GradientCheck.model Input Target Output Caches.
Variable epsilon : float64.
Variable s : vec -> vec -> float64.
Variable X : Input.
Variable Y : Target.

(** [run] once the assertion has passed, written out. *)
Lemma run_by_unfold (log : list call) :
  GradientCheck.isinstance_Dropout (GradientCheck.regularizer m) = false ->
  let params := GradientCheck.initialize_params m X in
  let grads := analytic_gradients m X Y in
  let log1 := ((log ++ [InitializeParams]) ++ [Forward false]) ++ [Backward] in
  GradientCheck.run_by m epsilon s X Y log
  = match GradientCheck.params_to_vector params (param_keys m) with
    | Raise e => (log1, Raise e)
    | Ok (param_theta, param_cache) =>
        match GradientCheck.params_to_vector grads (grad_keys m) with
        | Raise e => (log1, Raise e)
        | Ok (grad_theta, _) =>
            match GradientCheck.run_gradapprox m epsilon X Y param_theta param_cache log1
            with
            | (log2, Raise e) => (log2, Raise e)
            | (log2, Ok gradapprox) =>
                (log2,
                 match GradientCheck.calculate_diff_by s grad_theta gradapprox with
                 | Raise e => Raise e
                 | Ok diff => Ok (GradientCheck.classify diff, diff)
                 end)
            end
        end
    end.
Proof.
  intros Hreg params grads log1.
  unfold GradientCheck.run_by, bind at 1. rewrite Hreg. cbn [negb assert ret].
  unfold bind at 1, GradientCheck.logged at 1.
  unfold bind at 1, GradientCheck.logged at 1.
  fold params. unfold grads, analytic_gradients. fold params.
  destruct (GradientCheck.propagate_forward m X params) as [AL caches].
  unfold bind at 1, GradientCheck.logged at 1. cbn [fst snd].
  fold log1. unfold param_keys, grad_keys.
  unfold bind at 1, lift at 1.
  destruct (GradientCheck.params_to_vector params _) as [[param_theta param_cache]|e];
    [|reflexivity].
  unfold bind at 1, lift at 1.
  destruct (GradientCheck.params_to_vector _ _) as [[grad_theta c]|e]; [|reflexivity].
  cbn [fst]. unfold bind at 1.
  destruct (GradientCheck.run_gradapprox m epsilon X Y param_theta param_cache log1)
    as [log2 [gradapprox|e]]; [|reflexivity].
  unfold bind, lift, ret.
  destruct (GradientCheck.calculate_diff_by s grad_theta gradapprox); reflexivity.
Qed.

(** X15: what [run] does when every key is there (arrays of the parameters
    well formed), in whatever order numpy adds up the squares of a norm
    ([s] stands for its [x.dot(x)]): after the initialisation and the analytic
    pass it makes two forward passes and two cost evaluations per parameter
    coordinate, each on the dict that flattens, with the keys of [run], to
    the parameter vector with that coordinate alone moved by [epsilon]; it
    builds the vector of central differences of these costs and returns the
    scorer's result on the flattened gradients and that vector, with the
    message its comparison with 2e-7 selects; if the scorer raises, its
    ValueError. *)
Theorem run_outcome (log : list call) :
  let params := GradientCheck.initialize_params m X in
  let grads := analytic_gradients m X Y in
  GradientCheck.isinstance_Dropout (GradientCheck.regularizer m) = false ->
  (forall k, In k (param_keys m) -> exists a, dict_get params k = Some a /\ wf a) ->
  forallb (present grads) (grad_keys m) = true ->
  exists param_cache gradapprox,
    let param_theta := listed_data params (param_keys m) in
    let grad_theta := listed_data grads (grad_keys m) in
    GradientCheck.params_to_vector params (param_keys m) = Ok (param_theta, param_cache) /\
    GradientCheck.run_by m epsilon s X Y log
    = ((((log ++ [InitializeParams]) ++ [Forward false]) ++ [Backward])
         ++ loop_calls false (length param_theta),
       match GradientCheck.calculate_diff_by s grad_theta gradapprox with
       | Raise e => Raise e
       | Ok diff => Ok (GradientCheck.classify diff, diff)
       end) /\
    length gradapprox = length param_theta /\
    forall i, i < length param_theta ->
      exists theta_plus_params theta_minus_params,
        unflattens_to params (param_keys m) param_cache (plus epsilon param_theta i)
                      theta_plus_params /\
        unflattens_to params (param_keys m) param_cache (minus epsilon param_theta i)
                      theta_minus_params /\
        getitem gradapprox i
        = central_difference epsilon (dict_cost m X Y theta_plus_params)
                             (dict_cost m X Y theta_minus_params).
Proof.
  intros params grads Hreg Hkeys Hgrads.
  assert (Hp : exists positions,
             GradientCheck.params_to_vector params (param_keys m)
             = Ok (listed_data params (param_keys m), (params, positions))).
  { unfold GradientCheck.params_to_vector.
    destruct (params_to_vector_loop_outcome params (param_keys m) [] [])
      as [[_ [positions ->]]|[Hnot _]]; [eexists; reflexivity|].
    exfalso. apply Bool.not_true_iff_false in Hnot. apply Hnot.
    apply forallb_forall. intros k Hk. unfold present.
    destruct (Hkeys k Hk) as (a & -> & _). reflexivity. }
  destruct Hp as [positions Hflat].
  assert (Hg : exists positions',
             GradientCheck.params_to_vector grads (grad_keys m)
             = Ok (listed_data grads (grad_keys m), (grads, positions'))).
  { unfold GradientCheck.params_to_vector.
    destruct (params_to_vector_loop_outcome grads (grad_keys m) [] [])
      as [[_ [positions' ->]]|[Hnot _]]; [eexists; reflexivity|].
    fold grads in Hgrads. congruence. }
  destruct Hg as [positions' Hgflat].
  set (log1 := ((log ++ [InitializeParams]) ++ [Forward false]) ++ [Backward]).
  assert (Hnd : NoDup (param_keys m)).
  { unfold param_keys. apply layer_keys_NoDup; [reflexivity | discriminate]. }
  destruct (@dict_loop Input Target Output Caches m epsilon X Y
              params (param_keys m) _ _ log1 Hnd Hkeys Hflat)
    as (log2 & gradapprox & Eloop & Hlen & Hcd).
  exists (params, positions), gradapprox. cbv zeta.
  split; [exact Hflat|]. split; [|split; [exact Hlen | exact Hcd]].
  rewrite (run_by_unfold log Hreg). cbv zeta.
  fold params. fold grads. rewrite Hflat, Hgflat. fold log1. rewrite Eloop.
  f_equal.
  unfold GradientCheck.run_gradapprox in Eloop.
  apply run_loop_calls in Eloop. exact Eloop.
Qed.

End RunByOutcome.

Lemma run_outcome_witness :
  exists gradapprox,
    GradientCheck.run_by ThresholdFixture.model ThresholdFixture.half dot tt tt []
    = ([InitializeParams; Forward false; Backward]
         ++ loop_calls false 1,
       match GradientCheck.calculate_diff_by dot [ThresholdFixture.g_analytic] gradapprox
       with
       | Raise e => Raise e
       | Ok diff => Ok (GradientCheck.classify diff, diff)
       end) /\
    length gradapprox = 1 /\
    exists theta_plus_params cache',
      GradientCheck.params_to_vector theta_plus_params ["W0"; "b0"]%string
      = Ok ([ThresholdFixture.half], cache').
Proof.
  destruct (@run_outcome unit unit float64 unit
              ThresholdFixture.model ThresholdFixture.half dot tt tt [])
    as (param_cache & gradapprox & _ & Erun & Hlen & Hcd).
  - reflexivity.
  - intros k [<-|[<-|[]]]; eexists; (split; reflexivity).
  - vm_compute. reflexivity.
  - exists gradapprox. split; [exact Erun|]. split; [exact Hlen|].
    destruct (Hcd 0) as (pp & _ & (_ & _ & _ & cache' & Hpp) & _); [simpl; lia|].
    exists pp, cache'. exact Hpp.
Defined.
